(** * OptiBlend: the blend-optimisation core

    A shallow embedding of the two linear-programming formulations of the
    repository:

    - [waste_management.py]: the [WasteStream] and
      [KilnOperationalParameters] data classes;
    - [optimization_engine.py]: [calculate_optimal_mix], the free-allocation
      formulation handed to [scipy.optimize.linprog];
    - [advanced_optimizer.py]: [WasteMixOptimizer.solve_optimal_mix], the
      50/50 protocol formulation handed to PuLP;

    and of the modules around them: [inventory_manager.py],
    [operator_cli.py], [waste_analysis.py], [api.py], [vision_analyzer.py],
    [virtual_scale.py] and [recipe_manager.py].

    Python floats are idealised as the rationals [Q]: the decimal literals of
    the source denote their exact decimal value and arithmetic does not
    round.  The two solvers are external collaborators; [calculate_optimal_mix]
    and [solve_optimal_mix] take the solver as an argument, and the
    statements below quantify over it or over the outcome it hands back.
    What the two libraries do around the solver is part of the model where
    the result depends on it: scipy refuses a program without variables,
    and PuLP leaves an objective without variables without a value. *)

From Stdlib Require Import QArith Qround Qabs Lqa Lia.
From stdpp Require Import gmap strings list fin_maps pretty sorting.

Local Open Scope Q_scope.

(** ** Python values used by the source *)

Module Py.

Inductive exn : Type :=
| ValueError (msg : string)
| TypeError
| IndexError.

Inductive result (A : Type) : Type :=
| Return (a : A)
| Raise (e : exn).
Arguments Return {A} a.
Arguments Raise {A} e.

Definition bind {A B : Type} (m : result A) (k : A -> result B) : result B :=
  match m with
  | Return a => k a
  | Raise e => Raise e
  end.

Definition Qltb (a b : Q) : bool := negb (Qle_bool b a).

(** [bool(x)] of a float: false exactly at zero. *)
Definition truthy (q : Q) : bool := negb (Qeq_bool q 0).

Definition pow10 (n : nat) : Z := (10 ^ Z.of_nat n)%Z.

(** The integer nearest to [s], ties going to the even neighbour. *)
Definition nearest_even (s : Q) : Z :=
  let f := Qfloor s in
  match Qcompare (s - inject_Z f) (1 # 2) with
  | Lt => f
  | Gt => (f + 1)%Z
  | Eq => if Z.even f then f else (f + 1)%Z
  end.

(** The built-in [round(q, ndigits)]. *)
Definition round (q : Q) (ndigits : nat) : Q :=
  Qred (inject_Z (nearest_even (q * inject_Z (pow10 ndigits)))
        / inject_Z (pow10 ndigits)).

(** Half a unit of the last decimal kept by [round(_, ndigits)]. *)
Definition half_unit (ndigits : nat) : Q :=
  (1 # 2) / inject_Z (pow10 ndigits).

(** [reported] is [exact] rounded to [ndigits] decimals, hence within half a
    unit of the last decimal of it. *)
Definition rounding_of (ndigits : nat) (exact reported : Q) : Prop :=
  reported = round exact ndigits /\
  Qabs (reported - exact) <= half_unit ndigits.

(** The built-in [sum] of a list of floats. *)
Definition sum (l : list Q) : Q := foldr Qplus 0 l.

End Py.

#[export] Instance result_ret : MRet Py.result := @Py.Return.
#[export] Instance result_bind : MBind Py.result :=
  fun A B k m => Py.bind m k.

(** ** waste_management.py *)

Module WasteManagement.

Record WasteStream : Type := mkWasteStream {
  name : string;
  pci_value : Q;
  humidity : Q;
  chloride_content : Q;
  sulfur_content : Q;
  density : Q;
  cost : Q;
  available_mass : Q
}.

(** [WasteStream.__post_init__] *)
Definition post_init (self : WasteStream) : Py.result WasteStream :=
  if Py.Qltb (pci_value self) 0 then
    Py.Raise (Py.ValueError "PCI value cannot be negative")
  else if Py.Qltb (available_mass self) 0 then
    Py.Raise (Py.ValueError "Available mass cannot be negative")
  else Py.Return self.

(** The constructor call [WasteStream(name, pci_value, ...)]: the generated
    [__init__] stores the fields, then runs [__post_init__]. *)
Definition new_WasteStream (name : string)
    (pci_value humidity chloride_content sulfur_content density cost
       available_mass : Q) : Py.result WasteStream :=
  post_init (mkWasteStream name pci_value humidity chloride_content
               sulfur_content density cost available_mass).

Record KilnOperationalParameters : Type := mkKilnOperationalParameters {
  target_pci : Q;
  max_sulfur : Q;
  max_chloride : Q;
  target_tsr : Q;
  feed_rate_capacity : Q
}.

End WasteManagement.

(** ** optimization_engine.py *)

Module OptimizationEngine.
Import WasteManagement.

(** The arguments of [linprog(c, A_ub=, b_ub=, bounds=, method='highs')]:
    minimise [c @ x] subject to [A_ub @ x <= b_ub] and the bounds. *)
Record LinProg : Type := mkLinProg {
  c : list Q;
  A_ub : list (list Q);
  b_ub : list Q;
  bounds : list (Q * Q)
}.

(** The fields of scipy's [OptimizeResult] that the source reads. *)
Record OptimizeResult : Type := mkOptimizeResult {
  success : bool;
  x : list Q;
  message : string
}.

Definition sulfur_coeffs (waste_streams : list WasteStream)
    (params : KilnOperationalParameters) : list Q :=
  map (fun w => sulfur_content w - max_sulfur params) waste_streams.

Definition chloride_coeffs (waste_streams : list WasteStream)
    (params : KilnOperationalParameters) : list Q :=
  map (fun w => chloride_content w - max_chloride params) waste_streams.

Definition pci_lower_coeffs (waste_streams : list WasteStream)
    (params : KilnOperationalParameters) : list Q :=
  map (fun w => - (pci_value w - 0.95 * target_pci params)) waste_streams.

Definition pci_upper_coeffs (waste_streams : list WasteStream)
    (params : KilnOperationalParameters) : list Q :=
  map (fun w => pci_value w - 1.05 * target_pci params) waste_streams.

(** Lines 17-89: the model builder. *)
Definition build_lp (waste_streams : list WasteStream)
    (params : KilnOperationalParameters) : LinProg :=
  {| c := map (fun w => cost w - 100000) waste_streams;
     A_ub := [ replicate (length waste_streams) 1;
               sulfur_coeffs waste_streams params;
               chloride_coeffs waste_streams params;
               pci_lower_coeffs waste_streams params;
               pci_upper_coeffs waste_streams params ];
     b_ub := [ feed_rate_capacity params; 0; 0; 0; 0 ];
     bounds := map (fun w => (0, available_mass w)) waste_streams |}.

(** The accumulators of the loop of lines 95-109. *)
Record Totals : Type := mkTotals {
  result_mix : gmap string Q;
  total_mass : Q;
  total_heat : Q;
  total_sulfur_mass : Q;
  total_chloride_mass : Q;
  total_cost : Q
}.

Definition totals0 : Totals := mkTotals ∅ 0 0 0 0 0.

Definition accumulate (w : WasteStream) (val : Q) (t : Totals) : Totals :=
  {| result_mix := <[name w := Py.round val 2]> (result_mix t);
     total_mass := total_mass t + val;
     total_heat := total_heat t + val * pci_value w;
     total_sulfur_mass := total_sulfur_mass t + val * sulfur_content w;
     total_chloride_mass := total_chloride_mass t + val * chloride_content w;
     total_cost := total_cost t + val * cost w |}.

(** [for i, val in enumerate(res.x)], started at index [i]. *)
Fixpoint enumerate_loop (waste_streams : list WasteStream) (i : nat)
    (xs : list Q) (t : Totals) : Py.result Totals :=
  match xs with
  | [] => Py.Return t
  | val :: xs' =>
      if Py.Qltb 0.001 val then
        match waste_streams !! i with
        | Some w => enumerate_loop waste_streams (S i) xs' (accumulate w val t)
        | None => Py.Raise Py.IndexError
        end
      else enumerate_loop waste_streams (S i) xs' t
  end.

(** [a / m if m > 0 else 0] *)
Definition average (a m : Q) : Q := if Py.Qltb 0 m then a / m else 0.

Record Achieved : Type := mkAchieved {
  mix_ton_per_hour : gmap string Q;
  total_feed_rate : Q;
  avg_pci : Q;
  avg_sulfur_percent : Q;
  avg_chloride_percent : Q;
  total_cost_per_hour : Q;
  tsr_projection : string
}.

(** The dictionary returned by [calculate_optimal_mix]: one shape per
    branch of [if res.success]. *)
Inductive MixReport : Type :=
| TargetAchieved (a : Achieved)
| OptimizationFailed (reason : string).

Definition status (r : MixReport) : string :=
  match r with
  | TargetAchieved _ => "Target Achieved"
  | OptimizationFailed _ => "Optimization Failed"
  end.

Definition achieved_of (t : Totals) : Achieved :=
  {| mix_ton_per_hour := result_mix t;
     total_feed_rate := Py.round (total_mass t) 2;
     avg_pci := Py.round (average (total_heat t) (total_mass t)) 2;
     avg_sulfur_percent :=
       Py.round (average (total_sulfur_mass t) (total_mass t)) 4;
     avg_chloride_percent :=
       Py.round (average (total_chloride_mass t) (total_mass t)) 4;
     total_cost_per_hour := Py.round (total_cost t) 2;
     tsr_projection :=
       "Calculated based on fossil fuel baseline (not provided)" |}.

(** Lines 94-129: the result interpreter. *)
Definition interpret (waste_streams : list WasteStream)
    (res : OptimizeResult) : Py.result MixReport :=
  if success res then
    t ← enumerate_loop waste_streams 0 (x res) totals0;
    mret (TargetAchieved (achieved_of t))
  else Py.Return (OptimizationFailed (message res)).

(** The text of the [ValueError] with which scipy refuses a cost vector
    without entries. *)
Definition no_variables : string :=
  "Invalid input for linprog: c must be a 1-D array and must not have more than one non-singleton dimension".

(** The call [linprog(c, A_ub=A_ub, b_ub=b_ub, bounds=bounds, method='highs')]
    of line 92.  scipy checks the arguments before it solves: a cost vector
    without entries, which is what an empty list of streams gives, is
    refused with [ValueError].  [linprog] stands for the rest of the call,
    the answer of the solver on a program that has variables. *)
Definition call_linprog (linprog : LinProg -> OptimizeResult) (lp : LinProg)
    : Py.result OptimizeResult :=
  match c lp with
  | [] => Py.Raise (Py.ValueError no_variables)
  | _ :: _ => Py.Return (linprog lp)
  end.

Definition calculate_optimal_mix (linprog : LinProg -> OptimizeResult)
    (waste_streams : list WasteStream) (params : KilnOperationalParameters)
    : Py.result MixReport :=
  res ← call_linprog linprog (build_lp waste_streams params);
  interpret waste_streams res.

(** *** What the linear program means *)

Fixpoint dot (row xs : list Q) : Q :=
  match row, xs with
  | a :: row', v :: xs' => a * v + dot row' xs'
  | _, _ => 0
  end.

Definition within (b : Q * Q) (v : Q) : Prop := fst b <= v /\ v <= snd b.

(** [A_ub @ x <= b_ub], row by row. *)
Definition rows_hold (lp : LinProg) (xs : list Q) : Prop :=
  Forall2 (fun row b => dot row xs <= b) (A_ub lp) (b_ub lp).

Definition feasible (lp : LinProg) (xs : list Q) : Prop :=
  length xs = length (c lp) /\
  rows_hold lp xs /\
  Forall2 within (bounds lp) xs.

Definition optimal (lp : LinProg) (xs : list Q) : Prop :=
  feasible lp xs /\ forall ys, feasible lp ys -> dot (c lp) xs <= dot (c lp) ys.

(** The weighted sum [Σ x_i * P_i] of a property over an allocation. *)
Definition weighted (P : WasteStream -> Q) (waste_streams : list WasteStream)
    (xs : list Q) : Q :=
  dot (map P waste_streams) xs.

Definition mass (xs : list Q) : Q := Py.sum xs.

(** The linear form [Σ x_i * (P_i - L)] of a limit [L] on a property [P]. *)
Definition linear_form (P : WasteStream -> Q) (L : Q)
    (waste_streams : list WasteStream) (xs : list Q) : Q :=
  Py.sum (zip_with (fun w v => v * (P w - L)) waste_streams xs).

(** The mix average [(Σ x_i * P_i) / (Σ x_i)] of a property. *)
Definition mix_average (P : WasteStream -> Q)
    (waste_streams : list WasteStream) (xs : list Q) : Q :=
  weighted P waste_streams xs / mass xs.

(** Two streams that agree on every field but [humidity] and [density]. *)
Definition agree_off_humidity_density (w w' : WasteStream) : Prop :=
  name w = name w' /\ pci_value w = pci_value w' /\
  chloride_content w = chloride_content w' /\
  sulfur_content w = sulfur_content w' /\
  cost w = cost w' /\ available_mass w = available_mass w'.

(** The answer of a solver on a program whose stocks can all be used in
    full: every variable at its upper bound. *)
Definition all_stock (lp : LinProg) : OptimizeResult :=
  {| success := true;
     x := map snd (bounds lp);
     message := "Optimization terminated successfully." |}.

(** The entries that the loop keeps: [if val > 1e-3]. *)
Definition kept (val : Q) : bool := Py.Qltb 0.001 val.

(** [Σ f w_i x_i] over the kept entries of the solution vector. *)
Definition kept_sum (f : WasteStream -> Q -> Q)
    (waste_streams : list WasteStream) (xs : list Q) : Q :=
  Py.sum (zip_with (fun w v => if kept v then f w v else 0) waste_streams xs).

Definition kept_mass := kept_sum (fun _ v => v).
Definition kept_heat := kept_sum (fun w v => v * pci_value w).
Definition kept_sulfur := kept_sum (fun w v => v * sulfur_content w).
Definition kept_chloride := kept_sum (fun w v => v * chloride_content w).
Definition kept_cost := kept_sum (fun w v => v * cost w).

(** The same sums taken over the allocation that the result reports:
    [mix[w.name]] tons of each stream, nothing where the name is absent. *)
Definition reported (mix : gmap string Q) (w : WasteStream) : Q :=
  default 0 (mix !! name w).

Definition reported_sum (f : WasteStream -> Q -> Q)
    (waste_streams : list WasteStream) (mix : gmap string Q) : Q :=
  Py.sum (map (fun w => f w (reported mix w)) waste_streams).

(** Two streams whose stock is a few kilograms, and a kiln that can take
    both in full. *)
Definition small_streams : list WasteStream :=
  [ mkWasteStream "Tires" 7500 0.02 0.01 1.5 0.4 50 0.014;
    mkWasteStream "Industrial_Sludge" 1500 0.60 0.02 0.8 1.1 10 0.006 ].

Definition small_params : KilnOperationalParameters :=
  mkKilnOperationalParameters 5700 2 0.8 0.8 15.

(** The small request, with a stream whose stock is exhausted. *)
Definition small_streams_no_biomass : list WasteStream :=
  small_streams ++ [ mkWasteStream "Biomass_Agro" 3200 0.30 0.05 0.1 0.3 10 0 ].

(** Solvers that fail, for one reason or another. *)
Definition report_infeasible : LinProg -> OptimizeResult :=
  fun _ => {| success := false; x := [];
              message := "The problem is infeasible." |}.

Definition report_numerical : LinProg -> OptimizeResult :=
  fun _ => {| success := false; x := [];
              message := "Numerical difficulties encountered." |}.

(** The request of the module's [__main__] block. *)
Definition streams : list WasteStream :=
  [ mkWasteStream "Tires" 7500 0.02 0.01 1.5 0.4 50 5;
    mkWasteStream "RDF_High_Quality" 4500 0.15 0.5 0.3 0.2 20 10;
    mkWasteStream "Biomass_Agro" 3200 0.30 0.05 0.1 0.3 10 20;
    mkWasteStream "Industrial_Sludge" 1200 0.60 0.02 0.8 1.1 (-10) 8 ].

Definition params : KilnOperationalParameters :=
  mkKilnOperationalParameters 4500 1 0.8 0.8 15.

(** The same kiln with a negative feed-rate capacity. *)
Definition negative_capacity : KilnOperationalParameters :=
  mkKilnOperationalParameters 4500 1 0.8 0.8 (-1).

(** Two streams that agree on every field but [name]. *)
Definition agree_off_name (w w' : WasteStream) : Prop :=
  pci_value w = pci_value w' /\ humidity w = humidity w' /\
  chloride_content w = chloride_content w' /\
  sulfur_content w = sulfur_content w' /\ density w = density w' /\
  cost w = cost w' /\ available_mass w = available_mass w'.

(** Two entries under one name, the first of them without stock. *)
Definition same_name_streams : list WasteStream :=
  [ mkWasteStream "Tires" 5700 0.02 0.01 1.5 0.4 50 0;
    mkWasteStream "Tires" 5700 0.02 0.01 1.5 0.4 50 0.014 ].

(** The small request with both streams under one name. *)
Definition small_streams_one_name : list WasteStream :=
  [ mkWasteStream "Waste" 7500 0.02 0.01 1.5 0.4 50 0.014;
    mkWasteStream "Waste" 1500 0.60 0.02 0.8 1.1 10 0.006 ].

End OptimizationEngine.

(** ** advanced_optimizer.py *)

Module AdvancedOptimizer.

(** One entry of [waste_data]: a dictionary read through the keys below;
    ['stock'] is read with [w.get('stock', 0)], so it may be missing. *)
Record Waste : Type := mkWaste {
  name : string;
  pci : Q;
  chlorine : Q;
  sulfur : Q;
  humidity : Q;
  stock : option Q
}.

(** *** The part of PuLP's interface that the source uses *)

Record LpVariable : Type := mkLpVariable {
  lowBound : Q;
  upBound : Q
}.

(** [constant + Σ var * coefficient]; variables are named by the key under
    which [LpVariable.dicts] stores them. *)
Record LpAffineExpression : Type := mkLpAffineExpression {
  constant : Q;
  terms : list (string * Q)
}.

Inductive LpSense : Type := LpConstraintLE | LpConstraintEQ | LpConstraintGE.

Record LpConstraint : Type := mkLpConstraint {
  lhs : LpAffineExpression;
  sense : LpSense;
  rhs : Q
}.

(** An [LpProblem(..., LpMaximize)]: the objective, the named constraints
    in the order they were added, and the variable objects they share. *)
Record LpProblem : Type := mkLpProblem {
  objective : LpAffineExpression;
  constraints : list (string * LpConstraint);
  variables : gmap string LpVariable
}.

Inductive LpStatusCode : Type :=
| LpStatusNotSolved
| LpStatusOptimal
| LpStatusInfeasible
| LpStatusUnbounded
| LpStatusUndefined.

(** PuLP's table [LpStatus] from status codes to their names. *)
Definition LpStatus (code : LpStatusCode) : string :=
  match code with
  | LpStatusNotSolved => "Not Solved"
  | LpStatusOptimal => "Optimal"
  | LpStatusInfeasible => "Infeasible"
  | LpStatusUnbounded => "Unbounded"
  | LpStatusUndefined => "Undefined"
  end.

(** What [prob.solve(...)] leaves behind: [prob.status] and the [varValue]
    of each variable ([None] where the map has no entry). *)
Record Solved : Type := mkSolved {
  prob_status : LpStatusCode;
  varValue : gmap string Q
}.

(** [LpVariable.dicts("MixFraction", names, lowBound=0, upBound=0.5)] *)
Definition LpVariable_dicts (names : list string) (lo up : Q)
    : gmap string LpVariable :=
  foldl (fun d n => <[n := mkLpVariable lo up]> d) ∅ names.

(** [lpSum([waste_vars[w['name']] * w[prop] for w in waste_data])] *)
Definition lpSum (prop : Waste -> Q) (waste_data : list Waste)
    : list (string * Q) :=
  map (fun w => (name w, prop w)) waste_data.

(** [value(e)] for an expression: [None] as soon as a variable has no value. *)
Fixpoint value_terms (vals : gmap string Q) (ts : list (string * Q)) (s : Q)
    : option Q :=
  match ts with
  | [] => Some s
  | (v, k) :: ts' =>
      match vals !! v with
      | None => None
      | Some a => value_terms vals ts' (s + a * k)
      end
  end.

Definition value (vals : gmap string Q) (e : LpAffineExpression) : option Q :=
  value_terms vals (terms e) (constant e).

(** *** [WasteMixOptimizer.solve_optimal_mix] *)

Definition PETCOKE_pci : Q := 8200.
Definition PETCOKE_chlorine : Q := 0.0005.
Definition PETCOKE_sulfur : Q := 0.04.
Definition PETCOKE_humidity : Q := 0.01.

Definition with_offset (offset : Q) (prop : Waste -> Q)
    (waste_data : list Waste) : LpAffineExpression :=
  {| constant := 0.5 * offset; terms := lpSum prop waste_data |}.

(** A quality constraint is added only when its key is in [constraints]. *)
Definition quality (limits : gmap string Q) (key label : string)
    (e : LpAffineExpression) (s : LpSense) : list (string * LpConstraint) :=
  match limits !! key with
  | Some limit => [(label, mkLpConstraint e s limit)]
  | None => []
  end.

(** Section C, "Availability Checks": the bound is written into the
    variable object that the constraints already refer to. *)
Definition out_of_stock (w : Waste) : bool :=
  Qle_bool (default 0 (stock w)) 0.

Definition availability (waste_data : list Waste)
    (waste_vars : gmap string LpVariable) : gmap string LpVariable :=
  foldl (fun d w =>
           if out_of_stock w
           then alter (fun v => mkLpVariable (lowBound v) 0) (name w) d
           else d)
        waste_vars waste_data.

(** Lines 36-96: the model builder. *)
Definition build_lp (waste_data : list Waste) (limits : gmap string Q)
    : LpProblem :=
  let waste_names := map name waste_data in
  let waste_vars := LpVariable_dicts waste_names 0 0.5 in
  {| objective := with_offset PETCOKE_pci pci waste_data;
     constraints :=
       [("Protocol_Half_Waste",
         mkLpConstraint (mkLpAffineExpression 0 (lpSum (fun _ => 1) waste_data))
                        LpConstraintEQ 0.50)]
       ++ quality limits "max_chlorine" "Chlorine_Limit"
            (with_offset PETCOKE_chlorine chlorine waste_data) LpConstraintLE
       ++ quality limits "max_humidity" "Humidity_Limit"
            (with_offset PETCOKE_humidity humidity waste_data) LpConstraintLE
       ++ quality limits "max_sulfur" "Sulfur_Limit"
            (with_offset PETCOKE_sulfur sulfur waste_data) LpConstraintLE
       ++ quality limits "min_pci" "Min_PCI_Limit"
            (with_offset PETCOKE_pci pci waste_data) LpConstraintGE;
     variables := availability waste_data waste_vars |}.

(** Lines 104-112: the reported mix, Petcoke first. *)
Definition percentage (val : option Q) : Q :=
  match val with
  | Some v => if Py.truthy v then Py.round (v * 100) 2 else 0
  | None => 0
  end.

Definition mix_results (vals : gmap string Q) (waste_names : list string)
    : gmap string Q :=
  foldl (fun m w =>
           let pct := percentage (vals !! w) in
           if Py.Qltb 0 pct then <[w := pct]> m else m)
        {[ "Petcoke (Base)" := 50 ]} waste_names.

(** [[value(waste_vars[w['name']]) * w[prop] for w in waste_data]]:
    multiplying [None] by a float raises [TypeError]. *)
Fixpoint products (vals : gmap string Q) (prop : Waste -> Q)
    (waste_data : list Waste) : Py.result (list Q) :=
  match waste_data with
  | [] => Py.Return []
  | w :: rest =>
      match vals !! name w with
      | None => Py.Raise Py.TypeError
      | Some v =>
          ps ← products vals prop rest;
          mret (v * prop w :: ps)
      end
  end.

Definition total (offset : Q) (vals : gmap string Q) (prop : Waste -> Q)
    (waste_data : list Waste) : Py.result Q :=
  ps ← products vals prop waste_data;
  mret (0.5 * offset + Py.sum ps).

Record Details : Type := mkDetails {
  final_chlorine : Q;
  final_humidity : Q;
  final_sulfur : Q;
  protocol : string
}.

Record OptimizationResult : Type := mkOptimizationResult {
  status : string;
  mix : gmap string Q;
  objective_value : Q;
  details : Details
}.

(** [value(self.prob.objective)] after [prob.solve(...)].  PuLP keeps no
    term for a variable multiplied by 0, so an objective whose coefficients
    are all 0, like the objective of a request without wastes, holds no
    variable.  To solve a problem with such an objective, [solve] adds
    PuLP's own variable [__dummy] to it; that variable stays in the
    expression and never receives a value, so the value of the objective is
    [None]. *)
Definition holds_no_variable (e : LpAffineExpression) : bool :=
  forallb (fun t => Qeq_bool (snd t) 0) (terms e).

Definition value_after_solve (vals : gmap string Q) (e : LpAffineExpression)
    : option Q :=
  if holds_no_variable e then None else value vals e.

(** Lines 101-132: the result interpreter. *)
Definition interpret (waste_data : list Waste) (prob : LpProblem)
    (sol : Solved) : Py.result OptimizationResult :=
  let vals := varValue sol in
  let obj_val := value_after_solve vals (objective prob) in
  total_cl ← total PETCOKE_chlorine vals chlorine waste_data;
  total_h ← total PETCOKE_humidity vals humidity waste_data;
  total_s ← total PETCOKE_sulfur vals sulfur waste_data;
  mret {| status := LpStatus (prob_status sol);
          mix := mix_results vals (map name waste_data);
          objective_value :=
            match obj_val with
            | Some v => if Py.truthy v then Py.round v 2 else 0
            | None => 0
            end;
          details := {| final_chlorine := Py.round total_cl 5;
                        final_humidity := Py.round total_h 5;
                        final_sulfur := Py.round total_s 5;
                        protocol := "50/50 Nexus" |} |}.

Definition solve_optimal_mix (solve : LpProblem -> Solved)
    (waste_data : list Waste) (limits : gmap string Q)
    : Py.result OptimizationResult :=
  let prob := build_lp waste_data limits in
  interpret waste_data prob (solve prob).

(** *** What the linear program means *)

Definition eval (a : string -> Q) (e : LpAffineExpression) : Q :=
  constant e + Py.sum (map (fun t => a (fst t) * snd t) (terms e)).

Definition holds (a : string -> Q) (k : LpConstraint) : Prop :=
  match sense k with
  | LpConstraintLE => eval a (lhs k) <= rhs k
  | LpConstraintEQ => eval a (lhs k) == rhs k
  | LpConstraintGE => rhs k <= eval a (lhs k)
  end.

Definition holdsb (a : string -> Q) (k : LpConstraint) : bool :=
  match sense k with
  | LpConstraintLE => Qle_bool (eval a (lhs k)) (rhs k)
  | LpConstraintEQ => Qeq_bool (eval a (lhs k)) (rhs k)
  | LpConstraintGE => Qle_bool (rhs k) (eval a (lhs k))
  end.

Definition in_bounds (vars : gmap string LpVariable) (a : string -> Q) : Prop :=
  forall n v, vars !! n = Some v -> lowBound v <= a n /\ a n <= upBound v.

Definition feasible (p : LpProblem) (a : string -> Q) : Prop :=
  Forall (fun nk => holds a (snd nk)) (constraints p) /\
  in_bounds (variables p) a.

(** The problem is an [LpMaximize] one. *)
Definition optimal (p : LpProblem) (a : string -> Q) : Prop :=
  feasible p a /\
  forall a', feasible p a' -> eval a' (objective p) <= eval a (objective p).

(** Some entry of [waste_data] carries the name [n] and has no stock. *)
Definition exhausted (n : string) (waste_data : list Waste) : bool :=
  existsb (fun w => bool_decide (name w = n) && out_of_stock w) waste_data.

(** Every variable of the request got a value from the solver. *)
Definition valued (sol : Solved) (waste_data : list Waste) : Prop :=
  Forall (fun w => is_Some (varValue sol !! name w)) waste_data.

(** The sum of the fractions given to the wastes of the request. *)
Definition fractions (a : string -> Q) (waste_data : list Waste) : Q :=
  Py.sum (map (fun w => a (name w)) waste_data).

(** The sample data of the module's [__main__] block. *)
Definition waste_data : list Waste :=
  [ mkWaste "Waste A (Tires)" 8000 0.01 1.5 0.02 (Some 100);
    mkWaste "Waste B (Wood)" 4000 0.02 0.1 0.20 (Some 50);
    mkWaste "Waste C (Sludge)" 1000 0.05 0.2 0.60 (Some 200) ].

Definition sample_constraints : gmap string Q :=
  {[ "max_chlorine" := 0.03; "max_humidity" := 0.25;
     "min_pci" := 3000; "max_sulfur" := 1 ]}.

(** Half of the mix to the tires, nothing to the other wastes. *)
Definition all_tires : string -> Q :=
  fun n => if bool_decide (n = "Waste A (Tires)") then 0.5 else 0.

(** The request of two wastes [A] (calorific value 8000) and [B] (4000),
    both in stock, whatever their chemistry. *)
Definition two_wastes (clA sA hA stockA clB sB hB stockB : Q) : list Waste :=
  [ mkWaste "A" 8000 clA sA hA (Some stockA);
    mkWaste "B" 4000 clB sB hB (Some stockB) ].

(** The whole waste share to [A]. *)
Definition all_A : string -> Q :=
  fun n => if bool_decide (n = "A") then 0.5 else 0.

(** The sample data with no sludge left in stock. *)
Definition waste_data_no_sludge : list Waste :=
  [ mkWaste "Waste A (Tires)" 8000 0.01 1.5 0.02 (Some 100);
    mkWaste "Waste B (Wood)" 4000 0.02 0.1 0.20 (Some 50);
    mkWaste "Waste C (Sludge)" 1000 0.05 0.2 0.60 (Some 0) ].

(** A calorific floor above what any mix can reach. *)
Definition hot_limits : gmap string Q := {[ "min_pci" := 9000 ]}.

(** A solver that answers [Optimal] with half of the mix for the tires. *)
Definition report_all_tires : LpProblem -> Solved :=
  fun p => {| prob_status := LpStatusOptimal;
              varValue := <[ "Waste A (Tires)" := 0.5 ]>
                            ((fun _ => 0) <$> variables p) |}.

(** A solver that answers [Infeasible], every variable left at zero. *)
Definition report_infeasible : LpProblem -> Solved :=
  fun p => {| prob_status := LpStatusInfeasible;
              varValue := (fun _ => 0) <$> variables p |}.

(** A solver that answers [Optimal] with the whole waste share for [A]. *)
Definition report_all_A : LpProblem -> Solved :=
  fun _ => {| prob_status := LpStatusOptimal;
              varValue := {[ "A" := 0.5; "B" := 0 ]} |}.

(** The assignment a solver outcome stands for. *)
Definition assignment (sol : Solved) : string -> Q :=
  fun n => default 0 (varValue sol !! n).

(** A request whose first waste, out of stock, carries the label under
    which the fixed base material is reported. *)
Definition waste_data_base_label : list Waste :=
  [ mkWaste "Petcoke (Base)" 1000 0.05 0.2 0.60 (Some 0);
    mkWaste "Waste A (Tires)" 8000 0.01 1.5 0.02 (Some 100) ].

End AdvancedOptimizer.

(** ** Solver answers used in the examples *)

Module Scenarios.
Import WasteManagement.

(** A kiln whose calorific target lies above every stream of the sample. *)
Definition hot_kiln : KilnOperationalParameters :=
  mkKilnOperationalParameters 9000 1 0.8 0.8 15.

(** A solver that succeeds with the empty allocation. *)
Definition report_nothing
    : OptimizationEngine.LinProg -> OptimizationEngine.OptimizeResult :=
  fun lp =>
    {| OptimizationEngine.success := true;
       OptimizationEngine.x := replicate (length (OptimizationEngine.c lp)) 0;
       OptimizationEngine.message := "Optimization terminated successfully." |}.

(** A solver that leaves the variables without a value. *)
Definition report_unsolved
    : AdvancedOptimizer.LpProblem -> AdvancedOptimizer.Solved :=
  fun _ => {| AdvancedOptimizer.prob_status := AdvancedOptimizer.LpStatusNotSolved;
              AdvancedOptimizer.varValue := ∅ |}.

End Scenarios.

(** ** inventory_manager.py *)

Module InventoryManager.

Definition INITIAL_STATE : gmap string Q :=
  {[ "Tires" := 500; "Plastic" := 350; "Wood" := 1200; "Biomass" := 800 ]}.

(** The file [stock_db.json]: absent, not valid JSON, or the JSON of a stock
    table. *)
Inductive DbFile : Type :=
| Missing
| Garbled
| Stored (data : gmap string Q).

(** An [InventoryManager]: [self.stock], and the file it writes. *)
Record Inventory : Type := mkInventory {
  stock : gmap string Q;
  db : DbFile
}.

(** The built-in [max(a, b)]: the first of the largest. *)
Definition max (a b : Q) : Q := if Py.Qltb a b then b else a.

Definition _save_db (data : gmap string Q) (self : Inventory) : Inventory :=
  {| stock := stock self; db := Stored data |}.

(** [__init__], that is [_load_db], on the file found at start. *)
Definition _load_db (file : DbFile) : Inventory :=
  match file with
  | Missing =>
      {| stock := INITIAL_STATE; db := Stored INITIAL_STATE |}
  | Stored data =>
      {| stock := data; db := Stored data |}
  | Garbled =>
      _save_db INITIAL_STATE {| stock := INITIAL_STATE; db := Garbled |}
  end.

Definition get_stock (self : Inventory) : gmap string Q := stock self.

(** One turn of the loop of [update_stock].  The sum is exact here, where
    the float sum is the nearest float: it has the sign of the exact sum
    and grows with each term, and the properties stated of [adjust] use
    nothing else. *)
Definition adjust (stock : gmap string Q) (item : string * Q)
    : gmap string Q :=
  let current := default 0 (stock !! item.1) in
  <[item.1 := max 0 (current + item.2)]> stock.

(** [update_stock(adjustments)], the adjustments in the order of the
    dictionary's items. *)
Definition update_stock (adjustments : list (string * Q)) (self : Inventory)
    : Inventory :=
  let stock' := foldl adjust (stock self) adjustments in
  _save_db stock' {| stock := stock'; db := db self |}.

Definition get_stock_for_optimizer (self : Inventory) : gmap string Q :=
  stock self.

(** The table holds [n], with a stock that is not negative. *)
Definition held (st : gmap string Q) (n : string) : Prop :=
  exists v, st !! n = Some v /\ 0 <= v.


End InventoryManager.

(** ** operator_cli.py *)

Module OperatorCLI.
Import AdvancedOptimizer.

(** [self.waste_props], in the order of the dictionary: calorific value,
    chlorine, sulfur, humidity. *)
Definition waste_props : list (string * (Q * Q * Q * Q)) :=
  [ ("Tires"%string, (8000, 0.01, 1.5, 0.02));
    ("Plastic"%string, (6000, 0.05, 0.2, 0.10));
    ("Wood"%string, (3500, 0.02, 0.1, 0.20));
    ("Biomass"%string, (1500, 0.03, 0.1, 0.40)) ].

(** "Prepare Data for LP": one entry per property record, its stock read
    with [stock_snapshot.get(name, 0)]. *)
Definition prepare (stock_snapshot : gmap string Q) : list Waste :=
  map (fun entry =>
         match entry with
         | (n, (p, cl, s, h)) =>
             mkWaste n p cl s h (Some (default 0 (stock_snapshot !! n)))
         end)
      waste_props.

(** "Standard Constraints" *)
Definition standard_constraints : gmap string Q :=
  {[ "max_chlorine" := 0.03; "max_humidity" := 0.25;
     "min_pci" := 3000; "max_sulfur" := 1 ]}.

(** What [run_optimization_cycle] returns: the dictionary
    [{"status": "No Optimizer", "mix": {}}], the optimizer's result, or the
    dictionary [{"status": f"Error: {e}", "mix": {}}] for the exception
    [e] that was caught. *)
Inductive Cycle : Type :=
| NoOptimizer
| Optimized (r : OptimizationResult)
| Error (e : Py.exn).

Definition run_optimization_cycle (optimizer : option (LpProblem -> Solved))
    (stock_snapshot : gmap string Q) : Cycle :=
  match optimizer with
  | None => NoOptimizer
  | Some solve =>
      match solve_optimal_mix solve (prepare stock_snapshot)
              standard_constraints with
      | Py.Return r => Optimized r
      | Py.Raise e => Error e
      end
  end.

(** The mix shown for a cycle: empty in the two dictionaries. *)
Definition cycle_mix (c : Cycle) : gmap string Q :=
  match c with
  | Optimized r => mix r
  | NoOptimizer | Error _ => ∅
  end.

End OperatorCLI.

(** ** Snapshots and solver answers used in the examples of the cycle *)

Module CycleScenarios.

(** A solver that answers [Optimal] with half of the mix for the tires. *)
Definition report_tires
    : AdvancedOptimizer.LpProblem -> AdvancedOptimizer.Solved :=
  fun p =>
    {| AdvancedOptimizer.prob_status := AdvancedOptimizer.LpStatusOptimal;
       AdvancedOptimizer.varValue :=
         <[ "Tires" := 0.5 ]>
           ((fun _ => 0) <$> AdvancedOptimizer.variables p) |}.

(** A warehouse with tires only; plastic and biomass are not listed. *)
Definition tires_only : gmap string Q := {[ "Tires" := 500; "Wood" := 0 ]}.

End CycleScenarios.

(** ** waste_analysis.py *)

Module WasteAnalysis.

Definition TARGET_TSR_PCI : Q := 5600.
Definition FRAME_CALIBRATION_CONSTANT : Q := 50.

Definition PCI_VALUES : gmap string Q :=
  {[ "Tires" := 8200; "Wood" := 4500; "Plastics" := 10500;
     "Paper/Cardboard" := 3500; "Wet Biomass" := 1200; "Textiles" := 5500;
     "Metals" := 0; "Mixed Waste" := 3500 ]}.

Definition DENSITY_FACTORS : gmap string Q :=
  {[ "Tires" := 0.8; "Wood" := 0.6; "Plastics" := 0.3;
     "Paper/Cardboard" := 0.4; "Wet Biomass" := 0.5; "Metals" := 0.9;
     "Textiles" := 0.3; "Mixed Waste" := 0.5 ]}.

Definition MOISTURE_FACTORS : gmap string Q :=
  {[ "Tires" := 1; "Plastics" := 1; "Wood" := 1; "Textiles" := 0.85;
     "Paper/Cardboard" := 0.85; "Wet Biomass" := 0.65; "Metals" := 1;
     "Mixed Waste" := 0.8 ]}.

Record WasteObject : Type := mkWasteObject {
  type : string;
  count : Z;
  estimated_size_class : string;
  visual_density : string;
  confidence : Q;
  area_percentage : Q;
  contamination_notes : string
}.

Definition compaction_factor (self : WasteObject) : Q :=
  if bool_decide (visual_density self = "dense") then 1.2
  else if bool_decide (visual_density self = "compact") then 1
  else 0.7.

(** The product is exact here, where each float product is the nearest
    float; the properties stated of the weight are its sign and its
    order. *)
Definition estimated_weight (self : WasteObject) : Q :=
  let density := default 0.5 (DENSITY_FACTORS !! type self) in
  (area_percentage self * compaction_factor self * density)
  * FRAME_CALIBRATION_CONSTANT.

(** One entry of ["objects_detected"], each key read with [.get]. *)
Record ObjData : Type := mkObjData {
  get_type : option string;
  get_count : option Z;
  get_estimated_size_class : option string;
  get_visual_density : option string;
  get_confidence : option Q;
  get_area_percentage : option Q;
  get_contamination_notes : option string
}.

Definition to_object (obj_data : ObjData) : WasteObject :=
  {| type := default "Mixed Waste" (get_type obj_data);
     count := default 1%Z (get_count obj_data);
     estimated_size_class :=
       default "medium" (get_estimated_size_class obj_data);
     visual_density := default "loose" (get_visual_density obj_data);
     confidence := default 0 (get_confidence obj_data);
     area_percentage := default 0 (get_area_percentage obj_data);
     contamination_notes := default "" (get_contamination_notes obj_data) |}.

Record DetectedItem : Type := mkDetectedItem {
  item_type : string;
  item_count : Z;
  item_total_weight_kg : Q;
  item_confidence : Q;
  item_area_percentage : Q
}.

Record FrameMetrics : Type := mkFrameMetrics {
  total_waste_weight_kg : Q;
  estimated_pci_kcal_kg : Q;
  moisture_estimate_percent : Z;
  contamination_risk : string
}.

Record FrameReport : Type := mkFrameReport {
  detected_items : list DetectedItem;
  frame_metrics : FrameMetrics
}.

(** The accumulators of the "Logic Engine" loop of [analyze_frame]. *)
Record Engine : Type := mkEngine {
  items : list DetectedItem;
  total_weight : Q;
  weighted_pci_sum : Q
}.

Definition engine_step (e : Engine) (obj_data : ObjData) : Engine :=
  let obj := to_object obj_data in
  let weight := estimated_weight obj in
  let pci_val := default 3500 (PCI_VALUES !! type obj) in
  let moisture_f := default 0.8 (MOISTURE_FACTORS !! type obj) in
  {| items := items e ++
       [ {| item_type := type obj;
            item_count := count obj;
            item_total_weight_kg := Py.round weight 2;
            item_confidence := confidence obj;
            item_area_percentage := area_percentage obj |} ];
     total_weight := total_weight e + weight;
     weighted_pci_sum := weighted_pci_sum e + pci_val * weight * moisture_f |}.

Definition engine (frame_objects : list ObjData) : Engine :=
  foldl engine_step (mkEngine [] 0 0) frame_objects.

(** [(weighted_pci_sum / total_weight) if total_weight > 0 else 0.0] *)
Definition frame_pci (e : Engine) : Q :=
  if Py.Qltb 0 (total_weight e) then weighted_pci_sum e / total_weight e
  else 0.

(** The [frame_report] that [analyze_frame] builds from the decoded
    answer: the detected objects and the ["moisture_visual_estimate"]. *)
Definition frame_report (frame_objects : list ObjData)
    (moisture_visual_estimate : option string) : FrameReport :=
  let e := engine frame_objects in
  {| detected_items := items e;
     frame_metrics :=
       {| total_waste_weight_kg := Py.round (total_weight e) 2;
          estimated_pci_kcal_kg := Py.round (frame_pci e) 0;
          moisture_estimate_percent :=
            if bool_decide (moisture_visual_estimate = Some "dry"%string)
            then 10%Z else 40%Z;
          contamination_risk := "Low" |} |}.

(** The object covers a share of the frame that is not negative. *)
Definition covers (obj_data : ObjData) : Prop :=
  0 <= default 0 (get_area_percentage obj_data).

(** *** [BatchAnalyzer] *)

Record BatchAnalyzer : Type := mkBatchAnalyzer {
  frame_buffer : list FrameReport;
  frame_counter : nat
}.

Definition new_BatchAnalyzer : BatchAnalyzer := mkBatchAnalyzer [] 0.

Definition add_frame (frame_data : FrameReport) (self : BatchAnalyzer)
    : BatchAnalyzer :=
  let appended := frame_buffer self ++ [frame_data] in
  {| frame_buffer :=
       if (10 <? length appended)%nat then drop 1 appended else appended;
     frame_counter := S (frame_counter self) |}.

(** The analyzer after it has received the frames [fs], in that order. *)
Definition feed (fs : list FrameReport) (self : BatchAnalyzer)
    : BatchAnalyzer :=
  foldl (fun s f => add_frame f s) self fs.

Definition pci_of (f : FrameReport) : Q :=
  estimated_pci_kcal_kg (frame_metrics f).

Definition get_rolling_average_pci (self : BatchAnalyzer) : Q :=
  match frame_buffer self with
  | [] => 0
  | _ =>
      let total_pci :=
        Py.sum (map pci_of
                  (filter (fun f => Py.Qltb 0 (pci_of f) = true)
                          (frame_buffer self))) in
      total_pci / inject_Z (Z.of_nat (length (frame_buffer self)))
  end.

(** [f"{x:.0f}"]: the nearest integer, ties to even, with the sign of [x]. *)
Definition format_0f (x : Q) : string :=
  let z := Py.nearest_even x in
  if Py.Qltb x 0 && (z =? 0)%Z then "-0" else pretty z.

Record Recommendation : Type := mkRecommendation {
  action : string;
  message : string;
  materials : list string
}.

Record GapReport : Type := mkGapReport {
  current_pci : Q;
  target_pci : Q;
  gap : Q;
  status : string;
  recommendation : Recommendation
}.

Definition generate_gap_report (current_pci : Q) : GapReport :=
  let gap := current_pci - TARGET_TSR_PCI in
  let status := if Py.Qltb 0 gap then "ABOVE TARGET" else "BELOW TARGET" in
  let recommendation :=
    if Py.Qltb gap (-500) then
      {| action := "INCREASE_HIGH_PCI";
         message := "Critical Deficit (" ++ format_0f gap
                    ++ " kcal). Increase Tires/Plastics feed.";
         materials := ["Tires"; "Plastics"] |}
    else if Py.Qltb 500 gap then
      {| action := "REDUCE_HIGH_PCI";
         message := "High Energy Surplus (+" ++ format_0f gap
                    ++ " kcal). Reduce Tires or increase Biomass.";
         materials := ["Wet Biomass"] |}
    else
      {| action := "MAINTAIN";
         message := "Stable Operation. Maintain current mix.";
         materials := [] |} in
  {| current_pci := current_pci;
     target_pci := TARGET_TSR_PCI;
     gap := gap;
     status := status;
     recommendation := recommendation |}.

(** The "Batch Intelligence" part of [analyze_frame]: the frame enters the
    buffer, then the rolling average and the gap report are taken. *)
Definition batch_intelligence (report : FrameReport) (self : BatchAnalyzer)
    : BatchAnalyzer * (Q * GapReport) :=
  let self' := add_frame report self in
  let batch_pci := get_rolling_average_pci self' in
  (self', (Py.round batch_pci 0, generate_gap_report batch_pci)).

End WasteAnalysis.

(** ** api.py *)

Module Api.

(** A row of the table [scans]. *)
Record Scan : Type := mkScan {
  id : Z;
  timestamp : Q;
  frame_id : Z;
  detected_items_json : string;
  total_weight_kg : Q;
  estimated_pci : Q;
  analysis_status : string
}.

(** [SELECT * FROM scans ORDER BY id DESC LIMIT ?]: a negative limit is no
    limit. *)
Definition newer (r1 r2 : Scan) : Prop := (id r2 <= id r1)%Z.

#[export] Instance newer_dec : RelDecision newer :=
  fun r1 r2 => Z_le_dec (id r2) (id r1).

Definition newest_first (scans : list Scan) : list Scan :=
  merge_sort newer scans.

Definition select_latest (limit : Z) (scans : list Scan) : list Scan :=
  if (limit <? 0)%Z then newest_first scans
  else take (Z.to_nat limit) (newest_first scans).

Record Frame : Type := mkFrame {
  frame_row : Z;
  pci : Q;
  weight : Q
}.

(** The two dictionaries that [get_batch_summary] returns:
    [{"count": 0, "frames": []}] and
    [{"batch_size": .., "average_pci": .., "history": ..}]. *)
Inductive BatchSummary : Type :=
| NoFrames
| Summary (batch_size : nat) (average_pci : Q) (history : list Frame).

Definition valid (rows : list Scan) : list Scan :=
  filter (fun row => Py.Qltb 0 (estimated_pci row) = true) rows.

(** [total_pci / valid_frames if valid_frames > 0 else 0] *)
Definition avg_pci (rows : list Scan) : Q :=
  let total_pci := Py.sum (map estimated_pci (valid rows)) in
  let valid_frames := length (valid rows) in
  if (0 <? valid_frames)%nat
  then total_pci / inject_Z (Z.of_nat valid_frames) else 0.

Definition get_batch_summary (limit : Z) (scans : list Scan) : BatchSummary :=
  match select_latest limit scans with
  | [] => NoFrames
  | rows =>
      Summary (length rows) (Py.round (avg_pci rows) 2)
        (map (fun row => mkFrame (id row) (estimated_pci row)
                           (total_weight_kg row)) rows)
  end.

Record SupplyGap : Type := mkSupplyGap {
  gap_timestamp : Z;
  current_batch_pci : Q;
  target_pci : Q;
  gap : Q;
  status : string;
  recommendation : string
}.

(** A call either returns or raises [KeyError(key)]. *)
Inductive outcome (A : Type) : Type :=
| Returned (a : A)
| KeyError (key : string).
Arguments Returned {A} a.
Arguments KeyError {A} key.

Definition TARGET_PCI : Q := 5600.

Definition get_supply_gap (scans : list Scan) : outcome SupplyGap :=
  match get_batch_summary 10 scans with
  | NoFrames => KeyError "average_pci"
  | Summary _ current_pci _ =>
      let gap := current_pci - TARGET_PCI in
      Returned
        {| gap_timestamp := 0;
           current_batch_pci := current_pci;
           target_pci := TARGET_PCI;
           gap := gap;
           status := if Py.Qltb 0 gap then "ABOVE TARGET" else "BELOW TARGET";
           recommendation :=
             if Py.Qltb gap (-500)
             then "Action: Increase High-PCI Injector (Tires)"
             else if Py.Qltb 500 gap
             then "Action: Reduce High-PCI / Increase Biomass"
             else "Maintain Mix" |}
  end.

End Api.

(** ** waste_analysis.py: [WasteStreamAnalyzer] *)

Module WasteStreamAnalyzer.
Import WasteAnalysis.

(** A [WasteStreamAnalyzer]: the table [scans] of its database and its
    [batch_processor]. *)
Record Analyzer : Type := mkAnalyzer {
  scans : list Api.Scan;
  batch_processor : BatchAnalyzer
}.

(** [__init__] on a database that holds no scan yet. *)
Definition new_Analyzer : Analyzer := mkAnalyzer [] new_BatchAnalyzer.

(** [id INTEGER PRIMARY KEY AUTOINCREMENT]: a new row gets the id that
    follows the largest id of the table, 1 in an empty table. *)
Definition next_id (scans : list Api.Scan) : Z :=
  (foldr Z.max 0 (map Api.id scans) + 1)%Z.

(** [_save_scan(frame_id, analysis_result)]: one row more, with the
    default status.  The clock [now] and [json.dumps] are left open. *)
Definition _save_scan (dumps : list DetectedItem -> string) (now : Q)
    (frame_id : Z) (analysis_result : FrameReport) (scans : list Api.Scan)
    : list Api.Scan :=
  scans ++
  [ {| Api.id := next_id scans;
       Api.timestamp := now;
       Api.frame_id := frame_id;
       Api.detected_items_json := dumps (detected_items analysis_result);
       Api.total_weight_kg :=
         total_waste_weight_kg (frame_metrics analysis_result);
       Api.estimated_pci :=
         estimated_pci_kcal_kg (frame_metrics analysis_result);
       Api.analysis_status := "success" |} ].

(** What a call of [analyze_frame] works on once the answer of the model
    is decoded: the time of the call, the frame number, the detected
    objects and the moisture estimate. *)
Record Decoded : Type := mkDecoded {
  now : Q;
  frame_number : Z;
  objects_detected : list ObjData;
  moisture_visual_estimate : option string
}.

Definition report_of (d : Decoded) : FrameReport :=
  frame_report (objects_detected d) (moisture_visual_estimate d).

(** What [analyze_frame] does to the analyzer: the frame report is built,
    saved in the table, and handed to the batch analyzer. *)
Definition analyze_frame (dumps : list DetectedItem -> string)
    (d : Decoded) (self : Analyzer) : Analyzer :=
  let report := report_of d in
  {| scans := _save_scan dumps (now d) (frame_number d) report (scans self);
     batch_processor := add_frame report (batch_processor self) |}.

(** A new analyzer on an empty database, after the frames [ds] in turn. *)
Definition analyze_frames (dumps : list DetectedItem -> string)
    (ds : list Decoded) : Analyzer :=
  foldl (fun self d => analyze_frame dumps d self) new_Analyzer ds.

End WasteStreamAnalyzer.

(** ** Frames and scans used in the examples of the analysis *)

Module AnalysisScenarios.

Definition scan_of (id : Z) (pci : Q) : Api.Scan :=
  {| Api.id := id; Api.timestamp := 0; Api.frame_id := id;
     Api.detected_items_json := "[]"; Api.total_weight_kg := 100;
     Api.estimated_pci := pci; Api.analysis_status := "success" |}.

Definition three_scans : list Api.Scan :=
  [scan_of 1 5000; scan_of 2 0; scan_of 3 6100].

(** Three decoded answers: tires, nothing, plastics and wood. *)
Definition three_answers : list WasteStreamAnalyzer.Decoded :=
  [ WasteStreamAnalyzer.mkDecoded 1 1
      [ WasteAnalysis.mkObjData (Some "Tires"%string) (Some 2%Z) None
          (Some "compact"%string) (Some 0.94) (Some 12.5) None ]
      (Some "dry"%string);
    WasteStreamAnalyzer.mkDecoded 2 2 [] None;
    WasteStreamAnalyzer.mkDecoded 3 3
      [ WasteAnalysis.mkObjData (Some "Plastics"%string) None None None
          None (Some 30) None;
        WasteAnalysis.mkObjData (Some "Wood"%string) None None
          (Some "dense"%string) None (Some 20) None ]
      (Some "wet"%string) ].

(** A stand-in for [json.dumps]. *)
Definition no_json : list WasteAnalysis.DetectedItem -> string :=
  fun _ => "[]"%string.

End AnalysisScenarios.

(** ** vision_analyzer.py *)

Module VisionAnalyzer.

Definition CLASS_MAPPING : gmap Z string :=
  {[ 2%Z := "Tires"; 7%Z := "Tires";
     39%Z := "Plastic_HDPE"; 41%Z := "Plastic_HDPE";
     56%Z := "Wood"; 57%Z := "Wood";
     58%Z := "Biomass" ]}.

(** What the function reads of a detected box: [int(box.cls[0])] and the
    width and height of [box.xywh[0]]. *)
Record Box : Type := mkBox {
  cls : Z;
  w : Q;
  h : Q
}.

Inductive error : Type :=
| KeyError (cls_id : Z)
| ZeroDivisionError.

Inductive outcome (A : Type) : Type :=
| Returned (a : A)
| Raised (e : error).
Arguments Returned {A} a.
Arguments Raised {A} e.

(** [CLASS_MAPPING.get(cls_id, results[0].names[cls_id])]: the default is
    looked up before [get] is called. *)
Definition label_of (names : gmap Z string) (cls_id : Z) : outcome string :=
  match names !! cls_id with
  | None => Raised (KeyError cls_id)
  | Some name => Returned (default name (CLASS_MAPPING !! cls_id))
  end.

(** The first loop: the area of the boxes, label by label. *)
Fixpoint surfaces (names : gmap Z string) (boxes : list Box)
    (surface_map : gmap string Q) : outcome (gmap string Q) :=
  match boxes with
  | [] => Returned surface_map
  | box :: rest =>
      match label_of names (cls box) with
      | Raised e => Raised e
      | Returned label =>
          let box_area := w box * h box in
          let before := default 0 (surface_map !! label) in
          surfaces names rest (<[label := before + box_area]> surface_map)
      end
  end.

Definition percent (frame_area : Z) (area : Q) : Q :=
  Py.round (area / inject_Z frame_area * 100) 2.

Definition with_default (key : string) (percentages : gmap string Q)
    : gmap string Q :=
  match percentages !! key with
  | None => <[key := 0]> percentages
  | Some _ => percentages
  end.

Definition industrial_keys : list string :=
  ["Tires"; "Plastic_HDPE"; "Wood"; "Biomass"]%string.

Definition calculate_surface_percentage (names : gmap Z string)
    (boxes : list Box) (frame_area : Z) : outcome (gmap string Q) :=
  match surfaces names boxes ∅ with
  | Raised e => Raised e
  | Returned surface_map =>
      if bool_decide (surface_map = ∅) then
        Returned (foldl (fun p key => with_default key p) ∅ industrial_keys)
      else if (frame_area =? 0)%Z then Raised ZeroDivisionError
      else
        Returned (foldl (fun p key => with_default key p)
                    (percent frame_area <$> surface_map) industrial_keys)
  end.

(** The label of a box whose class the name table knows. *)
Definition labelled (names : gmap Z string) (label : string) (box : Box)
    : bool :=
  match names !! cls box with
  | Some name => bool_decide (default name (CLASS_MAPPING !! cls box) = label)
  | None => false
  end.

(** The area of the boxes of one label, added to [init] in the order of
    detection. *)
Definition area_from (names : gmap Z string) (label : string) (init : Q)
    (boxes : list Box) : Q :=
  foldl (fun acc box => if labelled names label box
                        then acc + w box * h box else acc) init boxes.

Definition area_of (names : gmap Z string) (label : string)
    (boxes : list Box) : Q :=
  area_from names label 0 boxes.

End VisionAnalyzer.

(** ** virtual_scale.py *)

Module VirtualScale.

Definition waste_types : list string :=
  ["Tires"; "Plastic"; "Wood"; "Biomass"]%string.

Definition base_of (waste : string) : Q :=
  if bool_decide (waste = "Tires"%string) then 2
  else if bool_decide (waste = "Plastic"%string) then 1.5
  else if bool_decide (waste = "Wood"%string) then 5
  else if bool_decide (waste = "Biomass"%string) then 8
  else 0.

(** [read_scale], the successive values of [random.uniform(-0.5, 0.5)]
    being [uniform 0], [uniform 1], ... *)
Fixpoint read_from (uniform : nat -> Q) (i : nat) (wastes : list string)
    (detection : gmap string Q) : gmap string Q :=
  match wastes with
  | [] => detection
  | waste :: rest =>
      let noise := uniform i in
      let val := InventoryManager.max 0 (base_of waste + noise) in
      read_from uniform (S i) rest (<[waste := Py.round val 2]> detection)
  end.

Definition read_scale (uniform : nat -> Q) : gmap string Q :=
  read_from uniform 0 waste_types ∅.

End VirtualScale.

(** ** recipe_manager.py *)

Module RecipeManager.

(** A step of a recipe, with the keys that [get_next_recipe_step] reads. *)
Record Step : Type := mkStep {
  step_number : Z;
  action : string;
  darija_instruction : string;
  english_instruction : string;
  duration_seconds : Z;
  timer_label : string;
  expected_actions : list string;
  tips : list string
}.

Record Recipe : Type := mkRecipe {
  id : string;
  steps : list Step
}.

(** What [get_next_recipe_step] returns: the dictionary
    [{"error": f"Recipe {recipe_id} not found"}], the dictionary of status
    ["completed"] with its two messages, or the description of a step. *)
Inductive NextStep : Type :=
| NotFound (recipe_id : string)
| Completed
| Instruction (s : Step).

(** [l[i]] for a Python list: a negative index counts from the end. *)
Definition index {A : Type} (l : list A) (i : Z) : Py.result A :=
  let j := if (i <? 0)%Z then (Z.of_nat (length l) + i)%Z else i in
  if (j <? 0)%Z then Py.Raise Py.IndexError
  else match l !! Z.to_nat j with
       | Some a => Py.Return a
       | None => Py.Raise Py.IndexError
       end.

Definition get_recipe (recipes : gmap string Recipe) (recipe_id : string)
    : option Recipe :=
  recipes !! recipe_id.

Definition get_next_recipe_step (recipes : gmap string Recipe)
    (recipe_id : string) (current_step : Z) : Py.result NextStep :=
  match get_recipe recipes recipe_id with
  | None => Py.Return (NotFound recipe_id)
  | Some recipe =>
      let next_step := (current_step + 1)%Z in
      if (Z.of_nat (length (steps recipe)) <=? next_step)%Z
      then Py.Return Completed
      else
        step ← index (steps recipe) next_step;
        mret (Instruction step)
  end.

End RecipeManager.

(** ** Detections used in the examples of the vision analyzer *)

Module VisionScenarios.

(** Some entries of the name table of the COCO classes. *)
Definition coco_names : gmap Z string :=
  {[ 0%Z := "person"; 2%Z := "car"; 7%Z := "truck"; 39%Z := "bottle" ]}.

(** A car, a truck and a person in a frame of 640 by 480. *)
Definition street : list VisionAnalyzer.Box :=
  [ VisionAnalyzer.mkBox 2 100 50;
    VisionAnalyzer.mkBox 7 40 25;
    VisionAnalyzer.mkBox 0 10 10 ].

(** A cup (class 41), which [coco_names] above does not list. *)
Definition cup : list VisionAnalyzer.Box := [ VisionAnalyzer.mkBox 41 20 20 ].

End VisionScenarios.

(** ** A recipe used in the examples *)

Module RecipeScenarios.

Definition chop : RecipeManager.Step :=
  RecipeManager.mkStep 1 "chopping" "qatta3 l-besla" "Chop the onion" 120
    "chopping" ["chopping"; "cutting"]%string ["Use a sharp knife"]%string.

Definition fry : RecipeManager.Step :=
  RecipeManager.mkStep 2 "frying" "qli l-besla" "Fry the onion" 300
    "frying" ["frying"; "stirring"]%string [].

Definition cookbook : gmap string RecipeManager.Recipe :=
  {[ "onions" := RecipeManager.mkRecipe "onions" [chop; fry] ]}.

End RecipeScenarios.

(** * Properties *)

(** ** Arithmetic of the models of Python's built-ins *)

Module PyFacts.
Import Py.

Lemma Qltb_lt a b : Qltb a b = true <-> a < b.
Proof.
  unfold Qltb. rewrite negb_true_iff. split.
  - intros H. apply Qnot_le_lt. intros Hle.
    apply Qle_bool_iff in Hle. congruence.
  - intros H. destruct (Qle_bool b a) eqn:E; [|reflexivity].
    apply Qle_bool_iff in E. lra.
Qed.

Lemma Qltb_ge a b : Qltb a b = false <-> b <= a.
Proof.
  unfold Qltb. rewrite negb_false_iff. apply Qle_bool_iff.
Qed.

Lemma nearest_even_error s :
  - (1 # 2) <= inject_Z (nearest_even s) - s <= 1 # 2.
Proof.
  unfold nearest_even.
  pose proof (Qfloor_le s) as Hlo.
  pose proof (Qlt_floor s) as Hhi.
  rewrite inject_Z_plus in Hhi. change (inject_Z 1) with 1 in Hhi.
  destruct (Qcompare_spec (s - inject_Z (Qfloor s)) (1 # 2)) as [E|E|E].
  - destruct (Z.even (Qfloor s)); [lra|].
    rewrite inject_Z_plus. change (inject_Z 1) with 1. lra.
  - lra.
  - rewrite inject_Z_plus. change (inject_Z 1) with 1. lra.
Qed.

Lemma pow10_pos n : 0 < inject_Z (pow10 n).
Proof.
  unfold pow10. change 0 with (inject_Z 0). rewrite <- Zlt_Qlt.
  apply Z.pow_pos_nonneg; lia.
Qed.

(** Rounding moves a number by at most half a unit of the last decimal. *)
Lemma round_error q n : Qabs (round q n - q) <= half_unit n.
Proof.
  unfold round, half_unit. rewrite Qred_correct.
  pose proof (pow10_pos n) as HP.
  pose proof (nearest_even_error (q * inject_Z (pow10 n))) as [Hlo Hhi].
  set (P := inject_Z (pow10 n)) in *.
  set (r := inject_Z (nearest_even (q * P))) in *.
  assert (E : r / P - q == (r - q * P) / P) by (field; lra).
  rewrite E. apply Qabs_Qle_condition. split.
  - apply Qle_shift_div_l; [assumption|].
    assert (E' : - ((1 # 2) / P) * P == - (1 # 2)) by (field; lra).
    rewrite E'. assumption.
  - apply Qle_shift_div_r; [assumption|].
    assert (E' : (1 # 2) / P * P == 1 # 2) by (field; lra).
    rewrite E'. assumption.
Qed.

Lemma nearest_even_compat s s' : s == s' -> nearest_even s = nearest_even s'.
Proof.
  intros E. unfold nearest_even. rewrite (Qfloor_comp _ _ E).
  assert (E2 : s - inject_Z (Qfloor s') == s' - inject_Z (Qfloor s'))
    by (rewrite E; reflexivity).
  rewrite E2. reflexivity.
Qed.

(** [round] sees the number, not the fraction that denotes it. *)
Lemma round_compat q q' n : q == q' -> round q n = round q' n.
Proof.
  intros E. unfold round. apply Qred_complete.
  rewrite (nearest_even_compat (q * inject_Z (pow10 n))
             (q' * inject_Z (pow10 n))) by (rewrite E; reflexivity).
  reflexivity.
Qed.

Lemma Qltb_compat a a' b b' : a == a' -> b == b' -> Qltb a b = Qltb a' b'.
Proof.
  intros Ea Eb. destruct (Qltb a' b') eqn:E.
  - apply Qltb_lt. apply Qltb_lt in E. lra.
  - apply Qltb_ge. apply Qltb_ge in E. lra.
Qed.

Lemma truthy_compat q q' : q == q' -> truthy q = truthy q'.
Proof.
  intros E. unfold truthy. f_equal.
  destruct (Qeq_bool q' 0) eqn:E'.
  - apply Qeq_bool_iff. apply Qeq_bool_iff in E'. lra.
  - destruct (Qeq_bool q 0) eqn:E''; [|reflexivity].
    apply Qeq_bool_iff in E''.
    assert (H : q' == 0) by lra.
    apply Qeq_bool_iff in H. congruence.
Qed.

Lemma rounding_of_round n exact q :
  q == exact -> rounding_of n exact (round q n).
Proof.
  intros E. rewrite (round_compat _ _ n E).
  split; [reflexivity | apply round_error].
Qed.

End PyFacts.

(** ** The free-allocation formulation *)

Module OptimizationEngineFacts.
Import WasteManagement OptimizationEngine.

Lemma dot_replicate_one xs :
  dot (replicate (length xs) 1) xs == mass xs.
Proof.
  unfold mass.
  induction xs as [|v xs IH]; simpl; [reflexivity|].
  rewrite IH. ring.
Qed.

Lemma dot_shifted (P : WasteStream -> Q) (L : Q) ws : forall xs,
  length xs = length ws ->
  dot (map (fun w => P w - L) ws) xs == weighted P ws xs - L * mass xs.
Proof.
  unfold weighted, mass.
  induction ws as [|w ws IH]; intros [|v xs] Hlen; simpl in *;
    try discriminate; try ring.
  rewrite IH by congruence. ring.
Qed.

Lemma dot_negated (f : WasteStream -> Q) ws : forall xs,
  dot (map (fun w => - f w) ws) xs == - dot (map f ws) xs.
Proof.
  induction ws as [|w ws IH]; intros [|v xs]; simpl; try ring.
  rewrite IH. ring.
Qed.

(** Dividing by a positive total mass: the average form and the linear
    form of a limit say the same. *)
Lemma average_le (s m L : Q) : 0 < m -> (s / m <= L <-> s - L * m <= 0).
Proof.
  intros Hm. split; intros H.
  - apply (Qmult_le_r _ _ m) in H; [|assumption].
    assert (E : s / m * m == s) by (field; lra).
    rewrite E in H. lra.
  - apply Qle_shift_div_r; [assumption | lra].
Qed.

Lemma dot_linear_form (P : WasteStream -> Q) (L : Q) ws : forall xs,
  dot (map (fun w => P w - L) ws) xs == linear_form P L ws xs.
Proof.
  unfold linear_form.
  induction ws as [|w ws IH]; intros [|v xs]; simpl; try reflexivity.
  rewrite IH. ring.
Qed.

Lemma linear_form_split (P : WasteStream -> Q) (L : Q) ws xs :
  length xs = length ws ->
  linear_form P L ws xs == weighted P ws xs - L * mass xs.
Proof.
  intros Hlen. rewrite <- dot_linear_form. now apply dot_shifted.
Qed.

Lemma linear_form_average (P : WasteStream -> Q) (L : Q) ws xs :
  length xs = length ws -> 0 < mass xs ->
  (linear_form P L ws xs <= 0 <-> mix_average P ws xs <= L).
Proof.
  intros Hlen Hm. rewrite linear_form_split by assumption.
  unfold mix_average. symmetry. now apply average_le.
Qed.

Lemma linear_form_average_ge (P : WasteStream -> Q) (L : Q) ws xs :
  length xs = length ws -> 0 < mass xs ->
  (0 <= linear_form P L ws xs <-> L <= mix_average P ws xs).
Proof.
  intros Hlen Hm. rewrite linear_form_split by assumption.
  unfold mix_average. split; intros H.
  - apply Qle_shift_div_l; [assumption | lra].
  - apply (Qmult_le_r _ _ (mass xs)) in H; [|assumption].
    assert (E : weighted P ws xs / mass xs * mass xs == weighted P ws xs)
      by (field; lra).
    rewrite E in H. lra.
Qed.

Lemma rows_hold_build ws params xs :
  rows_hold (build_lp ws params) xs <->
    dot (replicate (length ws) 1) xs <= feed_rate_capacity params /\
    linear_form sulfur_content (max_sulfur params) ws xs <= 0 /\
    linear_form chloride_content (max_chloride params) ws xs <= 0 /\
    0 <= linear_form pci_value (0.95 * target_pci params) ws xs /\
    linear_form pci_value (1.05 * target_pci params) ws xs <= 0.
Proof.
  unfold rows_hold, build_lp; simpl.
  unfold sulfur_coeffs, chloride_coeffs, pci_lower_coeffs, pci_upper_coeffs.
  rewrite <- !dot_linear_form.
  pose proof (dot_negated (fun w => pci_value w - 0.95 * target_pci params)
                ws xs) as Hneg.
  cbv beta in Hneg.
  split.
  - intros H.
    repeat match goal with
           | H : Forall2 _ (_ :: _) (_ :: _) |- _ =>
               apply Forall2_cons_1 in H; destruct H as [? H]
           end.
    repeat split; try assumption. lra.
  - intros (H1 & H2 & H3 & H4 & H5).
    repeat (apply Forall2_cons; split); try assumption;
      [lra | constructor].
Qed.

(** C1. In the free-allocation formulation every weighted-average limit is
    linearised: the rows that the model builder adds for the sulfur limit,
    the chloride limit and the two sides of the calorific-value band
    [0.95 * target, 1.05 * target] say [Σ x_i * (P_i - L) <= 0] (with the
    sign turned for the lower side of the band), and for an allocation of
    positive total mass each of them holds exactly when the mix average
    [(Σ x_i * P_i) / (Σ x_i)] respects the limit. *)
Theorem weighted_limits_linearized ws params xs :
  length xs = length ws ->
  (rows_hold (build_lp ws params) xs <->
     mass xs <= feed_rate_capacity params /\
     linear_form sulfur_content (max_sulfur params) ws xs <= 0 /\
     linear_form chloride_content (max_chloride params) ws xs <= 0 /\
     0 <= linear_form pci_value (0.95 * target_pci params) ws xs /\
     linear_form pci_value (1.05 * target_pci params) ws xs <= 0) /\
  (0 < mass xs ->
   (rows_hold (build_lp ws params) xs <->
      mass xs <= feed_rate_capacity params /\
      mix_average sulfur_content ws xs <= max_sulfur params /\
      mix_average chloride_content ws xs <= max_chloride params /\
      0.95 * target_pci params <= mix_average pci_value ws xs /\
      mix_average pci_value ws xs <= 1.05 * target_pci params)).
Proof.
  intros Hlen.
  assert (Hrows := rows_hold_build ws params xs).
  rewrite <- Hlen, dot_replicate_one in Hrows.
  split; [exact Hrows|].
  intros Hm. rewrite Hrows.
  rewrite !(linear_form_average _ _ ws xs Hlen Hm).
  rewrite (linear_form_average_ge _ _ ws xs Hlen Hm).
  reflexivity.
Qed.

Lemma weighted_limits_linearized_witness :
  length [5; 10; 0; 0] = length streams /\
  0 < mass [5; 10; 0; 0] /\
  (rows_hold (build_lp streams params) [5; 10; 0; 0] <->
     mass [5; 10; 0; 0] <= feed_rate_capacity params /\
     mix_average sulfur_content streams [5; 10; 0; 0] <= max_sulfur params /\
     mix_average chloride_content streams [5; 10; 0; 0]
       <= max_chloride params /\
     0.95 * target_pci params <= mix_average pci_value streams [5; 10; 0; 0] /\
     mix_average pci_value streams [5; 10; 0; 0] <= 1.05 * target_pci params).
Proof.
  split; [reflexivity|]. split; [reflexivity|].
  apply (weighted_limits_linearized streams params [5; 10; 0; 0]);
    reflexivity.
Defined.

(** *** Humidity and density are never read *)

Lemma map_agree {B : Type} (f : WasteStream -> B) ws ws' :
  Forall2 agree_off_humidity_density ws ws' ->
  (forall w w', agree_off_humidity_density w w' -> f w = f w') ->
  map f ws = map f ws'.
Proof.
  intros H Hf. induction H as [|w w' ws ws' Hw _ IH]; [reflexivity|].
  simpl. now rewrite (Hf _ _ Hw), IH.
Qed.

Lemma build_lp_agree ws ws' params :
  Forall2 agree_off_humidity_density ws ws' ->
  build_lp ws params = build_lp ws' params.
Proof.
  intros H. unfold build_lp, sulfur_coeffs, chloride_coeffs,
    pci_lower_coeffs, pci_upper_coeffs.
  rewrite (Forall2_length _ _ _ H).
  rewrite !(map_agree _ ws ws' H);
    [reflexivity | intros w w' (Hn & Hp & Hc & Hs & Hk & Ha); congruence ..].
Qed.

Lemma accumulate_agree w w' val t :
  agree_off_humidity_density w w' -> accumulate w val t = accumulate w' val t.
Proof.
  intros (Hn & Hp & Hc & Hs & Hk & Ha). unfold accumulate.
  now rewrite Hn, Hp, Hc, Hs, Hk.
Qed.

Lemma enumerate_loop_agree ws ws' :
  Forall2 agree_off_humidity_density ws ws' ->
  forall xs i t, enumerate_loop ws i xs t = enumerate_loop ws' i xs t.
Proof.
  intros H. induction xs as [|val xs IH]; intros i t; simpl; [reflexivity|].
  destruct (Py.Qltb 0.001 val); [|apply IH].
  destruct (ws !! i) as [w|] eqn:Ew.
  - destruct (Forall2_lookup_l _ _ _ _ _ H Ew) as (w' & -> & Hww).
    rewrite (accumulate_agree _ _ _ _ Hww). apply IH.
  - apply Forall2_length in H as Hlen.
    apply lookup_ge_None in Ew.
    assert (Ew' : ws' !! i = None) by (apply lookup_ge_None; lia).
    now rewrite Ew'.
Qed.

(** With at least one stream the program has variables, and the call is
    the solver's answer read by the interpreter; without streams scipy
    refuses the program. *)
Lemma calculate_optimal_mix_nonempty linprog ws params :
  ws <> [] ->
  calculate_optimal_mix linprog ws params
  = interpret ws (linprog (build_lp ws params)).
Proof. destruct ws; [congruence | reflexivity]. Qed.

Lemma calculate_optimal_mix_empty linprog params :
  calculate_optimal_mix linprog [] params
  = Py.Raise (Py.ValueError no_variables).
Proof. reflexivity. Qed.

(** C10. The result of the free-allocation formulation does not depend on
    the humidity and density of the waste streams: two lists of streams
    that differ in those two fields only give the same result, whatever
    the solver and the operating parameters. *)
Theorem humidity_density_ignored linprog ws ws' params :
  Forall2 agree_off_humidity_density ws ws' ->
  calculate_optimal_mix linprog ws params
  = calculate_optimal_mix linprog ws' params.
Proof.
  intros H. destruct H as [|w w' ws ws' Hw H]; [reflexivity|].
  assert (Hall : Forall2 agree_off_humidity_density (w :: ws) (w' :: ws'))
    by (constructor; assumption).
  rewrite !calculate_optimal_mix_nonempty by discriminate.
  unfold interpret. rewrite (build_lp_agree _ _ params Hall).
  destruct (success _); [|reflexivity].
  now rewrite (enumerate_loop_agree _ _ Hall).
Qed.

(** *** The derived properties are sums over the solution vector *)

Lemma kept_sum_cons f w ws v xs :
  kept_sum f (w :: ws) (v :: xs)
  = (if kept v then f w v else 0) + kept_sum f ws xs.
Proof. reflexivity. Qed.

Lemma kept_sum_nil f ws : kept_sum f ws [] = 0.
Proof. destruct ws; reflexivity. Qed.

Lemma average_compat a a' m m' :
  a == a' -> m == m' -> average a m == average a' m'.
Proof.
  intros Ea Em. unfold average.
  rewrite (PyFacts.Qltb_compat 0 0 m m' (Qeq_refl 0) Em).
  destruct (Py.Qltb 0 m') eqn:E; [|reflexivity].
  apply PyFacts.Qltb_lt in E. rewrite Ea, Em. reflexivity.
Qed.

Lemma enumerate_loop_totals ws : forall xs i t0,
  (i + length xs <= length ws)%nat ->
  exists t,
    enumerate_loop ws i xs t0 = Py.Return t /\
    total_mass t == total_mass t0 + kept_mass (drop i ws) xs /\
    total_heat t == total_heat t0 + kept_heat (drop i ws) xs /\
    total_sulfur_mass t
      == total_sulfur_mass t0 + kept_sulfur (drop i ws) xs /\
    total_chloride_mass t
      == total_chloride_mass t0 + kept_chloride (drop i ws) xs /\
    total_cost t == total_cost t0 + kept_cost (drop i ws) xs.
Proof.
  unfold kept_mass, kept_heat, kept_sulfur, kept_chloride, kept_cost.
  induction xs as [|val xs IH]; intros i t0 Hlen.
  - exists t0. rewrite !kept_sum_nil.
    repeat split; try reflexivity; ring.
  - simpl in Hlen.
    destruct (lookup_lt_is_Some_2 ws i ltac:(lia)) as [w Hw].
    rewrite (drop_S _ _ _ Hw), !kept_sum_cons.
    simpl. rewrite Hw. fold (kept val).
    destruct (kept val).
    + destruct (IH (S i) (accumulate w val t0) ltac:(lia))
        as (t & Ht & Hm & Hh & Hs & Hc & Hk).
      exists t. split; [assumption|]. simpl in *.
      rewrite Hm, Hh, Hs, Hc, Hk. repeat split; ring.
    + destruct (IH (S i) t0 ltac:(lia)) as (t & Ht & Hm & Hh & Hs & Hc & Hk).
      exists t. split; [assumption|].
      rewrite Hm, Hh, Hs, Hc, Hk. repeat split; ring.
Qed.

Lemma derived_from_solution ws res :
  success res = true -> (length (x res) <= length ws)%nat ->
  exists a,
    interpret ws res = Py.Return (TargetAchieved a) /\
    Py.rounding_of 2 (kept_mass ws (x res)) (total_feed_rate a) /\
    Py.rounding_of 2
      (average (kept_heat ws (x res)) (kept_mass ws (x res))) (avg_pci a) /\
    Py.rounding_of 4
      (average (kept_sulfur ws (x res)) (kept_mass ws (x res)))
      (avg_sulfur_percent a) /\
    Py.rounding_of 4
      (average (kept_chloride ws (x res)) (kept_mass ws (x res)))
      (avg_chloride_percent a) /\
    Py.rounding_of 2 (kept_cost ws (x res)) (total_cost_per_hour a).
Proof.
  intros Hs Hlen. unfold interpret. rewrite Hs.
  destruct (enumerate_loop_totals ws (x res) 0 totals0 ltac:(simpl; lia))
    as (t & Ht & Hm & Hh & Hsu & Hc & Hk).
  rewrite Ht. rewrite drop_0 in *. simpl in Hm, Hh, Hsu, Hc, Hk.
  rewrite Qplus_0_l in Hm, Hh, Hsu, Hc, Hk.
  exists (achieved_of t). split; [reflexivity|]. simpl.
  repeat split; apply PyFacts.rounding_of_round;
    try apply average_compat; assumption.
Qed.

(** *** Streams without stock *)

Lemma bounds_lookup ws params i w :
  ws !! i = Some w ->
  bounds (build_lp ws params) !! i = Some (0, available_mass w).
Proof. intros H. simpl. now rewrite list_lookup_fmap, H. Qed.

Lemma within_bounds_length ws params xs :
  Forall2 within (bounds (build_lp ws params)) xs -> length xs = length ws.
Proof.
  intros H. apply Forall2_length in H. simpl in H.
  rewrite length_map in H. congruence.
Qed.

(** A name enters [result_mix] only through a kept entry of that name. *)
Lemma enumerate_loop_absent ws n : forall xs i t0 t,
  enumerate_loop ws i xs t0 = Py.Return t ->
  result_mix t0 !! n = None ->
  (forall j v w, xs !! j = Some v -> ws !! (i + j)%nat = Some w ->
                 name w = n -> kept v = false) ->
  result_mix t !! n = None.
Proof.
  induction xs as [|val xs IH]; intros i t0 t Ht H0 Hk; simpl in Ht.
  - injection Ht as <-. assumption.
  - assert (Hk' : forall j v w, xs !! j = Some v ->
              ws !! (S i + j)%nat = Some w -> name w = n -> kept v = false).
    { intros j v w Hv Hw. apply (Hk (S j) v w Hv).
      now rewrite Nat.add_succ_r. }
    fold (kept val) in Ht. destruct (kept val) eqn:Ev.
    + destruct (ws !! i) as [w|] eqn:Hw; [|discriminate].
      apply (IH _ _ _ Ht); [|assumption].
      simpl. apply lookup_insert_None. split; [assumption|].
      intros En. specialize (Hk 0%nat val w eq_refl).
      rewrite Nat.add_0_r in Hk. specialize (Hk Hw En). congruence.
    + apply (IH _ _ _ Ht); assumption.
Qed.

Lemma no_stock_unreported ws params res i w :
  ws !! i = Some w ->
  Forall (fun w' => name w' = name w -> available_mass w' <= 0) ws ->
  success res = true ->
  Forall2 within (bounds (build_lp ws params)) (x res) ->
  exists a,
    interpret ws res = Py.Return (TargetAchieved a) /\
    mix_ton_per_hour a !! name w = None.
Proof.
  intros Hw Hall Hs Hb.
  pose proof (within_bounds_length _ _ _ Hb) as Hlen.
  unfold interpret. rewrite Hs.
  destruct (enumerate_loop_totals ws (x res) 0 totals0
              ltac:(simpl; lia)) as (t & Ht & _).
  rewrite Ht. exists (achieved_of t). split; [reflexivity|]. simpl.
  apply (enumerate_loop_absent ws (name w) _ _ _ _ Ht);
    [apply lookup_empty|].
  intros j v w' Hv Hw' En. simpl in Hw'.
  rewrite Forall_forall in Hall.
  specialize (Hall w' ltac:(eapply list_elem_of_lookup_2; eassumption) En).
  pose proof (bounds_lookup ws params j w' Hw') as Hbj.
  destruct (Forall2_lookup_l _ _ _ _ _ Hb Hbj) as (v' & Hv' & _ & Hup).
  simpl in Hup. assert (v' = v) by congruence. subst v'.
  unfold kept. apply PyFacts.Qltb_ge. lra.
Qed.

(** *** Using every stock in full *)

Lemma dot_upper cs : forall bs ys,
  Forall (fun k => k <= 0) cs -> Forall2 within bs ys ->
  dot cs (map snd bs) <= dot cs ys.
Proof.
  induction cs as [|k cs IH]; intros bs ys Hc Hb; [simpl; lra|].
  apply Forall_cons in Hc as [Hk Hc].
  destruct Hb as [|b v bs ys [_ Hv] Hb]; [simpl; lra|].
  simpl. specialize (IH _ _ Hc Hb).
  assert (k * snd b <= k * v) by nra. lra.
Qed.

(** The solver minimises [c @ x]: when no coefficient is positive and the
    upper bounds form a feasible point, that point is optimal. *)
Lemma all_stock_optimal lp :
  Forall (fun k => k <= 0) (c lp) ->
  feasible lp (x (all_stock lp)) -> optimal lp (x (all_stock lp)).
Proof.
  intros Hc Hf. split; [assumption|].
  intros ys (_ & _ & Hb). simpl. now apply dot_upper.
Qed.

Ltac Qle_compute := apply Qle_bool_iff; vm_compute; reflexivity.

Lemma small_request_optimal :
  optimal (build_lp small_streams small_params)
          (x (all_stock (build_lp small_streams small_params))).
Proof.
  apply all_stock_optimal.
  - repeat constructor; Qle_compute.
  - split; [reflexivity|]. split.
    + repeat constructor; Qle_compute.
    + repeat constructor; simpl; Qle_compute.
Qed.

End OptimizationEngineFacts.

(** ** The protocol formulation *)

Module AdvancedOptimizerFacts.
Import AdvancedOptimizer.

Lemma LpVariable_dicts_lookup names lo up n :
  LpVariable_dicts names lo up !! n
  = if bool_decide (n ∈ names) then Some (mkLpVariable lo up) else None.
Proof.
  unfold LpVariable_dicts.
  assert (G : forall d0 : gmap string LpVariable,
    foldl (fun d k => <[k := mkLpVariable lo up]> d) d0 names !! n
    = if bool_decide (n ∈ names) then Some (mkLpVariable lo up)
      else d0 !! n).
  { induction names as [|k names IH]; intros d0; simpl.
    - reflexivity.
    - rewrite IH.
      destruct (bool_decide_reflect (n ∈ names)) as [Hin|Hin].
      + rewrite bool_decide_eq_true_2 by (now right). reflexivity.
      + destruct (decide (n = k)) as [->|Hne].
        * rewrite bool_decide_eq_true_2 by left.
          now rewrite lookup_insert_eq.
        * rewrite bool_decide_eq_false_2
            by (intros [?|?]%elem_of_cons; congruence).
          now rewrite lookup_insert_ne by congruence. }
  rewrite G. now rewrite lookup_empty.
Qed.

Lemma availability_lookup waste_data : forall vars n,
  availability waste_data vars !! n
  = (fun v => if exhausted n waste_data
              then mkLpVariable (lowBound v) 0 else v) <$> vars !! n.
Proof.
  unfold availability.
  induction waste_data as [|w rest IH]; intros vars n; simpl.
  - now destruct (vars !! n).
  - rewrite IH. destruct (out_of_stock w) eqn:Ew.
    + rewrite lookup_alter. case_decide as E; [subst n|].
      * rewrite bool_decide_eq_true_2 by reflexivity. simpl.
        destruct (vars !! name w); simpl; [|reflexivity].
        now destruct (exhausted (name w) rest).
      * rewrite bool_decide_eq_false_2 by assumption. reflexivity.
    + now rewrite andb_false_r.
Qed.

Lemma exhausted_intro w waste_data :
  w ∈ waste_data -> out_of_stock w = true ->
  exhausted (name w) waste_data = true.
Proof.
  intros Hin Hw. unfold exhausted. apply existsb_exists.
  exists w. split; [now apply list_elem_of_In|].
  now rewrite bool_decide_eq_true_2, Hw.
Qed.

(** The variable of a waste of the request: bounded by [0] and by [0.5],
    or by [0] when an entry of that name has no stock. *)
Lemma variables_lookup waste_data limits w :
  w ∈ waste_data ->
  variables (build_lp waste_data limits) !! name w
  = Some (mkLpVariable 0
            (if exhausted (name w) waste_data then 0 else 0.5)).
Proof.
  intros Hin. simpl. rewrite availability_lookup, LpVariable_dicts_lookup.
  rewrite bool_decide_eq_true_2
    by (apply list_elem_of_fmap; now exists w).
  simpl. now destruct (exhausted _ _).
Qed.

Lemma variables_inv waste_data limits n v :
  variables (build_lp waste_data limits) !! n = Some v ->
  n ∈ map name waste_data /\
  v = mkLpVariable 0 (if exhausted n waste_data then 0 else 0.5).
Proof.
  simpl. rewrite availability_lookup, LpVariable_dicts_lookup.
  destruct (bool_decide_reflect (n ∈ map name waste_data)) as [Hin|Hin];
    simpl; [|discriminate].
  intros [= <-]. split; [assumption|]. now destruct (exhausted _ _).
Qed.

Lemma eval_lpSum a k prop waste_data :
  eval a (mkLpAffineExpression k (lpSum prop waste_data))
  = k + Py.sum (map (fun w => a (name w) * prop w) waste_data).
Proof.
  unfold eval, lpSum. simpl. now rewrite map_map.
Qed.

Lemma sum_times_one a waste_data :
  Py.sum (map (fun w : Waste => a (name w) * 1) waste_data)
  == fractions a waste_data.
Proof.
  unfold fractions.
  induction waste_data as [|w rest IH]; simpl; [reflexivity|].
  rewrite IH. ring.
Qed.

Lemma feasible_fractions wd limits a :
  feasible (build_lp wd limits) a -> fractions a wd == 0.5.
Proof.
  intros [Hc _]. simpl in Hc. apply Forall_cons in Hc as [Hbal _].
  unfold holds in Hbal. simpl in Hbal.
  rewrite eval_lpSum, sum_times_one in Hbal. lra.
Qed.

Lemma feasible_bounds wd limits a w :
  feasible (build_lp wd limits) a -> w ∈ wd ->
  0 <= a (name w) /\
  a (name w) <= (if exhausted (name w) wd then 0 else 0.5).
Proof.
  intros [_ Hb] Hin.
  exact (Hb _ _ (variables_lookup wd limits w Hin)).
Qed.

(** C2. In the protocol formulation the model builder always imposes the
    mass balance as an equality: the first constraint of the problem is
    [Protocol_Half_Waste], the sum of the waste fractions [== 0.50]; every
    waste variable has lower bound [0] and upper bound [0.5] or [0]; so
    every feasible point gives the wastes exactly half of the mix, each
    fraction lying in [[0, 0.5]]. *)
Theorem protocol_mass_balance wd limits :
  head (constraints (build_lp wd limits))
  = Some ("Protocol_Half_Waste"%string,
          mkLpConstraint (mkLpAffineExpression 0 (lpSum (fun _ => 1) wd))
                         LpConstraintEQ 0.50) /\
  (forall w, w ∈ wd ->
     exists v, variables (build_lp wd limits) !! name w = Some v /\
               lowBound v = 0 /\ (upBound v = 0.5 \/ upBound v = 0)) /\
  (forall a, feasible (build_lp wd limits) a ->
     fractions a wd == 0.5 /\
     forall w, w ∈ wd -> 0 <= a (name w) /\ a (name w) <= 0.5).
Proof.
  split; [reflexivity|]. split.
  - intros w Hin. eexists. split; [now apply variables_lookup|].
    simpl. split; [reflexivity|].
    destruct (exhausted _ _); [now right | now left].
  - intros a Hf. split; [now apply (feasible_fractions wd limits)|].
    intros w Hin.
    destruct (feasible_bounds wd limits a w Hf Hin) as [Hlo Hup].
    split; [assumption|]. destruct (exhausted _ _); lra.
Qed.

(** *** The result interpreter, when every variable has a value *)

Lemma products_valued vals prop wd :
  Forall (fun w => is_Some (vals !! name w)) wd ->
  exists ps,
    products vals prop wd = Py.Return ps /\
    Py.sum ps
    == Py.sum (map (fun w => default 0 (vals !! name w) * prop w) wd).
Proof.
  induction 1 as [|w rest [v Hv] _ (ps & Hps & Hsum)]; simpl.
  - exists []. split; reflexivity.
  - rewrite Hv, Hps. exists (v * prop w :: ps). split; [reflexivity|].
    simpl. rewrite Hsum. reflexivity.
Qed.

Lemma total_valued offset sol prop wd :
  valued sol wd ->
  exists q,
    total offset (varValue sol) prop wd = Py.Return q /\
    q == eval (assignment sol) (with_offset offset prop wd).
Proof.
  intros Hv. unfold total.
  destruct (products_valued (varValue sol) prop wd Hv) as (ps & -> & Hsum).
  eexists. split; [reflexivity|].
  unfold with_offset. rewrite eval_lpSum, Hsum. reflexivity.
Qed.

Lemma value_terms_valued vals prop wd :
  Forall (fun w => is_Some (vals !! name w)) wd ->
  forall s, exists v,
    value_terms vals (lpSum prop wd) s = Some v /\
    v == s + Py.sum (map (fun w => default 0 (vals !! name w) * prop w) wd).
Proof.
  induction 1 as [|w rest [v Hv] _ IH]; intros s; simpl.
  - exists s. split; [reflexivity | ring].
  - rewrite Hv. destruct (IH (s + v * prop w)) as (r & -> & Hr).
    exists r. split; [reflexivity|]. rewrite Hr. simpl. ring.
Qed.

Lemma value_valued offset sol prop wd :
  valued sol wd ->
  exists v,
    value (varValue sol) (with_offset offset prop wd) = Some v /\
    v == eval (assignment sol) (with_offset offset prop wd).
Proof.
  intros Hv. unfold value, with_offset. simpl.
  destruct (value_terms_valued (varValue sol) prop wd Hv (0.5 * offset))
    as (v & -> & Hsum).
  exists v. split; [reflexivity|]. now rewrite eval_lpSum.
Qed.

Lemma round_zero n : Py.round 0 n = 0.
Proof.
  unfold Py.round.
  rewrite (PyFacts.nearest_even_compat (0 * inject_Z (Py.pow10 n)) 0)
    by ring.
  change (Py.nearest_even 0) with 0%Z.
  transitivity (Qred 0); [|reflexivity].
  apply Qred_complete. unfold Qdiv. change (inject_Z 0) with 0. ring.
Qed.

(** [round(v, 2) if v else 0.0] is [round(v, 2)] all the same. *)
Lemma round_if_truthy v n :
  (if Py.truthy v then Py.round v n else 0) = Py.round v n.
Proof.
  unfold Py.truthy. destruct (Qeq_bool v 0) eqn:E; simpl; [|reflexivity].
  apply Qeq_bool_iff in E.
  now rewrite (PyFacts.round_compat _ _ n E), round_zero.
Qed.

(** The objective holds a variable as soon as one waste has a calorific
    value other than 0. *)
Lemma holds_a_variable offset wd :
  Exists (fun w => ~ pci w == 0) wd ->
  holds_no_variable (with_offset offset pci wd) = false.
Proof.
  intros H. unfold holds_no_variable, with_offset, lpSum. simpl.
  apply not_true_iff_false. intros Hall.
  rewrite forallb_forall in Hall.
  apply Exists_exists in H as (w & Hin & Hw). apply Hw.
  apply Qeq_bool_iff.
  apply (Hall (name w, pci w)).
  apply list_elem_of_In, list_elem_of_fmap. now exists w.
Qed.

Lemma interpret_valued wd limits sol :
  valued sol wd ->
  exists r,
    interpret wd (build_lp wd limits) sol = Py.Return r /\
    status r = LpStatus (prob_status sol) /\
    mix r = mix_results (varValue sol) (map name wd) /\
    ((Exists (fun w => ~ pci w == 0) wd ->
      Py.rounding_of 2
        (eval (assignment sol) (with_offset PETCOKE_pci pci wd))
        (objective_value r)) /\
     (wd = [] -> objective_value r = 0)) /\
    Py.rounding_of 5
      (eval (assignment sol) (with_offset PETCOKE_chlorine chlorine wd))
      (final_chlorine (details r)) /\
    Py.rounding_of 5
      (eval (assignment sol) (with_offset PETCOKE_humidity humidity wd))
      (final_humidity (details r)) /\
    Py.rounding_of 5
      (eval (assignment sol) (with_offset PETCOKE_sulfur sulfur wd))
      (final_sulfur (details r)).
Proof.
  intros Hv. unfold interpret.
  destruct (total_valued PETCOKE_chlorine sol chlorine wd Hv)
    as (qc & -> & Hc).
  destruct (total_valued PETCOKE_humidity sol humidity wd Hv)
    as (qh & -> & Hh).
  destruct (total_valued PETCOKE_sulfur sol sulfur wd Hv) as (qs & -> & Hs).
  change (objective (build_lp wd limits))
    with (with_offset PETCOKE_pci pci wd).
  unfold value_after_solve.
  destruct (value_valued PETCOKE_pci sol pci wd Hv) as (v & -> & Ho).
  eexists. split; [reflexivity|]. simpl.
  split; [reflexivity|]. split; [reflexivity|].
  split; [|split; [|split]]; try now apply PyFacts.rounding_of_round.
  destruct (holds_no_variable _) eqn:E; split.
  - intros Hex. now rewrite (holds_a_variable _ _ Hex) in E.
  - reflexivity.
  - intros _. rewrite round_if_truthy. now apply PyFacts.rounding_of_round.
  - intros ->. discriminate E.
Qed.

Lemma holdsb_holds a k : holdsb a k = true <-> holds a k.
Proof.
  unfold holdsb, holds. destruct (sense k).
  - apply Qle_bool_iff.
  - apply Qeq_bool_iff.
  - apply Qle_bool_iff.
Qed.

(** Feasibility on a request, checked by evaluation: the constraints one by
    one, and the bounds of the variable of each waste. *)
Lemma feasible_check wd limits a :
  forallb (fun nk => holdsb a (snd nk)) (constraints (build_lp wd limits))
    = true ->
  forallb (fun w => Qle_bool 0 (a (name w)) &&
                    Qle_bool (a (name w))
                      (if exhausted (name w) wd then 0 else 0.5)) wd
    = true ->
  feasible (build_lp wd limits) a.
Proof.
  intros Hc Hb. split.
  - apply Forall_forall. intros nk Hin. apply holdsb_holds.
    rewrite forallb_forall in Hc. apply Hc. now apply list_elem_of_In.
  - intros n v Hv. apply variables_inv in Hv as [Hin ->].
    apply list_elem_of_fmap in Hin as (w & -> & Hw).
    rewrite forallb_forall in Hb.
    specialize (Hb w ltac:(now apply list_elem_of_In)).
    apply andb_true_iff in Hb as [Hlo Hup].
    apply Qle_bool_iff in Hlo, Hup. simpl. split; assumption.
Qed.

Lemma all_tires_feasible :
  feasible (build_lp waste_data sample_constraints) all_tires.
Proof. apply feasible_check; vm_compute; reflexivity. Qed.

Lemma protocol_mass_balance_witness :
  feasible (build_lp waste_data sample_constraints) all_tires /\
  fractions all_tires waste_data == 0.5.
Proof.
  split; [exact all_tires_feasible|].
  apply (protocol_mass_balance waste_data sample_constraints).
  exact all_tires_feasible.
Defined.

(** *** The two-waste request *)

Section TwoWastes.
Variables clA sA hA stockA clB sB hB stockB : Q.
Hypothesis stockA_pos : 0 < stockA.
Hypothesis stockB_pos : 0 < stockB.

Let wd := two_wastes clA sA hA stockA clB sB hB stockB.

Lemma two_wastes_in_stock n : exhausted n wd = false.
Proof.
  assert (H : forall s, 0 < s -> Qle_bool s 0 = false).
  { intros s Hs. destruct (Qle_bool s 0) eqn:E; [|reflexivity].
    apply Qle_bool_iff in E. lra. }
  unfold exhausted, wd, two_wastes, out_of_stock. simpl.
  rewrite !H by assumption. now rewrite !andb_false_r.
Qed.

Lemma two_wastes_constraints :
  constraints (build_lp wd ∅)
  = [("Protocol_Half_Waste"%string,
      mkLpConstraint (mkLpAffineExpression 0 (lpSum (fun _ => 1) wd))
                     LpConstraintEQ 0.50)].
Proof. reflexivity. Qed.

Lemma two_wastes_objective a :
  eval a (objective (build_lp wd ∅))
  == 4100 + 8000 * a "A"%string + 4000 * a "B"%string.
Proof. unfold eval. simpl. unfold PETCOKE_pci. ring. Qed.

Lemma two_wastes_feasible a :
  feasible (build_lp wd ∅) a ->
  a "A"%string + a "B"%string == 0.5 /\
  0 <= a "A"%string <= 0.5 /\ 0 <= a "B"%string <= 0.5.
Proof.
  intros Hf.
  pose proof (feasible_fractions _ _ _ Hf) as Hsum.
  pose proof (feasible_bounds wd ∅ a _ Hf
                (list_elem_of_here _ _)) as HA.
  pose proof (feasible_bounds wd ∅ a _ Hf
                (list_elem_of_further _ _ _ (list_elem_of_here _ _)))
    as HB.
  rewrite two_wastes_in_stock in HA, HB.
  unfold fractions in Hsum. simpl in Hsum, HA, HB. lra.
Qed.

Lemma all_A_feasible : feasible (build_lp wd ∅) all_A.
Proof.
  split.
  - rewrite two_wastes_constraints. repeat constructor.
  - intros n v Hv. apply variables_inv in Hv as [Hin ->].
    rewrite two_wastes_in_stock. simpl.
    unfold all_A. case_bool_decide; lra.
Qed.

Lemma all_A_optimal : optimal (build_lp wd ∅) all_A.
Proof.
  split; [exact all_A_feasible|].
  intros a Hf. apply two_wastes_feasible in Hf.
  rewrite !two_wastes_objective.
  change (all_A "A") with 0.5. change (all_A "B") with 0. lra.
Qed.

Lemma optimal_is_all_A a :
  optimal (build_lp wd ∅) a -> a "A"%string == 0.5 /\ a "B"%string == 0.
Proof.
  intros [Hf Hmax].
  specialize (Hmax _ all_A_feasible).
  rewrite !two_wastes_objective in Hmax.
  change (all_A "A") with 0.5 in Hmax. change (all_A "B") with 0 in Hmax.
  apply two_wastes_feasible in Hf. lra.
Qed.

Lemma optimal_mix_results sol :
  valued sol wd -> optimal (build_lp wd ∅) (assignment sol) ->
  mix_results (varValue sol) (map name wd)
  = {[ "Petcoke (Base)" := 50; "A" := 50 ]}.
Proof.
  intros Hv Hopt. apply optimal_is_all_A in Hopt as [HA HB].
  apply Forall_cons in Hv as [[vA EA] Hv].
  apply Forall_cons in Hv as [[vB EB] _].
  simpl in EA, EB. unfold assignment in HA, HB.
  rewrite EA in HA. rewrite EB in HB. simpl in HA, HB.
  unfold mix_results. simpl. rewrite EA, EB. unfold percentage.
  rewrite (PyFacts.truthy_compat _ _ HA), (PyFacts.truthy_compat _ _ HB).
  rewrite (PyFacts.round_compat (vA * 100) (0.5 * 100) 2)
    by (rewrite HA; reflexivity).
  vm_compute. reflexivity.
Qed.

(** C8. For the request of two wastes [A] (calorific value 8000) and [B]
    (calorific value 4000), both in stock, with no chemistry limit
    configured, the protocol problem has an optimum, every optimum gives
    the whole remaining share [0.5] to [A] and nothing to [B], and for a
    solver that returns an optimum the reported mix is 50% for the fixed
    base material, 50% for [A] and no entry for [B]. *)
Theorem highest_calorific_takes_share :
  optimal (build_lp wd ∅) all_A /\
  (forall a, optimal (build_lp wd ∅) a ->
     a "A"%string == 0.5 /\ a "B"%string == 0) /\
  (forall solve,
     valued (solve (build_lp wd ∅)) wd ->
     optimal (build_lp wd ∅) (assignment (solve (build_lp wd ∅))) ->
     exists r,
       solve_optimal_mix solve wd ∅ = Py.Return r /\
       mix r = {[ "Petcoke (Base)" := 50; "A" := 50 ]} /\
       mix r !! "B"%string = None).
Proof.
  split; [exact all_A_optimal|]. split; [exact optimal_is_all_A|].
  intros solve Hv Hopt. unfold solve_optimal_mix.
  destruct (interpret_valued wd ∅ _ Hv) as (r & Hr & _ & Hmix & _).
  exists r. split; [assumption|].
  rewrite Hmix, (optimal_mix_results _ Hv Hopt).
  split; [reflexivity | vm_compute; reflexivity].
Qed.

End TwoWastes.

Lemma report_all_A_optimal :
  optimal (build_lp (two_wastes 0.01 1.5 0.02 100 0.02 0.1 0.20 50) ∅)
    (assignment
       (report_all_A
          (build_lp (two_wastes 0.01 1.5 0.02 100 0.02 0.1 0.20 50) ∅))).
Proof.
  split.
  - apply feasible_check; vm_compute; reflexivity.
  - intros a Hf.
    apply (two_wastes_feasible 0.01 1.5 0.02 100 0.02 0.1 0.20 50) in Hf;
      [|reflexivity ..].
    rewrite !two_wastes_objective.
    change (assignment _ "A") with 0.5. change (assignment _ "B") with 0.
    lra.
Qed.

Lemma highest_calorific_takes_share_witness :
  0 < 100 /\ 0 < 50 /\
  (forall a,
     optimal (build_lp (two_wastes 0.01 1.5 0.02 100 0.02 0.1 0.20 50) ∅) a ->
     a "A"%string == 0.5 /\ a "B"%string == 0) /\
  exists r,
    solve_optimal_mix report_all_A
      (two_wastes 0.01 1.5 0.02 100 0.02 0.1 0.20 50) ∅ = Py.Return r /\
    mix r = {[ "Petcoke (Base)" := 50; "A" := 50 ]} /\
    mix r !! "B"%string = None.
Proof.
  split; [reflexivity|]. split; [reflexivity|].
  destruct (highest_calorific_takes_share 0.01 1.5 0.02 100 0.02 0.1 0.20 50)
    as (_ & Hall & Hmix); [reflexivity ..|].
  split; [exact Hall|].
  apply (Hmix report_all_A).
  - repeat (apply Forall_cons; split); try apply Forall_nil;
      eexists; vm_compute; reflexivity.
  - exact report_all_A_optimal.
Defined.

(** *** Wastes without stock *)

Lemma mix_results_lookup vals names n :
  mix_results vals names !! n
  = if bool_decide (n ∈ names) && Py.Qltb 0 (percentage (vals !! n))
    then Some (percentage (vals !! n))
    else ({[ "Petcoke (Base)"%string := 50 ]} : gmap string Q) !! n.
Proof.
  unfold mix_results.
  generalize ({[ "Petcoke (Base)"%string := 50 ]} : gmap string Q).
  induction names as [|k names IH]; intros m0; simpl; [reflexivity|].
  rewrite IH. destruct (decide (n = k)) as [->|Hne].
  - rewrite (bool_decide_eq_true_2 (k ∈ k :: names)) by left. simpl.
    destruct (Py.Qltb 0 (percentage (vals !! k))).
    + rewrite lookup_insert_eq. now destruct (bool_decide _).
    + now rewrite andb_false_r.
  - assert (E : bool_decide (n ∈ k :: names) = bool_decide (n ∈ names)).
    { apply bool_decide_ext. rewrite elem_of_cons.
      split; [intros [?|?]; [congruence | assumption] | now right]. }
    rewrite E.
    destruct (Py.Qltb 0 (percentage (vals !! k))); [|reflexivity].
    now rewrite lookup_insert_ne by congruence.
Qed.

Lemma percentage_zero sol n :
  assignment sol n == 0 -> percentage (varValue sol !! n) = 0.
Proof.
  unfold assignment, percentage. destruct (varValue sol !! n) as [v|];
    simpl; [|reflexivity].
  intros E. now rewrite (PyFacts.truthy_compat _ _ E).
Qed.

Lemma out_of_stock_variable wd limits w :
  w ∈ wd -> out_of_stock w = true ->
  variables (build_lp wd limits) !! name w = Some (mkLpVariable 0 0).
Proof.
  intros Hin Hw.
  now rewrite (variables_lookup wd limits w Hin), (exhausted_intro w wd).
Qed.

Lemma out_of_stock_unreported wd limits sol w :
  w ∈ wd -> out_of_stock w = true ->
  name w <> "Petcoke (Base)"%string ->
  in_bounds (variables (build_lp wd limits)) (assignment sol) ->
  mix_results (varValue sol) (map name wd) !! name w = None.
Proof.
  intros Hin Hw Hne Hb.
  destruct (Hb _ _ (out_of_stock_variable wd limits w Hin Hw)) as [Hlo Hup].
  simpl in Hlo, Hup.
  rewrite mix_results_lookup, (percentage_zero sol) by lra.
  rewrite andb_false_r. now apply lookup_singleton_ne.
Qed.

End AdvancedOptimizerFacts.

(** ** Both formulations *)

Module BlendFacts.
Module OE := OptimizationEngine.
Module AO := AdvancedOptimizer.
Import WasteManagement.

Lemma same_name_request_optimal :
  OE.optimal (OE.build_lp OE.same_name_streams OE.small_params)
    (OE.x (OE.all_stock (OE.build_lp OE.same_name_streams OE.small_params))).
Proof.
  apply OptimizationEngineFacts.all_stock_optimal.
  - repeat constructor; apply Qle_bool_iff; vm_compute; reflexivity.
  - split; [reflexivity|]. split.
    + repeat constructor; apply Qle_bool_iff; vm_compute; reflexivity.
    + repeat constructor; simpl; apply Qle_bool_iff; vm_compute; reflexivity.
Qed.

Lemma report_all_tires_feasible_base_label :
  AO.feasible (AO.build_lp AO.waste_data_base_label AO.sample_constraints)
    (AO.assignment
       (AO.report_all_tires
          (AO.build_lp AO.waste_data_base_label AO.sample_constraints))).
Proof.
  apply AdvancedOptimizerFacts.feasible_check; vm_compute; reflexivity.
Qed.

(** C3, as stated, fails.  The reported allocation is keyed by the name of
    the material, and neither formulation requires the names to be unique
    or to differ from the label of the fixed base material.  Free
    allocation: of two streams named ["Tires"], the first without stock,
    the optimum uses the stock of the second in full, and the entry read
    under the name of the first is 0.01 t/h.  Protocol: a waste without
    stock named ["Petcoke (Base)"] is reported at 50. *)
Lemma zero_stock_reported_under_shared_name :
  (OE.optimal (OE.build_lp OE.same_name_streams OE.small_params)
     (OE.x (OE.all_stock (OE.build_lp OE.same_name_streams OE.small_params)))
   /\
   exists w a,
     OE.same_name_streams !! 0%nat = Some w /\
     available_mass w = 0 /\
     OE.calculate_optimal_mix OE.all_stock OE.same_name_streams
       OE.small_params = Py.Return (OE.TargetAchieved a) /\
     OE.reported (OE.mix_ton_per_hour a) w == 0.01 /\
     ~ OE.reported (OE.mix_ton_per_hour a) w == 0) /\
  (AO.feasible (AO.build_lp AO.waste_data_base_label AO.sample_constraints)
     (AO.assignment
        (AO.report_all_tires
           (AO.build_lp AO.waste_data_base_label AO.sample_constraints))) /\
   exists w r,
     AO.waste_data_base_label !! 0%nat = Some w /\
     AO.out_of_stock w = true /\
     AO.solve_optimal_mix AO.report_all_tires AO.waste_data_base_label
       AO.sample_constraints = Py.Return r /\
     AO.mix r !! AO.name w = Some 50).
Proof.
  split.
  - split; [exact same_name_request_optimal|].
    eexists. eexists. split; [reflexivity|]. split; [reflexivity|].
    split; [vm_compute; reflexivity|].
    split; [vm_compute; reflexivity|].
    vm_compute. discriminate.
  - split; [exact report_all_tires_feasible_base_label|].
    eexists. eexists. split; [reflexivity|]. split; [reflexivity|].
    split; vm_compute; reflexivity.
Qed.

(** C3, amended.  The variable of a material without stock is bounded by
    zero, and the material has no entry in the reported mix when no other
    entry can be read under its name.  Free allocation: the variable of a
    stream is bounded by [(0, available_mass)]; when the solver's vector
    respects the bounds and no entry of that name has stock left (in
    particular when names are unique), the reported mix has no entry for
    the stream, that is, an allocation of zero.  Protocol: the variable of
    a waste whose stock is missing, zero or negative has bounds [(0, 0)];
    when the solver's values respect the bounds and the waste does not
    carry the label of the fixed base material, the reported mix has no
    entry for it. *)
Theorem zero_stock_zero_allocation :
  (forall linprog ws params i w,
     ws !! i = Some w -> available_mass w <= 0 ->
     Forall (fun w' => name w' = name w -> available_mass w' <= 0) ws ->
     OE.success (linprog (OE.build_lp ws params)) = true ->
     Forall2 OE.within (OE.bounds (OE.build_lp ws params))
             (OE.x (linprog (OE.build_lp ws params))) ->
     OE.bounds (OE.build_lp ws params) !! i = Some (0, available_mass w) /\
     exists a,
       OE.calculate_optimal_mix linprog ws params
       = Py.Return (OE.TargetAchieved a) /\
       OE.mix_ton_per_hour a !! name w = None /\
       OE.reported (OE.mix_ton_per_hour a) w = 0) /\
  (forall solve wd limits w,
     w ∈ wd -> AO.out_of_stock w = true ->
     AO.name w <> "Petcoke (Base)"%string ->
     AO.valued (solve (AO.build_lp wd limits)) wd ->
     AO.in_bounds (AO.variables (AO.build_lp wd limits))
                  (AO.assignment (solve (AO.build_lp wd limits))) ->
     AO.variables (AO.build_lp wd limits) !! AO.name w
     = Some (AO.mkLpVariable 0 0) /\
     exists r,
       AO.solve_optimal_mix solve wd limits = Py.Return r /\
       AO.mix r !! AO.name w = None).
Proof.
  split.
  - intros linprog ws params i w Hw _ Hall Hs Hb.
    split; [now apply OptimizationEngineFacts.bounds_lookup|].
    destruct (OptimizationEngineFacts.no_stock_unreported
                ws params _ i w Hw Hall Hs Hb) as (a & Ha & Hmix).
    exists a. split.
    { rewrite OptimizationEngineFacts.calculate_optimal_mix_nonempty;
        [assumption | intros ->; discriminate Hw]. }
    split; [assumption|].
    unfold OE.reported. now rewrite Hmix.
  - intros solve wd limits w Hin Hw Hne Hv Hb.
    split; [now apply AdvancedOptimizerFacts.out_of_stock_variable|].
    destruct (AdvancedOptimizerFacts.interpret_valued wd limits _ Hv)
      as (r & Hr & _ & Hmix & _).
    exists r. split; [assumption|]. rewrite Hmix.
    now apply (AdvancedOptimizerFacts.out_of_stock_unreported wd limits).
Qed.

Lemma report_all_tires_feasible :
  AO.feasible (AO.build_lp AO.waste_data_no_sludge AO.sample_constraints)
    (AO.assignment
       (AO.report_all_tires
          (AO.build_lp AO.waste_data_no_sludge AO.sample_constraints))).
Proof.
  apply AdvancedOptimizerFacts.feasible_check; vm_compute; reflexivity.
Qed.

Lemma zero_stock_zero_allocation_witness :
  (exists a,
     OE.calculate_optimal_mix OE.all_stock OE.small_streams_no_biomass
       OE.small_params = Py.Return (OE.TargetAchieved a) /\
     OE.mix_ton_per_hour a !! "Biomass_Agro"%string = None) /\
  (exists r,
     AO.solve_optimal_mix AO.report_all_tires AO.waste_data_no_sludge
       AO.sample_constraints = Py.Return r /\
     AO.mix r !! "Waste C (Sludge)"%string = None).
Proof.
  split.
  - destruct (proj1 zero_stock_zero_allocation OE.all_stock
                OE.small_streams_no_biomass OE.small_params 2%nat
                (mkWasteStream "Biomass_Agro" 3200 0.30 0.05 0.1 0.3 10 0))
      as (_ & a & Ha & Hmix & _).
    + reflexivity.
    + apply Qle_refl.
    + repeat constructor; simpl; intros E;
        solve [discriminate E | apply Qle_refl].
    + reflexivity.
    + repeat constructor; simpl; apply Qle_bool_iff; reflexivity.
    + exists a. split; assumption.
  - destruct (proj2 zero_stock_zero_allocation AO.report_all_tires
                AO.waste_data_no_sludge AO.sample_constraints
                (AO.mkWaste "Waste C (Sludge)" 1000 0.05 0.2 0.60 (Some 0)))
      as (_ & r & Hr & Hmix).
    + right. right. left.
    + reflexivity.
    + discriminate.
    + repeat (apply Forall_cons; split); try apply Forall_nil;
        eexists; vm_compute; reflexivity.
    + exact (proj2 report_all_tires_feasible).
    + exists r. split; assumption.
Defined.

Lemma humidity_density_ignored_witness :
  OE.calculate_optimal_mix OE.all_stock OE.small_streams OE.small_params
  = OE.calculate_optimal_mix OE.all_stock
      [ mkWasteStream "Tires" 7500 0.35 0.01 1.5 0.9 50 0.014;
        mkWasteStream "Industrial_Sludge" 1500 0 0.02 0.8 2 10 0.006 ]
      OE.small_params.
Proof.
  apply (OptimizationEngineFacts.humidity_density_ignored OE.all_stock).
  repeat constructor.
Defined.

(** *** Derived properties *)

(** C4, as stated, fails.  On the small request every stock is used in
    full, which is the optimum; the reported mix is 0.01 t/h of each
    stream and the reported average calorific value is 5700, while the
    average recomputed from the reported mix is 4500: the allocation is
    rounded to two decimals, the averages are taken before rounding. *)
Lemma recomputed_from_reported_mix_differs :
  OE.optimal (OE.build_lp OE.small_streams OE.small_params)
    (OE.x (OE.all_stock (OE.build_lp OE.small_streams OE.small_params))) /\
  exists a,
    OE.calculate_optimal_mix OE.all_stock OE.small_streams OE.small_params
    = Py.Return (OE.TargetAchieved a) /\
    OE.avg_pci a == 5700 /\
    OE.average
      (OE.reported_sum (fun w v => v * pci_value w) OE.small_streams
         (OE.mix_ton_per_hour a))
      (OE.reported_sum (fun _ v => v) OE.small_streams
         (OE.mix_ton_per_hour a)) == 4500 /\
    ~ Qabs (OE.avg_pci a -
            OE.average
              (OE.reported_sum (fun w v => v * pci_value w) OE.small_streams
                 (OE.mix_ton_per_hour a))
              (OE.reported_sum (fun _ v => v) OE.small_streams
                 (OE.mix_ton_per_hour a)))
        <= Py.half_unit 2.
Proof.
  split; [exact OptimizationEngineFacts.small_request_optimal|].
  eexists. split; [vm_compute; reflexivity|].
  split; [vm_compute; reflexivity|].
  split; [vm_compute; reflexivity|].
  vm_compute. intros H. apply H. reflexivity.
Qed.

(** C4, amended.  Every derived property of a successful result is the
    rounding of a sum taken over the solver's solution vector, and so lies
    within half a unit of its last decimal of that sum.  Free allocation,
    for a request that is not empty: the total mass, the averages of
    calorific value, sulfur and chloride and the total cost, over the
    entries above [0.001], rounded to 2, 2, 4, 4 and 2 decimals.  Protocol:
    the chlorine, humidity and sulfur of the mix, fixed share included,
    rounded to 5 decimals; the calorific value of the mix, fixed share
    included, rounded to 2 decimals, when some waste has a calorific value
    other than 0; for the request without wastes the reported objective
    value is 0. *)
Theorem derived_properties_from_solution :
  (forall linprog ws params,
     let res := linprog (OE.build_lp ws params) in
     ws <> [] ->
     OE.success res = true -> (length (OE.x res) <= length ws)%nat ->
     exists a,
       OE.calculate_optimal_mix linprog ws params
       = Py.Return (OE.TargetAchieved a) /\
       Py.rounding_of 2 (OE.kept_mass ws (OE.x res)) (OE.total_feed_rate a) /\
       Py.rounding_of 2
         (OE.average (OE.kept_heat ws (OE.x res))
            (OE.kept_mass ws (OE.x res))) (OE.avg_pci a) /\
       Py.rounding_of 4
         (OE.average (OE.kept_sulfur ws (OE.x res))
            (OE.kept_mass ws (OE.x res))) (OE.avg_sulfur_percent a) /\
       Py.rounding_of 4
         (OE.average (OE.kept_chloride ws (OE.x res))
            (OE.kept_mass ws (OE.x res))) (OE.avg_chloride_percent a) /\
       Py.rounding_of 2 (OE.kept_cost ws (OE.x res))
         (OE.total_cost_per_hour a)) /\
  (forall solve wd limits,
     let sol := solve (AO.build_lp wd limits) in
     AO.valued sol wd ->
     exists r,
       AO.solve_optimal_mix solve wd limits = Py.Return r /\
       (Exists (fun w => ~ AO.pci w == 0) wd ->
        Py.rounding_of 2
          (AO.eval (AO.assignment sol)
             (AO.with_offset AO.PETCOKE_pci AO.pci wd))
          (AO.objective_value r)) /\
       (wd = [] -> AO.objective_value r = 0) /\
       Py.rounding_of 5
         (AO.eval (AO.assignment sol)
            (AO.with_offset AO.PETCOKE_chlorine AO.chlorine wd))
         (AO.final_chlorine (AO.details r)) /\
       Py.rounding_of 5
         (AO.eval (AO.assignment sol)
            (AO.with_offset AO.PETCOKE_humidity AO.humidity wd))
         (AO.final_humidity (AO.details r)) /\
       Py.rounding_of 5
         (AO.eval (AO.assignment sol)
            (AO.with_offset AO.PETCOKE_sulfur AO.sulfur wd))
         (AO.final_sulfur (AO.details r))).
Proof.
  split.
  - intros linprog ws params res Hne Hs Hlen.
    rewrite OptimizationEngineFacts.calculate_optimal_mix_nonempty
      by assumption.
    exact (OptimizationEngineFacts.derived_from_solution ws res Hs Hlen).
  - intros solve wd limits sol Hv.
    destruct (AdvancedOptimizerFacts.interpret_valued wd limits sol Hv)
      as (r & Hr & _ & _ & [Ho Ho0] & Hc & Hh & Hs).
    exists r. split; [assumption|]. split; [assumption|].
    split; [assumption|]. split; [assumption|]. split; assumption.
Qed.

Lemma derived_properties_from_solution_witness :
  (exists a,
     OE.calculate_optimal_mix OE.all_stock OE.small_streams OE.small_params
     = Py.Return (OE.TargetAchieved a) /\
     Py.rounding_of 2
       (OE.average (OE.kept_heat OE.small_streams [0.014; 0.006])
          (OE.kept_mass OE.small_streams [0.014; 0.006])) (OE.avg_pci a)) /\
  (exists r,
     AO.solve_optimal_mix AO.report_all_tires AO.waste_data
       AO.sample_constraints = Py.Return r /\
     Py.rounding_of 2
       (AO.eval
          (AO.assignment
             (AO.report_all_tires
                (AO.build_lp AO.waste_data AO.sample_constraints)))
          (AO.with_offset AO.PETCOKE_pci AO.pci AO.waste_data))
       (AO.objective_value r) /\
     Py.rounding_of 5
       (AO.eval
          (AO.assignment
             (AO.report_all_tires
                (AO.build_lp AO.waste_data AO.sample_constraints)))
          (AO.with_offset AO.PETCOKE_sulfur AO.sulfur AO.waste_data))
       (AO.final_sulfur (AO.details r))) /\
  (exists r,
     AO.solve_optimal_mix AO.report_infeasible [] AO.sample_constraints
     = Py.Return r /\
     AO.objective_value r = 0).
Proof.
  split; [|split].
  - destruct (proj1 derived_properties_from_solution OE.all_stock
                OE.small_streams OE.small_params)
      as (a & Ha & _ & Hpci & _).
    + discriminate.
    + reflexivity.
    + simpl. lia.
    + exists a. split; assumption.
  - destruct (proj2 derived_properties_from_solution AO.report_all_tires
                AO.waste_data AO.sample_constraints)
      as (r & Hr & Ho & _ & _ & _ & Hs).
    + repeat (apply Forall_cons; split); try apply Forall_nil;
        eexists; vm_compute; reflexivity.
    + exists r. split; [assumption|]. split; [|assumption].
      apply Ho. apply Exists_cons_hd. simpl. intros E. discriminate E.
  - destruct (proj2 derived_properties_from_solution AO.report_infeasible
                [] AO.sample_constraints)
      as (r & Hr & _ & Ho0 & _).
    + constructor.
    + exists r. split; [assumption | now apply Ho0].
Defined.

(** *** Failures *)

Lemma negative_capacity_infeasible xs :
  ~ OE.feasible (OE.build_lp OE.streams OE.negative_capacity) xs.
Proof.
  intros (Hlen & Hrows & Hb).
  apply OptimizationEngineFacts.rows_hold_build in Hrows as [Hcap _].
  simpl in Hlen, Hcap, Hb.
  destruct xs as [|x1 [|x2 [|x3 [|x4 [|]]]]]; try discriminate.
  repeat match goal with
         | H : Forall2 _ (_ :: _) (_ :: _) |- _ =>
             apply Forall2_cons_1 in H; destruct H as [[? _] H]
         end.
  simpl in *. lra.
Qed.

(** C5, as stated, fails.  In the free-allocation formulation a solver
    that finds the program infeasible (here: a negative capacity) and a
    solver that gives up for numerical reasons lead to the same status,
    ["Optimization Failed"]. *)
Lemma failure_kinds_share_status :
  (forall xs, ~ OE.feasible (OE.build_lp OE.streams OE.negative_capacity) xs) /\
  exists r1 r2,
    OE.calculate_optimal_mix OE.report_infeasible OE.streams
      OE.negative_capacity = Py.Return r1 /\
    OE.calculate_optimal_mix OE.report_numerical OE.streams OE.params
    = Py.Return r2 /\
    OE.status r1 = OE.status r2.
Proof.
  split; [exact negative_capacity_infeasible|].
  eexists. eexists. repeat split.
Qed.

Lemma LpStatus_inj c1 c2 : AO.LpStatus c1 = AO.LpStatus c2 -> c1 = c2.
Proof.
  destruct c1, c2; simpl; intros H; solve [reflexivity | discriminate H].
Qed.

(** C5, amended.  The protocol formulation reports the name of the
    solver's status, and the names of Optimal, Infeasible, Unbounded,
    Undefined and Not Solved are pairwise distinct.  The free-allocation
    formulation reports every failure of the solver under the one status
    ["Optimization Failed"], the solver's message going into [reason];
    a failure is never reported as ["Target Achieved"].  (The solver is
    reached when the list of streams is not empty.) *)
Theorem failure_status_reporting :
  (forall solve wd limits,
     AO.valued (solve (AO.build_lp wd limits)) wd ->
     exists r,
       AO.solve_optimal_mix solve wd limits = Py.Return r /\
       AO.status r
       = AO.LpStatus (AO.prob_status (solve (AO.build_lp wd limits)))) /\
  (forall c1 c2, AO.LpStatus c1 = AO.LpStatus c2 -> c1 = c2) /\
  (forall linprog ws params,
     ws <> [] ->
     OE.success (linprog (OE.build_lp ws params)) = false ->
     OE.calculate_optimal_mix linprog ws params
     = Py.Return (OE.OptimizationFailed
                    (OE.message (linprog (OE.build_lp ws params))))) /\
  (forall linprog ws params r,
     OE.calculate_optimal_mix linprog ws params = Py.Return r ->
     OE.status r = "Target Achieved"%string ->
     OE.success (linprog (OE.build_lp ws params)) = true).
Proof.
  split; [|split; [exact LpStatus_inj | split]].
  - intros solve wd limits Hv.
    destruct (AdvancedOptimizerFacts.interpret_valued wd limits _ Hv)
      as (r & Hr & Hst & _).
    exists r. split; assumption.
  - intros linprog ws params Hne Hs.
    rewrite OptimizationEngineFacts.calculate_optimal_mix_nonempty
      by assumption.
    unfold OE.interpret. now rewrite Hs.
  - intros linprog ws params r.
    destruct ws as [|w ws]; [discriminate|].
    rewrite OptimizationEngineFacts.calculate_optimal_mix_nonempty
      by discriminate.
    unfold OE.interpret.
    destruct (OE.success _); [reflexivity|].
    intros [= <-]. discriminate.
Qed.

Lemma failure_status_reporting_witness :
  (exists r,
     AO.solve_optimal_mix AO.report_infeasible AO.waste_data AO.hot_limits
     = Py.Return r /\
     AO.status r = "Infeasible"%string) /\
  (exists r,
     OE.calculate_optimal_mix OE.all_stock OE.small_streams OE.small_params
     = Py.Return r /\
     OE.status r = "Target Achieved"%string /\
     OE.success (OE.all_stock (OE.build_lp OE.small_streams OE.small_params))
     = true) /\
  OE.calculate_optimal_mix OE.report_infeasible OE.streams
    OE.negative_capacity
  = Py.Return (OE.OptimizationFailed "The problem is infeasible.").
Proof.
  split; [|split].
  2:{ eexists. split; [vm_compute; reflexivity|]. split; [reflexivity|].
      eapply (proj2 (proj2 (proj2 failure_status_reporting)));
        [vm_compute; reflexivity | reflexivity]. }
  - destruct (proj1 failure_status_reporting AO.report_infeasible
                AO.waste_data AO.hot_limits) as (r & Hr & Hst).
    + repeat (apply Forall_cons; split); try apply Forall_nil;
        eexists; vm_compute; reflexivity.
    + exists r. split; assumption.
  - apply (proj1 (proj2 (proj2 failure_status_reporting)));
      [discriminate | reflexivity].
Defined.

Lemma hot_limits_infeasible a :
  ~ AO.feasible (AO.build_lp AO.waste_data AO.hot_limits) a.
Proof.
  intros Hf.
  pose proof (AdvancedOptimizerFacts.feasible_fractions _ _ _ Hf) as Hsum.
  assert (Hpos : forall w, w ∈ AO.waste_data -> 0 <= a (AO.name w)).
  { intros w Hin.
    now destruct (AdvancedOptimizerFacts.feasible_bounds _ _ _ w Hf Hin). }
  pose proof (Hpos _ (list_elem_of_here _ _)) as HA.
  pose proof (Hpos _ (list_elem_of_further _ _ _ (list_elem_of_here _ _)))
    as HB.
  pose proof (Hpos _ (list_elem_of_further _ _ _
                        (list_elem_of_further _ _ _ (list_elem_of_here _ _))))
    as HC.
  destruct Hf as [Hc _].
  assert (Hk : Forall (fun nk => AO.holds a nk.2)
                 [("Min_PCI_Limit"%string,
                   AO.mkLpConstraint
                     (AO.with_offset AO.PETCOKE_pci AO.pci AO.waste_data)
                     AO.LpConstraintGE 9000)]).
  { apply Forall_cons in Hc as [_ Hc]. exact Hc. }
  apply Forall_cons in Hk as [Hk _].
  unfold AO.holds, AO.eval, AO.fractions in *. simpl in *.
  unfold AO.PETCOKE_pci in Hk. lra.
Qed.

Lemma empty_list_infeasible limits a :
  ~ AO.feasible (AO.build_lp [] limits) a.
Proof.
  intros Hf.
  pose proof (AdvancedOptimizerFacts.feasible_fractions _ _ _ Hf) as Hsum.
  unfold AO.fractions in Hsum. simpl in Hsum. lra.
Qed.

(** C6, as stated, fails.  With a calorific floor of 9000 the sample
    request has no feasible point; the result has status ["Infeasible"],
    yet its mix is not empty: the fixed base material is reported at 50. *)
Lemma infeasible_mix_reports_base :
  (forall a, ~ AO.feasible (AO.build_lp AO.waste_data AO.hot_limits) a) /\
  exists r,
    AO.solve_optimal_mix AO.report_infeasible AO.waste_data AO.hot_limits
    = Py.Return r /\
    AO.status r = "Infeasible"%string /\
    AO.mix r !! "Petcoke (Base)"%string = Some 50 /\
    AO.mix r <> ∅.
Proof.
  split; [exact hot_limits_infeasible|].
  eexists. split; [vm_compute; reflexivity|].
  split; [reflexivity|]. split; [reflexivity|].
  intros H. apply (f_equal (fun m => m !! "Petcoke (Base)"%string)) in H.
  vm_compute in H. discriminate H.
Qed.

Lemma base_always_reported vals names :
  is_Some (AO.mix_results vals names !! "Petcoke (Base)"%string).
Proof.
  rewrite AdvancedOptimizerFacts.mix_results_lookup.
  destruct (_ && _); [eexists; reflexivity|].
  rewrite lookup_singleton_eq. eexists; reflexivity.
Qed.

(** C6, amended.  When the solver reports the program infeasible, the
    protocol formulation returns a result of status ["Infeasible"] whose
    mix still holds the entry of the fixed base material; the
    free-allocation formulation returns ["Optimization Failed"] with the
    solver's message and no allocation mapping.  Both return a result.
    (The solver is reached when the list of streams is not empty.) *)
Theorem infeasible_reporting :
  (forall solve wd limits,
     AO.valued (solve (AO.build_lp wd limits)) wd ->
     AO.prob_status (solve (AO.build_lp wd limits)) = AO.LpStatusInfeasible ->
     exists r,
       AO.solve_optimal_mix solve wd limits = Py.Return r /\
       AO.status r = "Infeasible"%string /\
       is_Some (AO.mix r !! "Petcoke (Base)"%string)) /\
  (forall linprog ws params,
     ws <> [] ->
     OE.success (linprog (OE.build_lp ws params)) = false ->
     exists reason,
       OE.calculate_optimal_mix linprog ws params
       = Py.Return (OE.OptimizationFailed reason) /\
       reason = OE.message (linprog (OE.build_lp ws params)) /\
       OE.status (OE.OptimizationFailed reason)
       = "Optimization Failed"%string).
Proof.
  split.
  - intros solve wd limits Hv Hst.
    destruct (AdvancedOptimizerFacts.interpret_valued wd limits _ Hv)
      as (r & Hr & Hs & Hmix & _).
    exists r. split; [assumption|]. rewrite Hs, Hst, Hmix.
    split; [reflexivity | apply base_always_reported].
  - intros linprog ws params Hne Hs. eexists.
    rewrite OptimizationEngineFacts.calculate_optimal_mix_nonempty
      by assumption.
    unfold OE.interpret. rewrite Hs.
    repeat split.
Qed.

Lemma infeasible_reporting_witness :
  (exists r,
     AO.solve_optimal_mix AO.report_infeasible AO.waste_data AO.hot_limits
     = Py.Return r /\
     AO.status r = "Infeasible"%string /\
     is_Some (AO.mix r !! "Petcoke (Base)"%string)) /\
  (exists reason,
     OE.calculate_optimal_mix OE.report_infeasible OE.streams
       OE.negative_capacity = Py.Return (OE.OptimizationFailed reason) /\
     reason = "The problem is infeasible."%string).
Proof.
  split.
  - apply (proj1 infeasible_reporting AO.report_infeasible).
    + repeat (apply Forall_cons; split); try apply Forall_nil;
        eexists; vm_compute; reflexivity.
    + reflexivity.
  - destruct (proj2 infeasible_reporting OE.report_infeasible OE.streams
                OE.negative_capacity ltac:(discriminate) eq_refl)
      as (reason & Hr & Hm & _).
    exists reason. split; assumption.
Defined.

(** *** Validation *)

(** C7, as stated, fails.  Two streams built under the same name pass
    construction, and the request that holds both is solved like any
    other: a program of two variables, a successful result. *)
Lemma duplicate_names_not_rejected :
  exists w1 w2,
    new_WasteStream "Tires" 5700 0.02 0.01 1.5 0.4 50 0.014 = Py.Return w1 /\
    new_WasteStream "Tires" 5700 0.02 0.01 1.5 0.4 50 0.006 = Py.Return w2 /\
    name w1 = name w2 /\
    length (OE.c (OE.build_lp [w1; w2] OE.small_params)) = 2%nat /\
    exists a,
      OE.calculate_optimal_mix OE.all_stock [w1; w2] OE.small_params
      = Py.Return (OE.TargetAchieved a).
Proof.
  eexists. eexists.
  split; [reflexivity|]. split; [reflexivity|].
  split; [reflexivity|]. split; [reflexivity|].
  eexists. vm_compute. reflexivity.
Qed.

Lemma map_names {B : Type} (f : WasteStream -> B) ws ws' :
  Forall2 OE.agree_off_name ws ws' ->
  (forall w w', OE.agree_off_name w w' -> f w = f w') ->
  map f ws = map f ws'.
Proof.
  intros H Hf. induction H as [|w w' ws ws' Hw _ IH]; [reflexivity|].
  simpl. now rewrite (Hf _ _ Hw), IH.
Qed.

(** The names of the streams are not read by the model builder. *)
Lemma build_lp_names ws ws' params :
  Forall2 OE.agree_off_name ws ws' ->
  OE.build_lp ws params = OE.build_lp ws' params.
Proof.
  intros H. unfold OE.build_lp, OE.sulfur_coeffs, OE.chloride_coeffs,
    OE.pci_lower_coeffs, OE.pci_upper_coeffs.
  rewrite (Forall2_length _ _ _ H).
  rewrite !(map_names _ ws ws' H);
    [reflexivity
    | intros w w' (Hp & Hh & Hc & Hs & Hd & Hk & Ha); congruence ..].
Qed.

(** Whether the loop over the solution vector comes to its end depends on
    the number of streams alone. *)
Lemma enumerate_loop_returns_alike ws ws' :
  length ws = length ws' ->
  forall xs i t t',
    (exists r, OE.enumerate_loop ws i xs t = Py.Return r) <->
    (exists r', OE.enumerate_loop ws' i xs t' = Py.Return r').
Proof.
  intros Hlen. induction xs as [|val xs IH]; intros i t t'; simpl.
  - split; intros _; eexists; reflexivity.
  - destruct (Py.Qltb 0.001 val); [|apply IH].
    destruct (ws !! i) as [w|] eqn:E, (ws' !! i) as [w'|] eqn:E'.
    + apply IH.
    + apply lookup_ge_None in E'. apply lookup_lt_Some in E. lia.
    + apply lookup_ge_None in E. apply lookup_lt_Some in E'. lia.
    + split; intros [r Hr]; discriminate Hr.
Qed.

Lemma interpret_returns_alike ws ws' res :
  length ws = length ws' ->
  (exists r, OE.interpret ws res = Py.Return r) <->
  (exists r', OE.interpret ws' res = Py.Return r').
Proof.
  intros Hlen. unfold OE.interpret.
  destruct (OE.success res); [|split; intros _; eexists; reflexivity].
  pose proof (enumerate_loop_returns_alike ws ws' Hlen (OE.x res) 0
                OE.totals0 OE.totals0) as Hloop.
  destruct (OE.enumerate_loop ws 0 (OE.x res) OE.totals0) as [t|e],
           (OE.enumerate_loop ws' 0 (OE.x res) OE.totals0) as [t'|e'];
    simpl.
  - split; intros _; eexists; reflexivity.
  - split; [intros _ | intros [r Hr]; discriminate Hr].
    destruct (proj1 Hloop ltac:(eexists; reflexivity)) as [r Hr].
    discriminate Hr.
  - split; [intros [r Hr]; discriminate Hr | intros _].
    destruct (proj2 Hloop ltac:(eexists; reflexivity)) as [r Hr].
    discriminate Hr.
  - split; intros [r Hr]; discriminate Hr.
Qed.

(** C7, amended.  Constructing a [WasteStream] with a negative calorific
    value, or else with a negative available mass, raises [ValueError];
    otherwise the object holds the fields exactly as given.  The check is
    made by the constructor, before the stream can reach the model
    builder.  Names are not checked: the program that is built and whether
    [calculate_optimal_mix] returns a result are the same for two lists of
    streams that differ in their names only, whether the names are
    distinct or not. *)
Theorem waste_stream_validation :
  (forall n p h cl s d k m,
     p < 0 ->
     new_WasteStream n p h cl s d k m
     = Py.Raise (Py.ValueError "PCI value cannot be negative")) /\
  (forall n p h cl s d k m,
     0 <= p -> m < 0 ->
     new_WasteStream n p h cl s d k m
     = Py.Raise (Py.ValueError "Available mass cannot be negative")) /\
  (forall n p h cl s d k m,
     0 <= p -> 0 <= m ->
     new_WasteStream n p h cl s d k m
     = Py.Return (mkWasteStream n p h cl s d k m)) /\
  (forall linprog ws ws' params,
     Forall2 OE.agree_off_name ws ws' ->
     OE.build_lp ws params = OE.build_lp ws' params /\
     ((exists r, OE.calculate_optimal_mix linprog ws params = Py.Return r)
      <->
      (exists r', OE.calculate_optimal_mix linprog ws' params
                  = Py.Return r'))).
Proof.
  unfold new_WasteStream, post_init. simpl.
  split; [|split; [|split]].
  - intros n p h cl s d k m Hp.
    apply PyFacts.Qltb_lt in Hp. now rewrite Hp.
  - intros n p h cl s d k m Hp Hm.
    apply PyFacts.Qltb_ge in Hp. apply PyFacts.Qltb_lt in Hm.
    now rewrite Hp, Hm.
  - intros n p h cl s d k m Hp Hm.
    apply PyFacts.Qltb_ge in Hp, Hm. now rewrite Hp, Hm.
  - intros linprog ws ws' params H.
    pose proof (build_lp_names ws ws' params H) as Hlp.
    split; [exact Hlp|].
    pose proof (Forall2_length _ _ _ H) as Hlen.
    destruct H as [|w w' ws ws' Hw H].
    + split; intros [r Hr]; discriminate Hr.
    + rewrite !OptimizationEngineFacts.calculate_optimal_mix_nonempty
        by discriminate.
      rewrite Hlp. now apply interpret_returns_alike.
Qed.

Lemma waste_stream_validation_witness :
  new_WasteStream "Tires" (-7500) 0.02 0.01 1.5 0.4 50 5
  = Py.Raise (Py.ValueError "PCI value cannot be negative") /\
  new_WasteStream "Tires" 7500 0.02 0.01 1.5 0.4 50 (-5)
  = Py.Raise (Py.ValueError "Available mass cannot be negative") /\
  new_WasteStream "Tires" 7500 0.02 0.01 1.5 0.4 50 5
  = Py.Return (mkWasteStream "Tires" 7500 0.02 0.01 1.5 0.4 50 5) /\
  OE.build_lp OE.small_streams OE.small_params
  = OE.build_lp OE.small_streams_one_name OE.small_params.
Proof.
  split; [|split; [|split]].
  - apply (proj1 waste_stream_validation). reflexivity.
  - apply (proj1 (proj2 waste_stream_validation)).
    + apply Qle_bool_iff. reflexivity.
    + reflexivity.
  - apply (proj1 (proj2 (proj2 waste_stream_validation)));
      apply Qle_bool_iff; reflexivity.
  - apply (proj2 (proj2 (proj2 waste_stream_validation)) OE.all_stock).
    repeat constructor.
Defined.

(** *** The empty request *)

(** C9, as stated, fails.  The protocol formulation has no status of its
    own for an empty list of wastes: the program it builds has no feasible
    point, and the result carries the status ["Infeasible"], the same as
    for wastes that cannot meet the limits.  The free-allocation
    formulation does not return on an empty list of streams: the call
    raises [ValueError]. *)
Lemma empty_list_not_distinguished :
  (forall a, ~ AO.feasible (AO.build_lp [] ∅) a) /\
  (forall a, ~ AO.feasible (AO.build_lp AO.waste_data AO.hot_limits) a) /\
  (exists r0 r1,
     AO.solve_optimal_mix AO.report_infeasible [] ∅ = Py.Return r0 /\
     AO.solve_optimal_mix AO.report_infeasible AO.waste_data AO.hot_limits
     = Py.Return r1 /\
     AO.status r0 = AO.status r1) /\
  exists msg,
    OE.calculate_optimal_mix OE.report_infeasible [] OE.params
    = Py.Raise (Py.ValueError msg).
Proof.
  split; [exact (empty_list_infeasible ∅)|].
  split; [exact hot_limits_infeasible|]. split.
  - eexists. eexists.
    split; [vm_compute; reflexivity|].
    split; [vm_compute; reflexivity|]. reflexivity.
  - eexists. reflexivity.
Qed.

(** C9, amended.  For an empty list of materials neither formulation has
    a status of its own.  Protocol: the program has no feasible point
    (the mass balance reads [0 == 0.50]); the call returns a result that
    carries the name of the solver's status, a mix made of the fixed base
    material alone, an objective value of 0 and the properties of the
    fixed half.  Free allocation: the program has no variable, the solver
    refuses it, and the call raises [ValueError] whatever the
    parameters. *)
Theorem empty_material_list :
  (forall limits a, ~ AO.feasible (AO.build_lp [] limits) a) /\
  (forall solve limits,
     AO.solve_optimal_mix solve [] limits
     = Py.Return
         {| AO.status :=
              AO.LpStatus (AO.prob_status (solve (AO.build_lp [] limits)));
            AO.mix := {[ "Petcoke (Base)"%string := 50 ]};
            AO.objective_value := 0;
            AO.details := {| AO.final_chlorine := Py.round 0.00025 5;
                             AO.final_humidity := Py.round 0.005 5;
                             AO.final_sulfur := Py.round 0.02 5;
                             AO.protocol := "50/50 Nexus" |} |}) /\
  (forall linprog params,
     exists msg,
       OE.calculate_optimal_mix linprog [] params
       = Py.Raise (Py.ValueError msg) /\
       forall r, OE.calculate_optimal_mix linprog [] params <> Py.Return r).
Proof.
  split; [exact empty_list_infeasible|]. split.
  - intros solve limits. reflexivity.
  - intros linprog params. exists OE.no_variables.
    rewrite OptimizationEngineFacts.calculate_optimal_mix_empty.
    split; [reflexivity | discriminate].
Qed.

End BlendFacts.

(** ** Further behaviour of the two formulations *)

Module RoundingFacts.
Import Py.

Lemma nearest_even_le s k : s <= inject_Z k -> (nearest_even s <= k)%Z.
Proof.
  intros Hs. unfold nearest_even.
  pose proof (Qfloor_le s) as Hlo.
  assert (Hf : (Qfloor s <= k)%Z) by (rewrite Zle_Qle; lra).
  destruct (Qcompare_spec (s - inject_Z (Qfloor s)) (1 # 2)) as [E|E|E].
  - destruct (Z.even (Qfloor s)); [assumption|].
    assert ((Qfloor s < k)%Z) by (rewrite Zlt_Qlt; lra). lia.
  - assumption.
  - assert ((Qfloor s < k)%Z) by (rewrite Zlt_Qlt; lra). lia.
Qed.

Lemma nearest_even_ge s k : inject_Z k <= s -> (k <= nearest_even s)%Z.
Proof.
  intros Hs. unfold nearest_even.
  assert (Hf : (k <= Qfloor s)%Z).
  { rewrite <- (Qfloor_Z k). now apply Qfloor_resp_le. }
  destruct (Qcompare (s - inject_Z (Qfloor s)) (1 # 2));
    [destruct (Z.even (Qfloor s))|..]; lia.
Qed.

(** Rounding never crosses a number that has at most [n] decimals. *)
Lemma round_le_grid q n k :
  q <= inject_Z k / inject_Z (pow10 n) ->
  round q n <= inject_Z k / inject_Z (pow10 n).
Proof.
  intros Hq. pose proof (PyFacts.pow10_pos n) as HP.
  unfold round. rewrite Qred_correct.
  apply Qle_shift_div_l; [assumption|].
  assert (E : inject_Z (nearest_even (q * inject_Z (pow10 n)))
              / inject_Z (pow10 n) * inject_Z (pow10 n)
              == inject_Z (nearest_even (q * inject_Z (pow10 n))))
    by (field; lra).
  rewrite E. rewrite <- Zle_Qle. apply nearest_even_le.
  apply (Qmult_le_r _ _ _ HP) in Hq.
  assert (E' : inject_Z k / inject_Z (pow10 n) * inject_Z (pow10 n)
               == inject_Z k) by (field; lra).
  lra.
Qed.

Lemma round_ge_grid q n k :
  inject_Z k / inject_Z (pow10 n) <= q ->
  inject_Z k / inject_Z (pow10 n) <= round q n.
Proof.
  intros Hq. pose proof (PyFacts.pow10_pos n) as HP.
  unfold round. rewrite Qred_correct.
  apply Qle_shift_div_l; [assumption|].
  assert (E : inject_Z k / inject_Z (pow10 n) * inject_Z (pow10 n)
              == inject_Z k) by (field; lra).
  rewrite E. rewrite <- Zle_Qle. apply nearest_even_ge.
  apply (Qmult_le_r _ _ _ HP) in Hq. lra.
Qed.

Lemma nearest_even_mono s s' :
  s <= s' -> (nearest_even s <= nearest_even s')%Z.
Proof.
  intros Hs.
  destruct (Qlt_le_dec (inject_Z (Qfloor s')) s) as [Hin|Hout].
  - assert (Ef : Qfloor s = Qfloor s').
    { pose proof (Qfloor_le s) as H1. pose proof (Qlt_floor s) as H2.
      pose proof (Qlt_floor s') as H3.
      rewrite inject_Z_plus in H2, H3.
      change (inject_Z 1) with 1 in H2, H3.
      assert ((Qfloor s' <= Qfloor s)%Z).
      { rewrite <- (Qfloor_Z (Qfloor s')). apply Qfloor_resp_le. lra. }
      assert ((Qfloor s < Qfloor s' + 1)%Z).
      { rewrite Zlt_Qlt, inject_Z_plus. change (inject_Z 1) with 1. lra. }
      lia. }
    unfold nearest_even. rewrite Ef.
    destruct (Qcompare_spec (s - inject_Z (Qfloor s')) (1 # 2)) as [E|E|E];
      destruct (Qcompare_spec (s' - inject_Z (Qfloor s')) (1 # 2))
        as [E'|E'|E'];
      try destruct (Z.even (Qfloor s')); try lia; lra.
  - transitivity (Qfloor s').
    + now apply nearest_even_le.
    + apply nearest_even_ge. apply Qfloor_le.
Qed.

(** Rounding keeps the order. *)
Lemma round_mono q q' n : q <= q' -> round q n <= round q' n.
Proof.
  intros Hq. pose proof (PyFacts.pow10_pos n) as HP.
  unfold round. rewrite !Qred_correct.
  apply Qle_shift_div_l; [assumption|].
  assert (E : inject_Z (nearest_even (q * inject_Z (pow10 n)))
              / inject_Z (pow10 n) * inject_Z (pow10 n)
              == inject_Z (nearest_even (q * inject_Z (pow10 n))))
    by (field; lra).
  rewrite E. rewrite <- Zle_Qle. apply nearest_even_mono.
  apply Qmult_le_compat_r; [assumption | lra].
Qed.

End RoundingFacts.

Module FormulationFacts.
Module OE := OptimizationEngine.
Module AO := AdvancedOptimizer.
Import WasteManagement.

(** *** Free allocation: the empty allocation *)

Lemma dot_zero row n : OE.dot row (replicate n 0) == 0.
Proof.
  revert n. induction row as [|a row IH]; intros [|n]; simpl; try reflexivity.
  rewrite IH. ring.
Qed.

(** X1. For validated streams (no negative stock) and a non-negative
    capacity, feeding nothing satisfies every constraint of the
    free-allocation program: the program is never infeasible. *)
Theorem nothing_fed_is_feasible ws params :
  Forall (fun w => 0 <= available_mass w) ws ->
  0 <= feed_rate_capacity params ->
  OE.feasible (OE.build_lp ws params) (replicate (length ws) 0).
Proof.
  intros Hws Hcap. split; [|split].
  - simpl. now rewrite length_replicate, length_map.
  - unfold OE.rows_hold. simpl.
    repeat (apply Forall2_cons; split); try apply Forall2_nil;
      cbv beta; first [exact I | rewrite dot_zero; lra].
  - simpl. induction Hws as [|w ws Hw _ IH]; simpl; [constructor|].
    constructor; [split; simpl; lra | exact IH].
Qed.

Lemma nothing_fed_is_feasible_witness :
  OE.feasible (OE.build_lp OE.streams OE.params) [0; 0; 0; 0].
Proof.
  apply (nothing_fed_is_feasible OE.streams OE.params).
  - repeat constructor; simpl; apply Qle_bool_iff; reflexivity.
  - apply Qle_bool_iff. reflexivity.
Defined.

(** *** Free allocation: a band that no stream can reach *)

Lemma linear_form_cons P L w ws v xs :
  OE.linear_form P L (w :: ws) (v :: xs)
  = v * (P w - L) + OE.linear_form P L ws xs.
Proof. reflexivity. Qed.

Lemma linear_form_nonpos P L ws : forall xs,
  Forall2 (fun w v => 0 <= v /\ P w - L < 0) ws xs ->
  OE.linear_form P L ws xs <= 0.
Proof.
  induction ws as [|w ws IH]; intros xs H; inversion H; subst.
  - unfold OE.linear_form. simpl. lra.
  - rewrite linear_form_cons.
    match goal with Hw : _ /\ _ |- _ => destruct Hw as [Hv Hc] end.
    specialize (IH _ ltac:(eassumption)). nra.
Qed.

Lemma all_negative_forces_zero P L ws : forall xs,
  Forall2 (fun w v => 0 <= v /\ P w - L < 0) ws xs ->
  0 <= OE.linear_form P L ws xs ->
  Forall (fun v => v == 0) xs.
Proof.
  induction ws as [|w ws IH]; intros xs H Hsum; inversion H; subst.
  - constructor.
  - rewrite linear_form_cons in Hsum.
    match goal with Hw : _ /\ _ |- _ => destruct Hw as [Hv Hc] end.
    pose proof (linear_form_nonpos P L ws _ ltac:(eassumption)) as Hrest.
    assert (Hterm : y * (P w - L) <= 0) by nra.
    constructor.
    + nra.
    + apply IH; [assumption | lra].
Qed.

Lemma enumerate_loop_nothing_kept ws : forall xs i t,
  Forall (fun v => v == 0) xs ->
  OE.enumerate_loop ws i xs t = Py.Return t.
Proof.
  induction xs as [|v xs IH]; intros i t H; simpl; [reflexivity|].
  apply Forall_cons in H as [Hv Hxs].
  rewrite (PyFacts.Qltb_compat 0.001 0.001 v 0 (Qeq_refl _) Hv).
  simpl. now apply IH.
Qed.

(** X2. When every stream of a request that is not empty lies below the
    calorific-value band (its calorific value is under
    [0.95 * target_pci]), the only feasible allocation feeds nothing; a
    solver that succeeds with a feasible vector then yields
    ["Target Achieved"] with an empty mix and zero totals, not a
    failure. *)
Theorem unreachable_band_feeds_nothing linprog ws params :
  ws <> [] ->
  Forall (fun w => pci_value w < 0.95 * target_pci params) ws ->
  OE.success (linprog (OE.build_lp ws params)) = true ->
  OE.feasible (OE.build_lp ws params)
    (OE.x (linprog (OE.build_lp ws params))) ->
  Forall (fun v => v == 0) (OE.x (linprog (OE.build_lp ws params))) /\
  OE.calculate_optimal_mix linprog ws params
  = Py.Return (OE.TargetAchieved
       {| OE.mix_ton_per_hour := ∅;
          OE.total_feed_rate := 0;
          OE.avg_pci := 0;
          OE.avg_sulfur_percent := 0;
          OE.avg_chloride_percent := 0;
          OE.total_cost_per_hour := 0;
          OE.tsr_projection :=
            "Calculated based on fossil fuel baseline (not provided)" |}).
Proof.
  intros Hne Hlow Hs (Hlen & Hrows & Hb).
  assert (Hz : Forall (fun v => v == 0)
                 (OE.x (linprog (OE.build_lp ws params)))).
  { apply OptimizationEngineFacts.rows_hold_build in Hrows
      as (_ & _ & _ & Hlower & _).
    apply (all_negative_forces_zero pci_value (0.95 * target_pci params) ws);
      [|assumption].
    simpl in Hb. clear - Hb Hlow.
    revert Hb. generalize (OE.x (linprog (OE.build_lp ws params))).
    induction Hlow as [|w ws Hw _ IH]; intros xs Hb; inversion Hb; subst;
      constructor.
    - match goal with H : OE.within _ _ |- _ => destruct H as [H0 _] end.
      simpl in H0. split; lra.
    - now apply IH. }
  split; [assumption|].
  rewrite OptimizationEngineFacts.calculate_optimal_mix_nonempty
    by assumption.
  unfold OE.interpret. rewrite Hs.
  now rewrite (enumerate_loop_nothing_kept ws _ 0 OE.totals0 Hz).
Qed.

Lemma unreachable_band_feeds_nothing_witness :
  exists a,
    OE.calculate_optimal_mix Scenarios.report_nothing OE.streams
      Scenarios.hot_kiln = Py.Return (OE.TargetAchieved a) /\
    OE.mix_ton_per_hour a = ∅.
Proof.
  destruct (unreachable_band_feeds_nothing Scenarios.report_nothing
              OE.streams Scenarios.hot_kiln) as [_ ->].
  - discriminate.
  - repeat constructor.
  - reflexivity.
  - split; [reflexivity|]. split.
    + repeat constructor; apply Qle_bool_iff; reflexivity.
    + repeat constructor; simpl; apply Qle_bool_iff; reflexivity.
  - eexists. split; reflexivity.
Defined.

(** *** Free allocation: the reported feed rate and the capacity *)

Lemma kept_mass_le_mass ws : forall xs,
  Forall (fun v => 0 <= v) xs -> OE.kept_mass ws xs <= OE.mass xs.
Proof.
  unfold OE.kept_mass, OE.mass.
  induction ws as [|w ws IH]; intros xs Hx.
  - unfold OE.kept_sum. simpl.
    induction Hx as [|v xs Hv _ IHx]; simpl in *; lra.
  - destruct Hx as [|v xs Hv Hx].
    + unfold OE.kept_sum. simpl. lra.
    + rewrite OptimizationEngineFacts.kept_sum_cons. simpl.
      specialize (IH _ Hx). destruct (OE.kept v); lra.
Qed.

Lemma within_bounds_nonneg ws params xs :
  Forall2 OE.within (OE.bounds (OE.build_lp ws params)) xs ->
  Forall (fun v => 0 <= v) xs.
Proof.
  simpl. revert xs. induction ws as [|w ws IH]; intros xs H;
    inversion H; subst; constructor.
  - match goal with Hw : OE.within _ _ |- _ => destruct Hw as [H0 _] end.
    exact H0.
  - now apply IH.
Qed.

(** X3. When the solver succeeds with a feasible vector on a request that
    is not empty, the reported total feed rate exceeds the kiln's capacity
    by at most the rounding of the report, 0.005. *)
Theorem feed_rate_within_capacity linprog ws params :
  ws <> [] ->
  OE.success (linprog (OE.build_lp ws params)) = true ->
  OE.feasible (OE.build_lp ws params)
    (OE.x (linprog (OE.build_lp ws params))) ->
  exists a,
    OE.calculate_optimal_mix linprog ws params
    = Py.Return (OE.TargetAchieved a) /\
    OE.total_feed_rate a <= feed_rate_capacity params + 0.005.
Proof.
  intros Hne Hs (Hlen & Hrows & Hb).
  rewrite OptimizationEngineFacts.calculate_optimal_mix_nonempty
    by assumption.
  set (res := linprog (OE.build_lp ws params)) in *.
  assert (Hlen' : length (OE.x res) = length ws)
    by (simpl in Hlen; now rewrite length_map in Hlen).
  destruct (OptimizationEngineFacts.derived_from_solution ws res Hs
              ltac:(lia)) as (a & Ha & [_ Hround] & _).
  exists a. split; [exact Ha|].
  apply Qabs_Qle_condition in Hround as [_ Hup].
  pose proof (kept_mass_le_mass ws _ (within_bounds_nonneg _ _ _ Hb)) as Hk.
  apply OptimizationEngineFacts.rows_hold_build in Hrows as [Hcap _].
  rewrite <- Hlen', OptimizationEngineFacts.dot_replicate_one in Hcap.
  assert (Hu : Py.half_unit 2 == 0.005) by reflexivity.
  lra.
Qed.

Lemma feed_rate_within_capacity_witness :
  exists a,
    OE.calculate_optimal_mix OE.all_stock OE.small_streams OE.small_params
    = Py.Return (OE.TargetAchieved a) /\
    OE.total_feed_rate a <= 15 + 0.005.
Proof.
  apply (feed_rate_within_capacity OE.all_stock OE.small_streams
           OE.small_params).
  - discriminate.
  - reflexivity.
  - exact (proj1 OptimizationEngineFacts.small_request_optimal).
Defined.

(** *** Protocol: variables without a value *)

Lemma products_unvalued vals prop wd :
  ~ Forall (fun w => is_Some (vals !! AO.name w)) wd ->
  AO.products vals prop wd = Py.Raise Py.TypeError.
Proof.
  induction wd as [|w rest IH]; intros H; simpl.
  - exfalso. apply H. constructor.
  - destruct (vals !! AO.name w) as [v|] eqn:Ev; [|reflexivity].
    rewrite IH; [reflexivity|].
    intros Hrest. apply H. constructor; [now exists v | assumption].
Qed.

(** X4. [solve_optimal_mix] returns a result exactly when the solver left a
    value in the variable of every waste of the request; when some variable
    has no value the call raises [TypeError] (a [None] multiplied by a
    number), whatever the status. *)
Theorem returns_iff_every_variable_valued solve wd limits :
  (AO.valued (solve (AO.build_lp wd limits)) wd <->
   exists r, AO.solve_optimal_mix solve wd limits = Py.Return r) /\
  (~ AO.valued (solve (AO.build_lp wd limits)) wd ->
   AO.solve_optimal_mix solve wd limits = Py.Raise Py.TypeError).
Proof.
  assert (Hraise : ~ AO.valued (solve (AO.build_lp wd limits)) wd ->
            AO.solve_optimal_mix solve wd limits = Py.Raise Py.TypeError).
  { intros Hn. unfold AO.solve_optimal_mix, AO.interpret, AO.total.
    now rewrite (products_unvalued _ AO.chlorine wd Hn). }
  split; [|exact Hraise]. split.
  - intros Hv.
    destruct (AdvancedOptimizerFacts.interpret_valued wd limits _ Hv)
      as (r & Hr & _).
    now exists r.
  - intros [r Hr].
    destruct (decide (Forall (fun w => is_Some
                (AO.varValue (solve (AO.build_lp wd limits)) !! AO.name w))
                wd)) as [Hv|Hn]; [exact Hv|].
    rewrite (Hraise Hn) in Hr. discriminate Hr.
Qed.

Lemma returns_iff_every_variable_valued_witness :
  AO.solve_optimal_mix Scenarios.report_unsolved AO.waste_data
    AO.sample_constraints = Py.Raise Py.TypeError.
Proof.
  apply (returns_iff_every_variable_valued Scenarios.report_unsolved).
  intros Hv. apply Forall_cons in Hv as [[v Hv] _]. discriminate Hv.
Defined.

(** *** Protocol: an empty warehouse *)

Lemma fractions_nonpos a wd :
  (forall w, w ∈ wd -> a (AO.name w) <= 0) -> AO.fractions a wd <= 0.
Proof.
  unfold AO.fractions. induction wd as [|w rest IH]; intros H; simpl; [lra|].
  pose proof (H w (list_elem_of_here _ _)).
  specialize (IH (fun w' Hw' => H w' (list_elem_of_further _ _ _ Hw'))).
  lra.
Qed.

(** X5. When no waste of the request has stock (missing, zero or negative
    for each of them), the protocol program has no feasible point: half of
    the mix cannot be filled. *)
Theorem no_stock_no_protocol wd limits a :
  Forall (fun w => AO.out_of_stock w = true) wd ->
  ~ AO.feasible (AO.build_lp wd limits) a.
Proof.
  intros Hout Hf.
  pose proof (AdvancedOptimizerFacts.feasible_fractions _ _ _ Hf) as Hsum.
  assert (Hle : AO.fractions a wd <= 0).
  { apply fractions_nonpos. intros w Hin.
    destruct (AdvancedOptimizerFacts.feasible_bounds _ _ _ w Hf Hin)
      as [_ Hup].
    rewrite Forall_forall in Hout.
    now rewrite (AdvancedOptimizerFacts.exhausted_intro w wd Hin
                   (Hout w Hin)) in Hup. }
  lra.
Qed.

Lemma no_stock_no_protocol_witness :
  ~ AO.feasible
      (AO.build_lp [AO.mkWaste "Waste C (Sludge)" 1000 0.05 0.2 0.60 (Some 0);
                    AO.mkWaste "Waste B (Wood)" 4000 0.02 0.1 0.20 None]
         AO.sample_constraints)
      AO.all_tires.
Proof.
  apply no_stock_no_protocol. repeat constructor.
Defined.

(** *** Protocol: the range of the reported percentages *)

Lemma interpret_mix wd prob sol r :
  AO.interpret wd prob sol = Py.Return r ->
  AO.mix r = AO.mix_results (AO.varValue sol) (map AO.name wd).
Proof.
  unfold AO.interpret.
  destruct (AO.total AO.PETCOKE_chlorine _ _ _); [|discriminate].
  destruct (AO.total AO.PETCOKE_humidity _ _ _); [|discriminate].
  destruct (AO.total AO.PETCOKE_sulfur _ _ _); [|discriminate].
  simpl. now intros [= <-].
Qed.

Lemma percentage_at_most_50 sol n :
  AO.assignment sol n <= 0.5 -> AO.percentage (AO.varValue sol !! n) <= 50.
Proof.
  unfold AO.assignment, AO.percentage.
  destruct (AO.varValue sol !! n) as [v|]; simpl; [|lra].
  intros Hv. destruct (Py.truthy v); [|lra].
  assert (H := RoundingFacts.round_le_grid (v * 100) 2 5000).
  change (inject_Z 5000 / inject_Z (Py.pow10 2)) with (5000 / 100) in H.
  assert (E : 5000 / 100 == 50) by reflexivity.
  rewrite E in H. apply H. lra.
Qed.

(** X6. When the solver's values respect the bounds of the variables, every
    entry of the reported mix is a percentage above 0 and at most 50: no
    waste is reported beyond the half left to the wastes. *)
Theorem reported_percentages_range solve wd limits r n pct :
  AO.in_bounds (AO.variables (AO.build_lp wd limits))
    (AO.assignment (solve (AO.build_lp wd limits))) ->
  AO.solve_optimal_mix solve wd limits = Py.Return r ->
  AO.mix r !! n = Some pct ->
  0 < pct /\ pct <= 50.
Proof.
  intros Hb Hr Hn. unfold AO.solve_optimal_mix in Hr.
  rewrite (interpret_mix _ _ _ _ Hr) in Hn.
  rewrite AdvancedOptimizerFacts.mix_results_lookup in Hn.
  destruct (bool_decide_reflect (n ∈ map AO.name wd)) as [Hin|Hin];
    simpl in Hn.
  - destruct (Py.Qltb 0 (AO.percentage _)) eqn:Hpos.
    + injection Hn as <-. apply PyFacts.Qltb_lt in Hpos.
      split; [assumption|]. apply percentage_at_most_50.
      apply list_elem_of_fmap in Hin as (w & -> & Hw).
      destruct (Hb _ _ (AdvancedOptimizerFacts.variables_lookup
                          wd limits w Hw)) as [_ Hup].
      simpl in Hup. destruct (AO.exhausted _ _); lra.
    + apply lookup_singleton_Some in Hn as [_ <-].
      split; [reflexivity | apply Qle_refl].
  - apply lookup_singleton_Some in Hn as [_ <-].
    split; [reflexivity | apply Qle_refl].
Qed.

Lemma reported_percentages_range_witness :
  exists r pct,
    AO.solve_optimal_mix AO.report_all_tires AO.waste_data_no_sludge
      AO.sample_constraints = Py.Return r /\
    AO.mix r !! "Waste A (Tires)"%string = Some pct /\
    0 < pct /\ pct <= 50.
Proof.
  eexists. eexists.
  split; [vm_compute; reflexivity|].
  split; [vm_compute; reflexivity|].
  eapply (reported_percentages_range AO.report_all_tires
            AO.waste_data_no_sludge AO.sample_constraints _
            "Waste A (Tires)"%string).
  - exact (proj2 BlendFacts.report_all_tires_feasible).
  - vm_compute. reflexivity.
  - vm_compute. reflexivity.
Defined.

End FormulationFacts.

(** ** The inventory *)

Module InventoryFacts.
Import InventoryManager.

Lemma max0_cases y :
  (max 0 y = y /\ 0 < y) \/ (max 0 y = 0 /\ y <= 0).
Proof.
  unfold max. destruct (Py.Qltb 0 y) eqn:E.
  - left. split; [reflexivity | now apply PyFacts.Qltb_lt].
  - right. split; [reflexivity | now apply PyFacts.Qltb_ge].
Qed.

Lemma max0_nonneg y : 0 <= max 0 y.
Proof. destruct (max0_cases y) as [[-> H]|[-> H]]; lra. Qed.

Lemma adjust_held st item n : held st n -> held (adjust st item) n.
Proof.
  intros (v & Hv & Hpos). unfold held, adjust.
  destruct (decide (item.1 = n)) as [<-|Hne].
  - rewrite lookup_insert_eq. eexists. split; [reflexivity|].
    apply max0_nonneg.
  - rewrite lookup_insert_ne by assumption. now exists v.
Qed.

Lemma foldl_adjust_held adjustments : forall st n,
  held st n -> held (foldl adjust st adjustments) n.
Proof.
  induction adjustments as [|item rest IH]; intros st n H; simpl;
    [assumption|].
  apply IH. now apply adjust_held.
Qed.

Lemma foldl_adjust_named adjustments : forall st n,
  n ∈ adjustments.*1 -> held (foldl adjust st adjustments) n.
Proof.
  induction adjustments as [|item rest IH]; intros st n Hin; simpl in *.
  - now apply elem_of_nil in Hin.
  - apply elem_of_cons in Hin as [->|Hin]; [|now apply IH].
    apply foldl_adjust_held. unfold held, adjust.
    rewrite lookup_insert_eq. eexists. split; [reflexivity|].
    apply max0_nonneg.
Qed.

Lemma foldl_adjust_nonneg adjustments : forall st,
  map_Forall (fun _ v => 0 <= v) st ->
  map_Forall (fun _ v => 0 <= v) (foldl adjust st adjustments).
Proof.
  induction adjustments as [|item rest IH]; intros st H; simpl;
    [assumption|].
  apply IH. unfold adjust. apply map_Forall_insert_2; [|assumption].
  apply max0_nonneg.
Qed.

(** X7. After [update_stock], every material named in the adjustments is in
    the table with a stock that is not negative, however large the
    withdrawal; and a table without negative stock stays so. *)
Theorem update_stock_never_negative adjustments self :
  (forall n, n ∈ adjustments.*1 ->
     exists v, stock (update_stock adjustments self) !! n = Some v /\ 0 <= v) /\
  (map_Forall (fun _ v => 0 <= v) (stock self) ->
   map_Forall (fun _ v => 0 <= v) (stock (update_stock adjustments self))).
Proof.
  split.
  - intros n Hin. now apply foldl_adjust_named.
  - intros H. now apply foldl_adjust_nonneg.
Qed.

Lemma update_stock_never_negative_witness :
  (exists v,
     stock (update_stock [("Tires"%string, -900); ("Coal"%string, -3)]
              (_load_db Missing)) !! "Coal"%string = Some v /\ 0 <= v) /\
  map_Forall (fun _ v => 0 <= v)
    (stock (update_stock [("Tires"%string, -900); ("Coal"%string, -3)]
              (_load_db Missing))).
Proof.
  split.
  - apply (update_stock_never_negative
             [("Tires"%string, -900); ("Coal"%string, -3)] (_load_db Missing)).
    right. left.
  - apply (update_stock_never_negative
             [("Tires"%string, -900); ("Coal"%string, -3)] (_load_db Missing)).
    simpl. unfold INITIAL_STATE.
    repeat (apply map_Forall_insert_2; [apply Qle_bool_iff; reflexivity|]).
    apply map_Forall_empty.
Defined.

(** X8. [update_stock] leaves the stock of every material that the
    adjustments do not name as it was, absent ones staying absent. *)
Theorem update_stock_frame adjustments self n :
  n ∉ adjustments.*1 ->
  stock (update_stock adjustments self) !! n = stock self !! n.
Proof.
  simpl. generalize (stock self).
  induction adjustments as [|item rest IH]; intros st Hn; simpl;
    [reflexivity|].
  simpl in Hn. apply not_elem_of_cons in Hn as [Hne Hn].
  rewrite IH by assumption. unfold adjust.
  now rewrite lookup_insert_ne by congruence.
Qed.

Lemma update_stock_frame_witness :
  stock (update_stock [("Tires"%string, -900)] (_load_db Missing))
    !! "Wood"%string
  = stock (_load_db Missing) !! "Wood"%string.
Proof.
  apply update_stock_frame. intros H.
  apply list_elem_of_singleton in H. discriminate H.
Defined.


(** X10. A withdrawal larger than the stock is not undone by the opposite
    delivery: from a stock [c >= 0], an adjustment by [d] with [c + d < 0]
    leaves 0, and the adjustment by [-d] that follows leaves [-d], which is
    more than [c]. *)
Theorem withdrawal_beyond_stock_not_undone self n d :
  0 <= default 0 (stock self !! n) ->
  default 0 (stock self !! n) + d < 0 ->
  stock (update_stock [(n, d)] self) !! n = Some 0 /\
  default 0 (stock (update_stock [(n, - d)] (update_stock [(n, d)] self))
             !! n) == - d /\
  default 0 (stock self !! n) < - d.
Proof.
  intros Hc Hd. simpl. unfold adjust. simpl.
  rewrite !lookup_insert_eq. simpl.
  set (c := default 0 (stock self !! n)) in *.
  assert (E : max 0 (c + d) = 0).
  { unfold max. now rewrite (proj2 (PyFacts.Qltb_ge 0 (c + d))) by lra. }
  rewrite E. split; [reflexivity|]. split; [|lra].
  destruct (max0_cases (0 + - d)) as [[-> H]|[-> H]]; lra.
Qed.

Lemma withdrawal_beyond_stock_not_undone_witness :
  stock (update_stock [("Tires"%string, -900)] (_load_db Missing))
    !! "Tires"%string = Some 0 /\
  default 0 (stock (update_stock [("Tires"%string, - (-900))]
                      (update_stock [("Tires"%string, -900)]
                         (_load_db Missing))) !! "Tires"%string)
  == - (-900) /\
  default 0 (stock (_load_db Missing) !! "Tires"%string) < - (-900).
Proof.
  apply (withdrawal_beyond_stock_not_undone (_load_db Missing) "Tires"
           (-900)).
  - apply Qle_bool_iff. reflexivity.
  - reflexivity.
Defined.

End InventoryFacts.

(** ** The operator's optimisation cycle *)

Module OperatorCLIFacts.
Module AO := AdvancedOptimizer.
Import OperatorCLI.

Lemma prepare_names snapshot :
  map AO.name (prepare snapshot) = waste_props.*1.
Proof. reflexivity. Qed.

Lemma prepare_entry snapshot n :
  n ∈ waste_props.*1 ->
  exists w, w ∈ prepare snapshot /\ AO.name w = n /\
            AO.stock w = Some (default 0 (snapshot !! n)).
Proof.
  intros Hin. apply list_elem_of_fmap in Hin as (entry & -> & Hentry).
  destruct entry as (n & (((p & cl) & s) & h)).
  eexists. split.
  - unfold prepare. apply list_elem_of_fmap. exists (n, (p, cl, s, h)).
    split; [reflexivity | assumption].
  - split; reflexivity.
Qed.

Lemma not_the_base n : n ∈ waste_props.*1 -> n <> "Petcoke (Base)"%string.
Proof.
  intros Hin ->. unfold waste_props in Hin. simpl in Hin.
  repeat (apply elem_of_cons in Hin as [Hin|Hin]; [discriminate Hin|]).
  now apply elem_of_nil in Hin.
Qed.

Lemma prepared_unstocked snapshot n :
  n ∈ waste_props.*1 ->
  default 0 (snapshot !! n) <= 0 ->
  exists w, w ∈ prepare snapshot /\ AO.name w = n /\
            AO.out_of_stock w = true.
Proof.
  intros Hin Hstock.
  destruct (prepare_entry snapshot n Hin) as (w & Hw & Hn & Hs).
  exists w. split; [assumption|]. split; [assumption|].
  unfold AO.out_of_stock. rewrite Hs. simpl. now apply Qle_bool_iff.
Qed.

Lemma cycle_optimized solve snapshot :
  AO.valued (solve (AO.build_lp (prepare snapshot) standard_constraints))
    (prepare snapshot) ->
  exists r,
    run_optimization_cycle (Some solve) snapshot = Optimized r /\
    AO.mix r
    = AO.mix_results
        (AO.varValue
           (solve (AO.build_lp (prepare snapshot) standard_constraints)))
        (map AO.name (prepare snapshot)).
Proof.
  intros Hv.
  destruct (AdvancedOptimizerFacts.interpret_valued
              (prepare snapshot) standard_constraints _ Hv)
    as (r & Hr & _ & Hmix & _).
  exists r. unfold run_optimization_cycle, AO.solve_optimal_mix.
  now rewrite Hr.
Qed.

(** X11. In the operator's cycle a material of the property table that the
    stock snapshot does not list, or lists with a stock of zero or less,
    gets a variable bounded by [(0, 0)]; when the solver gives every
    variable a value within its bounds, the cycle returns the optimizer's
    result and its mix has no entry for that material. *)
Theorem cycle_skips_unstocked solve snapshot n :
  n ∈ waste_props.*1 ->
  default 0 (snapshot !! n) <= 0 ->
  AO.valued (solve (AO.build_lp (prepare snapshot) standard_constraints))
    (prepare snapshot) ->
  AO.in_bounds
    (AO.variables (AO.build_lp (prepare snapshot) standard_constraints))
    (AO.assignment
       (solve (AO.build_lp (prepare snapshot) standard_constraints))) ->
  AO.variables (AO.build_lp (prepare snapshot) standard_constraints) !! n
  = Some (AO.mkLpVariable 0 0) /\
  exists r,
    run_optimization_cycle (Some solve) snapshot = Optimized r /\
    cycle_mix (Optimized r) !! n = None.
Proof.
  intros Hin Hstock Hv Hb.
  destruct (prepared_unstocked snapshot n Hin Hstock) as (w & Hw & <- & Hout).
  split; [now apply AdvancedOptimizerFacts.out_of_stock_variable|].
  destruct (cycle_optimized solve snapshot Hv) as (r & Hr & Hmix).
  exists r. split; [assumption|]. simpl. rewrite Hmix.
  apply (AdvancedOptimizerFacts.out_of_stock_unreported
           (prepare snapshot) standard_constraints); try assumption.
  now apply not_the_base.
Qed.

Lemma report_tires_feasible :
  AO.feasible
    (AO.build_lp (prepare CycleScenarios.tires_only) standard_constraints)
    (AO.assignment
       (CycleScenarios.report_tires
          (AO.build_lp (prepare CycleScenarios.tires_only)
             standard_constraints))).
Proof.
  apply AdvancedOptimizerFacts.feasible_check; vm_compute; reflexivity.
Qed.

Lemma report_tires_feasible_drained :
  AO.feasible
    (AO.build_lp
       (prepare
          (InventoryManager.get_stock
             (InventoryManager.update_stock [("Wood"%string, -2000)]
                (InventoryManager._load_db InventoryManager.Missing))))
       standard_constraints)
    (AO.assignment
       (CycleScenarios.report_tires
          (AO.build_lp
             (prepare
                (InventoryManager.get_stock
                   (InventoryManager.update_stock [("Wood"%string, -2000)]
                      (InventoryManager._load_db InventoryManager.Missing))))
             standard_constraints))).
Proof.
  apply AdvancedOptimizerFacts.feasible_check; vm_compute; reflexivity.
Qed.

Lemma cycle_skips_unstocked_witness :
  exists r,
    run_optimization_cycle (Some CycleScenarios.report_tires)
      CycleScenarios.tires_only = Optimized r /\
    cycle_mix (Optimized r) !! "Plastic"%string = None.
Proof.
  apply (cycle_skips_unstocked CycleScenarios.report_tires
           CycleScenarios.tires_only "Plastic").
  - right. left.
  - apply Qle_refl.
  - repeat (apply Forall_cons; split); try apply Forall_nil;
      eexists; vm_compute; reflexivity.
  - exact (proj2 report_tires_feasible).
Defined.

(** X12. Inventory and cycle together: once an adjustment has withdrawn at
    least the whole stock of a material of the property table, the next
    cycle run on the manager's stock bounds that material by [(0, 0)] and,
    for a solver that gives every variable a value within its bounds, leaves
    it out of the mix. *)
Theorem drained_material_is_skipped solve self n d :
  n ∈ waste_props.*1 ->
  default 0 (InventoryManager.stock self !! n) + d <= 0 ->
  let snapshot :=
    InventoryManager.get_stock
      (InventoryManager.update_stock [(n, d)] self) in
  AO.valued (solve (AO.build_lp (prepare snapshot) standard_constraints))
    (prepare snapshot) ->
  AO.in_bounds
    (AO.variables (AO.build_lp (prepare snapshot) standard_constraints))
    (AO.assignment
       (solve (AO.build_lp (prepare snapshot) standard_constraints))) ->
  AO.variables (AO.build_lp (prepare snapshot) standard_constraints) !! n
  = Some (AO.mkLpVariable 0 0) /\
  exists r,
    run_optimization_cycle (Some solve) snapshot = Optimized r /\
    AO.mix r !! n = None.
Proof.
  intros Hin Hd snapshot Hv Hb.
  assert (Hzero : default 0 (snapshot !! n) <= 0).
  { unfold snapshot, InventoryManager.get_stock. simpl.
    unfold InventoryManager.adjust. simpl. rewrite lookup_insert_eq. simpl.
    destruct (InventoryFacts.max0_cases
                (default 0 (InventoryManager.stock self !! n) + d))
      as [[-> H]|[-> H]]; lra. }
  destruct (prepared_unstocked snapshot n Hin Hzero) as (w & Hw & <- & Hout).
  split; [now apply AdvancedOptimizerFacts.out_of_stock_variable|].
  destruct (cycle_optimized solve snapshot Hv) as (r & Hr & Hmix).
  exists r. split; [assumption|]. rewrite Hmix.
  apply (AdvancedOptimizerFacts.out_of_stock_unreported
           (prepare snapshot) standard_constraints); try assumption.
  now apply not_the_base.
Qed.

Lemma drained_material_is_skipped_witness :
  exists r,
    run_optimization_cycle (Some CycleScenarios.report_tires)
      (InventoryManager.get_stock
         (InventoryManager.update_stock [("Wood"%string, -2000)]
            (InventoryManager._load_db InventoryManager.Missing)))
    = Optimized r /\
    AO.mix r !! "Wood"%string = None.
Proof.
  apply (drained_material_is_skipped CycleScenarios.report_tires
           (InventoryManager._load_db InventoryManager.Missing)
           "Wood" (-2000)).
  - do 2 right. left.
  - apply Qle_bool_iff. reflexivity.
  - repeat (apply Forall_cons; split); try apply Forall_nil;
      eexists; vm_compute; reflexivity.
  - exact (proj2 report_tires_feasible_drained).
Defined.

End OperatorCLIFacts.

(** ** The frame analysis *)

Module WasteAnalysisFacts.
Import WasteAnalysis.

Lemma default_in_range (m : gmap string Q) (lo hi d : Q) k :
  map_Forall (fun _ v => lo <= v /\ v <= hi) m ->
  lo <= d /\ d <= hi ->
  lo <= default d (m !! k) /\ default d (m !! k) <= hi.
Proof.
  intros Hm Hd. destruct (m !! k) as [v|] eqn:E; simpl; [|assumption].
  exact (Hm k v E).
Qed.

Ltac table_range :=
  repeat (apply map_Forall_insert_2;
          [split; apply Qle_bool_iff; reflexivity|]);
  apply map_Forall_empty.

Lemma density_range t :
  0.3 <= default 0.5 (DENSITY_FACTORS !! t) /\
  default 0.5 (DENSITY_FACTORS !! t) <= 0.9.
Proof.
  apply default_in_range; [|split; apply Qle_bool_iff; reflexivity].
  unfold DENSITY_FACTORS. table_range.
Qed.

Lemma pci_range t :
  0 <= default 3500 (PCI_VALUES !! t) /\
  default 3500 (PCI_VALUES !! t) <= 10500.
Proof.
  apply default_in_range; [|split; apply Qle_bool_iff; reflexivity].
  unfold PCI_VALUES. table_range.
Qed.

Lemma moisture_range t :
  0.65 <= default 0.8 (MOISTURE_FACTORS !! t) /\
  default 0.8 (MOISTURE_FACTORS !! t) <= 1.
Proof.
  apply default_in_range; [|split; apply Qle_bool_iff; reflexivity].
  unfold MOISTURE_FACTORS. table_range.
Qed.

Lemma compaction_range self :
  0.7 <= compaction_factor self /\ compaction_factor self <= 1.2.
Proof.
  unfold compaction_factor.
  repeat case_bool_decide; split; apply Qle_bool_iff; reflexivity.
Qed.

Lemma factor_range self :
  0.21 <= compaction_factor self * default 0.5 (DENSITY_FACTORS !! type self)
  /\
  compaction_factor self * default 0.5 (DENSITY_FACTORS !! type self) <= 1.08.
Proof.
  destruct (density_range (type self)) as [Hd1 Hd2].
  destruct (compaction_range self) as [Hc1 Hc2].
  split; nra.
Qed.

(** X13. Among objects of one type and one area that is not negative, a
    dense one is estimated heaviest and one that is neither dense nor
    compact (loose, or any other word) lightest; no estimate is
    negative. *)
Theorem denser_is_heavier o1 o2 :
  type o1 = type o2 ->
  area_percentage o1 = area_percentage o2 ->
  0 <= area_percentage o1 ->
  0 <= estimated_weight o1 /\
  (visual_density o2 = "dense"%string ->
   estimated_weight o1 <= estimated_weight o2) /\
  (visual_density o1 <> "dense"%string ->
   visual_density o1 <> "compact"%string ->
   estimated_weight o1 <= estimated_weight o2).
Proof.
  intros Ht Ha Hpos. unfold estimated_weight, FRAME_CALIBRATION_CONSTANT.
  rewrite <- Ht, <- Ha.
  destruct (density_range (type o1)) as [Hd _].
  destruct (compaction_range o1) as [Hlo1 Hhi1].
  destruct (compaction_range o2) as [Hlo2 Hhi2].
  set (a := area_percentage o1) in *.
  set (d := default 0.5 (DENSITY_FACTORS !! type o1)) in *.
  assert (Hmono : forall c1 c2, 0 <= c1 -> c1 <= c2 ->
            a * c1 * d * 50 <= a * c2 * d * 50).
  { intros c1 c2 H0 H12.
    assert (a * c1 <= a * c2) by nra.
    assert (a * c1 * d <= a * c2 * d) by nra. lra. }
  split; [|split].
  - assert (0 <= a * compaction_factor o1) by nra.
    assert (0 <= a * compaction_factor o1 * d) by nra. lra.
  - intros Hdense. apply Hmono; [lra|].
    unfold compaction_factor at 2. rewrite Hdense. simpl. exact Hhi1.
  - intros Hn1 Hn2. apply Hmono; [lra|].
    unfold compaction_factor at 1.
    rewrite !bool_decide_eq_false_2 by assumption. exact Hlo2.
Qed.

Lemma denser_is_heavier_witness :
  estimated_weight
    (mkWasteObject "Tires" 2 "large" "compact" 0.94 12.5 "minimal")
  <= estimated_weight
       (mkWasteObject "Tires" 1 "small" "dense" 0.5 12.5 "oily") /\
  estimated_weight
    (mkWasteObject "Tires" 3 "large" "scattered" 0.7 12.5 "")
  <= estimated_weight
       (mkWasteObject "Tires" 2 "large" "compact" 0.94 12.5 "minimal").
Proof.
  assert (Hpos : 0 <= 12.5) by (apply Qle_bool_iff; reflexivity).
  split.
  - apply (proj1 (proj2 (denser_is_heavier
             (mkWasteObject "Tires" 2 "large" "compact" 0.94 12.5 "minimal")
             (mkWasteObject "Tires" 1 "small" "dense" 0.5 12.5 "oily")
             eq_refl eq_refl Hpos))).
    reflexivity.
  - apply (proj2 (proj2 (denser_is_heavier
             (mkWasteObject "Tires" 3 "large" "scattered" 0.7 12.5 "")
             (mkWasteObject "Tires" 2 "large" "compact" 0.94 12.5 "minimal")
             eq_refl eq_refl Hpos))); discriminate.
Defined.

(** *** The calorific value of a frame *)

Lemma engine_step_invariant e obj_data :
  covers obj_data ->
  0 <= total_weight e ->
  0 <= weighted_pci_sum e /\ weighted_pci_sum e <= 10500 * total_weight e ->
  0 <= total_weight (engine_step e obj_data) /\
  0 <= weighted_pci_sum (engine_step e obj_data) /\
  weighted_pci_sum (engine_step e obj_data)
  <= 10500 * total_weight (engine_step e obj_data).
Proof.
  intros Ha Hw [Hs1 Hs2]. unfold engine_step.
  cbn [total_weight weighted_pci_sum].
  destruct (pci_range (type (to_object obj_data))) as [Hp1 Hp2].
  destruct (moisture_range (type (to_object obj_data))) as [Hm1 Hm2].
  assert (Hw0 : 0 <= estimated_weight (to_object obj_data)).
  { unfold estimated_weight, FRAME_CALIBRATION_CONSTANT.
    destruct (factor_range (to_object obj_data)) as [H1 _].
    unfold covers in Ha.
    change (area_percentage (to_object obj_data))
      with (default 0 (get_area_percentage obj_data)).
    set (a := default 0 (get_area_percentage obj_data)) in *.
    nra. }
  set (w := estimated_weight (to_object obj_data)) in *.
  set (p := default 3500 (PCI_VALUES !! type (to_object obj_data))) in *.
  set (m := default 0.8 (MOISTURE_FACTORS !! type (to_object obj_data))) in *.
  assert (0 <= p * w) by nra.
  assert (p * w <= 10500 * w) by nra.
  assert (0 <= p * w * m) by nra.
  assert (p * w * m <= p * w) by nra.
  repeat split; lra.
Qed.

Lemma engine_invariant frame_objects :
  Forall covers frame_objects ->
  0 <= total_weight (engine frame_objects) /\
  0 <= weighted_pci_sum (engine frame_objects) /\
  weighted_pci_sum (engine frame_objects)
  <= 10500 * total_weight (engine frame_objects).
Proof.
  unfold engine.
  assert (G : forall e,
    Forall covers frame_objects ->
    0 <= total_weight e /\ 0 <= weighted_pci_sum e /\
    weighted_pci_sum e <= 10500 * total_weight e ->
    0 <= total_weight (foldl engine_step e frame_objects) /\
    0 <= weighted_pci_sum (foldl engine_step e frame_objects) /\
    weighted_pci_sum (foldl engine_step e frame_objects)
    <= 10500 * total_weight (foldl engine_step e frame_objects)).
  { induction frame_objects as [|o rest IH]; intros e Hall He; simpl;
      [assumption|].
    apply Forall_cons in Hall as [Ho Hrest].
    apply IH; [assumption|].
    destruct He as (H1 & H2 & H3).
    now apply engine_step_invariant. }
  intros Hall. apply G; [assumption|]. simpl. lra.
Qed.

Lemma frame_pci_range frame_objects :
  Forall covers frame_objects ->
  0 <= frame_pci (engine frame_objects) /\
  frame_pci (engine frame_objects) <= 10500.
Proof.
  intros Hall. destruct (engine_invariant _ Hall) as (Hw & Hs1 & Hs2).
  unfold frame_pci. destruct (Py.Qltb 0 _) eqn:E; [|lra].
  apply PyFacts.Qltb_lt in E. split.
  - apply Qle_shift_div_l; [assumption | lra].
  - apply Qle_shift_div_r; [assumption | lra].
Qed.

(** X14. When no detected object has a negative area, the calorific value
    that the frame report states lies between 0 and 10500 kcal/kg, the
    highest value of the table, whatever was detected. *)
Theorem estimated_pci_range frame_objects moisture_visual_estimate :
  Forall (fun o => 0 <= default 0 (get_area_percentage o)) frame_objects ->
  0 <= estimated_pci_kcal_kg
         (frame_metrics (frame_report frame_objects moisture_visual_estimate))
  /\
  estimated_pci_kcal_kg
    (frame_metrics (frame_report frame_objects moisture_visual_estimate))
  <= 10500.
Proof.
  intros Hall. destruct (frame_pci_range _ Hall) as [H0 H1]. simpl.
  pose proof (RoundingFacts.round_ge_grid
                (frame_pci (engine frame_objects)) 0 0) as Hlo.
  pose proof (RoundingFacts.round_le_grid
                (frame_pci (engine frame_objects)) 0 10500) as Hhi.
  change (inject_Z 0 / inject_Z (Py.pow10 0)) with (0 / 1) in Hlo.
  change (inject_Z 10500 / inject_Z (Py.pow10 0)) with (10500 / 1) in Hhi.
  assert (E0 : 0 / 1 == 0) by reflexivity.
  assert (E1 : 10500 / 1 == 10500) by reflexivity.
  rewrite E0 in Hlo. rewrite E1 in Hhi.
  split; [apply Hlo | apply Hhi]; assumption.
Qed.

Lemma estimated_pci_range_witness :
  estimated_pci_kcal_kg
    (frame_metrics
       (frame_report
          [ mkObjData (Some "Tires"%string) (Some 2%Z) None
              (Some "compact"%string) (Some 0.94) (Some 12.5) None;
            mkObjData None None None None None (Some 30) None ]
          (Some "dry"%string)))
  <= 10500.
Proof.
  apply (estimated_pci_range
           [ mkObjData (Some "Tires"%string) (Some 2%Z) None
               (Some "compact"%string) (Some 0.94) (Some 12.5) None;
             mkObjData None None None None None (Some 30) None ]
           (Some "dry"%string)).
  repeat constructor; simpl; apply Qle_bool_iff; reflexivity.
Defined.

(** *** The rolling window *)

Lemma add_frame_buffer f self :
  (length (frame_buffer self) <= 10)%nat ->
  frame_buffer (add_frame f self)
  = drop (length (frame_buffer self) + 1 - 10) (frame_buffer self ++ [f]).
Proof.
  intros Hlen. unfold add_frame. cbn [frame_buffer].
  rewrite length_app. simpl.
  destruct (Nat.ltb_spec 10 (length (frame_buffer self) + 1)) as [H|H].
  - replace (length (frame_buffer self) + 1 - 10)%nat with 1%nat by lia.
    reflexivity.
  - replace (length (frame_buffer self) + 1 - 10)%nat with 0%nat by lia.
    reflexivity.
Qed.

Lemma feed_buffer fs : forall self,
  (length (frame_buffer self) <= 10)%nat ->
  frame_buffer (feed fs self)
  = drop (length (frame_buffer self ++ fs) - 10) (frame_buffer self ++ fs).
Proof.
  unfold feed. induction fs as [|f fs IH]; intros self Hlen; simpl.
  - rewrite app_nil_r. replace (length (frame_buffer self) - 10)%nat
      with 0%nat by lia. reflexivity.
  - pose proof (add_frame_buffer f self Hlen) as Hb.
    assert (Hlen' : (length (frame_buffer (add_frame f self)) <= 10)%nat).
    { rewrite Hb, length_drop, length_app. simpl. lia. }
    rewrite (IH _ Hlen'), Hb.
    rewrite <- (drop_app_le (frame_buffer self ++ [f]) fs)
      by (rewrite length_app; simpl; lia).
    rewrite <- app_assoc. simpl.
    rewrite drop_drop. f_equal.
    rewrite length_drop, !length_app. simpl. lia.
Qed.

Lemma feed_counter fs : forall self,
  frame_counter (feed fs self) = (frame_counter self + length fs)%nat.
Proof.
  unfold feed. induction fs as [|f fs IH]; intros self; simpl; [lia|].
  rewrite IH. simpl. lia.
Qed.

(** X15. After a fresh analyzer has received a sequence of frames, its
    buffer holds the last ten of them, in order (all of them when there are
    at most ten), and the counter holds their number. *)
Theorem rolling_window_of_ten fs :
  frame_buffer (feed fs new_BatchAnalyzer) = drop (length fs - 10) fs /\
  length (frame_buffer (feed fs new_BatchAnalyzer)) = Nat.min (length fs) 10 /\
  frame_counter (feed fs new_BatchAnalyzer) = length fs.
Proof.
  assert (Hb : frame_buffer (feed fs new_BatchAnalyzer)
               = drop (length fs - 10) fs).
  { rewrite feed_buffer by (simpl; lia). reflexivity. }
  split; [exact Hb|]. split.
  - rewrite Hb, length_drop. lia.
  - now rewrite feed_counter.
Qed.

(** *** The two averages *)

Lemma sum_Permutation l l' : l ≡ₚ l' -> Py.sum l == Py.sum l'.
Proof.
  induction 1 as [|v l l' _ IH|v v' l|l l' l'' _ IH1 _ IH2]; simpl.
  - reflexivity.
  - now rewrite IH.
  - ring.
  - now rewrite IH1.
Qed.

Lemma map_filter_positive {A : Type} (f : A -> Q) l :
  map f (filter (fun a => Py.Qltb 0 (f a) = true) l)
  = filter (fun v => Py.Qltb 0 v = true) (map f l).
Proof.
  induction l as [|a l IH]; [reflexivity|].
  simpl. rewrite !filter_cons.
  destruct (decide (Py.Qltb 0 (f a) = true)); simpl; now rewrite IH.
Qed.

Lemma sum_of_positive l :
  0 <= Py.sum (filter (fun v => Py.Qltb 0 v = true) l).
Proof.
  induction l as [|v l IH]; [simpl; lra|].
  rewrite filter_cons. destruct (decide (Py.Qltb 0 v = true)) as [Hv|_];
    [|exact IH].
  simpl. apply PyFacts.Qltb_lt in Hv. lra.
Qed.

Lemma divide_by_more (s a b : Q) :
  0 <= s -> 0 < a -> a <= b -> s / b <= s / a.
Proof.
  intros Hs Ha Hab.
  apply Qle_shift_div_l; [assumption|].
  assert (E : s / b * a == s * a / b) by (field; lra).
  rewrite E. apply Qle_shift_div_r; [lra | nra].
Qed.

(** Both averages add up the calorific values above zero; the analyzer
    divides by the number of all frames of the buffer, the API by the
    number of frames above zero. *)
Lemma rolling_at_most_valid self rows :
  map pci_of (frame_buffer self) ≡ₚ map Api.estimated_pci rows ->
  get_rolling_average_pci self <= Api.avg_pci rows.
Proof.
  intros Hsame. unfold get_rolling_average_pci, Api.avg_pci, Api.valid.
  rewrite !map_filter_positive.
  assert (Hlenv : length (filter (fun row => Py.Qltb 0 (Api.estimated_pci row)
                                            = true) rows)
                  = length (filter (fun v => Py.Qltb 0 v = true)
                              (map Api.estimated_pci rows))).
  { now rewrite <- map_filter_positive, length_map. }
  rewrite Hlenv.
  set (P := fun v : Q => Py.Qltb 0 v = true).
  assert (Hperm : filter P (map pci_of (frame_buffer self))
                  ≡ₚ filter P (map Api.estimated_pci rows))
    by now rewrite Hsame.
  pose proof (sum_Permutation _ _ Hperm) as Hsum.
  pose proof (sum_of_positive (map Api.estimated_pci rows)) as Hpos.
  fold P in Hpos.
  assert (Hlen : length (frame_buffer self) = length rows).
  { apply Permutation_length in Hsame. now rewrite !length_map in Hsame. }
  destruct (frame_buffer self) as [|f buf] eqn:Hbuf.
  - destruct rows; [|discriminate Hlen]. simpl. lra.
  - rewrite <- Hbuf in *. rewrite Hsum, Hlen.
    set (kept := filter P (map Api.estimated_pci rows)) in *.
    assert (Hk : (length kept <= length rows)%nat).
    { unfold kept. etransitivity; [apply length_filter|].
      now rewrite length_map. }
    assert (Hn : (0 < length rows)%nat)
      by (rewrite <- Hlen, Hbuf; simpl; lia).
    assert (Hn' : 0 < inject_Z (Z.of_nat (length rows)))
      by (change 0 with (inject_Z 0); rewrite <- Zlt_Qlt; lia).
    destruct (Nat.ltb_spec 0 (length kept)) as [Hk0|Hk0].
    + apply divide_by_more; [assumption|..].
      * change 0 with (inject_Z 0). rewrite <- Zlt_Qlt. lia.
      * rewrite <- Zle_Qle. lia.
    + assert (Hnil : kept = []) by (destruct kept; simpl in Hk0; [easy|lia]).
      rewrite Hnil. simpl.
      apply Qle_shift_div_r; [assumption | lra].
Qed.

End WasteAnalysisFacts.

(** ** The analysis API *)

Module ApiFacts.
Import Api.

Lemma newest_first_nil scans : newest_first scans = [] <-> scans = [].
Proof.
  unfold newest_first. split.
  - intros H. apply Permutation_nil_r.
    rewrite <- H. symmetry. apply merge_sort_Permutation.
  - intros ->. reflexivity.
Qed.

Lemma select_latest_nil limit scans :
  select_latest limit scans = [] <-> (limit = 0%Z \/ scans = []).
Proof.
  unfold select_latest. destruct (Z.ltb_spec limit 0) as [Hneg|Hpos].
  - rewrite newest_first_nil. split; [now right | intros [?|?]; [lia|easy]].
  - split.
    + intros H. apply (f_equal length) in H. rewrite length_take in H.
      simpl in H. destruct (decide (limit = 0%Z)) as [|Hne]; [now left|].
      right. apply newest_first_nil.
      destruct (newest_first scans); [reflexivity | simpl in H; lia].
    + intros [-> | ->]; [reflexivity|].
      rewrite (proj2 (newest_first_nil [])) by reflexivity.
      now rewrite take_nil.
Qed.

Lemma Sorted_take {A : Type} (R : relation A) l : forall n,
  Sorted R l -> Sorted R (take n l).
Proof.
  induction l as [|a l IH]; intros [|n] H; simpl; try constructor.
  - apply IH. now inversion H.
  - inversion H as [|? ? _ Hhd]; subst.
    destruct Hhd; destruct n; simpl; now constructor.
Qed.

Lemma newer_total : Total newer.
Proof. intros r1 r2. unfold newer. lia. Qed.

Lemma select_latest_sorted limit scans :
  Sorted newer (select_latest limit scans).
Proof.
  unfold select_latest, newest_first.
  pose proof (@Sorted_merge_sort _ newer _ newer_total scans) as H.
  destruct (limit <? 0)%Z; [assumption | now apply Sorted_take].
Qed.

Lemma select_latest_length limit scans :
  (0 <= limit)%Z ->
  length (select_latest limit scans)
  = Nat.min (Z.to_nat limit) (length scans).
Proof.
  intros Hpos. unfold select_latest, newest_first.
  destruct (Z.ltb_spec limit 0); [lia|].
  rewrite length_take. f_equal.
  apply Permutation_length, merge_sort_Permutation.
Qed.

(** X19. For a limit that is not negative, [get_batch_summary] returns the
    dictionary without frames exactly when the limit is zero or the table
    is empty; otherwise the batch size is the smaller of the limit and the
    number of scans, one history entry per frame, newest (highest id)
    first. *)
Theorem batch_summary_shape limit scans :
  (0 <= limit)%Z ->
  (get_batch_summary limit scans = NoFrames <->
   limit = 0%Z \/ scans = []) /\
  (forall n avg history,
     get_batch_summary limit scans = Summary n avg history ->
     n = Nat.min (Z.to_nat limit) (length scans) /\
     length history = n /\
     Sorted (fun a b => (b <= a)%Z) (map frame_row history)).
Proof.
  intros Hpos. unfold get_batch_summary.
  pose proof (select_latest_nil limit scans) as Hnil.
  pose proof (select_latest_length limit scans Hpos) as Hlen.
  pose proof (select_latest_sorted limit scans) as Hsorted.
  destruct (select_latest limit scans) as [|row rows].
  - split; [|discriminate]. split; [intros _; now apply Hnil | reflexivity].
  - split.
    + split; [discriminate|]. intros H. apply Hnil in H. discriminate H.
    + intros n avg history [= <- _ <-].
      split; [exact Hlen|]. split; [simpl; now rewrite length_map|].
      change (Sorted (fun a b => (b <= a)%Z)
                (map frame_row
                   (map (fun r => mkFrame (id r) (estimated_pci r)
                                    (total_weight_kg r)) (row :: rows)))).
      rewrite map_map. simpl.
      change (id row :: map (fun x => id x) rows)
        with (map id (row :: rows)).
      apply (Sorted_fmap id newer); [|assumption].
      intros r1 r2 H. exact H.
Qed.

Lemma batch_summary_shape_witness :
  exists n avg history,
    get_batch_summary 2 AnalysisScenarios.three_scans
    = Summary n avg history /\
    n = Nat.min (Z.to_nat 2) (length AnalysisScenarios.three_scans).
Proof.
  eexists. eexists. eexists. split; [vm_compute; reflexivity|].
  eapply (batch_summary_shape 2 AnalysisScenarios.three_scans); [lia|].
  vm_compute. reflexivity.
Defined.

(** X17. [get_supply_gap] raises [KeyError('average_pci')] exactly when the
    table of scans is empty: the summary it reads then has no such key.
    With at least one scan it returns. *)
Theorem supply_gap_needs_a_scan scans :
  (get_supply_gap scans = KeyError "average_pci" <-> scans = []) /\
  (scans <> [] -> exists g, get_supply_gap scans = Returned g).
Proof.
  assert (H10 : select_latest 10 scans = [] <-> scans = []).
  { rewrite select_latest_nil. split; [intros [?|?]; [lia|easy] | now right]. }
  unfold get_supply_gap, get_batch_summary.
  destruct (select_latest 10 scans) as [|row rows] eqn:E.
  - split; [|intros Hne; exfalso; apply Hne; now apply H10].
    split; [intros _; now apply H10 | reflexivity].
  - split; [|intros _; eexists; reflexivity].
    split; [discriminate|]. intros Hnil. apply H10 in Hnil. discriminate Hnil.
Qed.

Lemma supply_gap_needs_a_scan_witness :
  exists g, get_supply_gap AnalysisScenarios.three_scans = Returned g.
Proof.
  apply (supply_gap_needs_a_scan AnalysisScenarios.three_scans).
  discriminate.
Defined.

(** X18. The API and the batch analyzer judge a calorific value alike:
    whenever [get_supply_gap] returns, its gap, target and status are those
    of [generate_gap_report] on the same current value, and its
    recommendation is the one that goes with the analyzer's action. *)
Theorem supply_gap_agrees_with_gap_report scans g :
  get_supply_gap scans = Returned g ->
  gap g = WasteAnalysis.gap
            (WasteAnalysis.generate_gap_report (current_batch_pci g)) /\
  target_pci g
  = WasteAnalysis.target_pci
      (WasteAnalysis.generate_gap_report (current_batch_pci g)) /\
  status g
  = WasteAnalysis.status
      (WasteAnalysis.generate_gap_report (current_batch_pci g)) /\
  (recommendation g = "Action: Increase High-PCI Injector (Tires)"%string <->
   WasteAnalysis.action
     (WasteAnalysis.recommendation
        (WasteAnalysis.generate_gap_report (current_batch_pci g)))
   = "INCREASE_HIGH_PCI"%string) /\
  (recommendation g = "Action: Reduce High-PCI / Increase Biomass"%string <->
   WasteAnalysis.action
     (WasteAnalysis.recommendation
        (WasteAnalysis.generate_gap_report (current_batch_pci g)))
   = "REDUCE_HIGH_PCI"%string) /\
  (recommendation g = "Maintain Mix"%string <->
   WasteAnalysis.action
     (WasteAnalysis.recommendation
        (WasteAnalysis.generate_gap_report (current_batch_pci g)))
   = "MAINTAIN"%string).
Proof.
  unfold get_supply_gap.
  destruct (get_batch_summary 10 scans) as [|n current history];
    [discriminate|].
  intros [= <-]. unfold WasteAnalysis.generate_gap_report.
  cbn [gap target_pci status recommendation current_batch_pci
       WasteAnalysis.gap WasteAnalysis.target_pci WasteAnalysis.status
       WasteAnalysis.recommendation].
  unfold TARGET_PCI, WasteAnalysis.TARGET_TSR_PCI.
  split; [reflexivity|]. split; [reflexivity|]. split; [reflexivity|].
  destruct (Py.Qltb (current - 5600) (-500));
    [|destruct (Py.Qltb 500 (current - 5600))];
    cbn [WasteAnalysis.action];
    repeat split; intros H; solve [reflexivity | discriminate H].
Qed.

Lemma supply_gap_agrees_with_gap_report_witness :
  exists g,
    get_supply_gap AnalysisScenarios.three_scans = Returned g /\
    status g
    = WasteAnalysis.status
        (WasteAnalysis.generate_gap_report (current_batch_pci g)).
Proof.
  eexists. split; [vm_compute; reflexivity|].
  eapply (supply_gap_agrees_with_gap_report AnalysisScenarios.three_scans).
  vm_compute. reflexivity.
Defined.

End ApiFacts.

(** ** The analyzer and the API on one table *)

Module WasteStreamAnalyzerFacts.
Import WasteAnalysis WasteStreamAnalyzer.

Lemma next_id_above scans :
  Forall (fun r => (Api.id r < next_id scans)%Z) scans.
Proof.
  unfold next_id. induction scans as [|r rest IH]; constructor; simpl.
  - lia.
  - eapply Forall_impl; [exact IH|]. intros r' H. simpl in H. lia.
Qed.

Lemma analyze_frames_snoc dumps ds d :
  analyze_frames dumps (ds ++ [d])
  = analyze_frame dumps d (analyze_frames dumps ds).
Proof. unfold analyze_frames. now rewrite foldl_snoc. Qed.

(** After any sequence of frames the ids of the table go up, the table
    holds the calorific value of every report, and the batch analyzer has
    received every report. *)
Lemma analyze_frames_state dumps ds :
  StronglySorted (fun r1 r2 => (Api.id r1 < Api.id r2)%Z)
    (scans (analyze_frames dumps ds)) /\
  map Api.estimated_pci (scans (analyze_frames dumps ds))
  = map pci_of (map report_of ds) /\
  batch_processor (analyze_frames dumps ds)
  = feed (map report_of ds) new_BatchAnalyzer.
Proof.
  induction ds as [|d ds IH] using rev_ind.
  - split; [constructor|]. split; reflexivity.
  - rewrite analyze_frames_snoc. destruct IH as (Hs & Hp & Hb).
    unfold analyze_frame. cbn [scans batch_processor]. split; [|split].
    + unfold _save_scan. apply StronglySorted_app.
      split; [|split; [exact Hs | repeat constructor]].
      intros x1 x2 H1 H2. apply list_elem_of_singleton in H2 as ->. simpl.
      pose proof (next_id_above (scans (analyze_frames dumps ds))) as Habove.
      rewrite Forall_forall in Habove. now apply Habove.
    + unfold _save_scan. rewrite !map_app, Hp. reflexivity.
    + rewrite Hb. unfold feed. rewrite map_app, foldl_app. reflexivity.
Qed.

Lemma newer_trans : Transitive Api.newer.
Proof. intros r1 r2 r3. unfold Api.newer. lia. Qed.

Lemma ascending_reverse_sorted l :
  StronglySorted (fun r1 r2 => (Api.id r1 < Api.id r2)%Z) l ->
  Sorted Api.newer (reverse l).
Proof.
  intros H. apply StronglySorted_Sorted.
  induction H as [|r l _ IH Hr]; [constructor|].
  rewrite reverse_cons. apply StronglySorted_app.
  split; [|split; [exact IH | repeat constructor]].
  intros x1 x2 H1 H2. apply list_elem_of_singleton in H2 as ->.
  apply (proj1 (elem_of_reverse _ _)) in H1. rewrite Forall_forall in Hr.
  specialize (Hr _ H1). unfold Api.newer. lia.
Qed.

Lemma ascending_id_inj l x y :
  StronglySorted (fun r1 r2 => (Api.id r1 < Api.id r2)%Z) l ->
  x ∈ l -> y ∈ l -> Api.id x = Api.id y -> x = y.
Proof.
  induction 1 as [|r l _ IH Hr]; intros Hx Hy E.
  - now apply elem_of_nil in Hx.
  - rewrite Forall_forall in Hr.
    apply elem_of_cons in Hx as [->|Hx], Hy as [->|Hy].
    + reflexivity.
    + specialize (Hr _ Hy). lia.
    + specialize (Hr _ Hx). lia.
    + now apply IH.
Qed.

(** On a table whose ids go up, [ORDER BY id DESC] is the table read
    backwards. *)
Lemma newest_first_ascending scans :
  StronglySorted (fun r1 r2 => (Api.id r1 < Api.id r2)%Z) scans ->
  Api.newest_first scans = reverse scans.
Proof.
  intros Hs. unfold Api.newest_first.
  apply (@Sorted_unique_strong _ Api.newer newer_trans).
  - intros x1 x2 H1 H2 R1 R2.
    apply (ascending_id_inj scans); [assumption|..].
    + now rewrite merge_sort_Permutation in H1.
    + now apply (proj1 (elem_of_reverse _ _)) in H2.
    + unfold Api.newer in *. lia.
  - apply (@Sorted_merge_sort _ Api.newer _ ApiFacts.newer_total).
  - now apply ascending_reverse_sorted.
  - now rewrite merge_sort_Permutation, reverse_Permutation.
Qed.

Lemma map_reverse {A B : Type} (f : A -> B) l :
  map f (reverse l) = reverse (map f l).
Proof. exact (fmap_reverse f l). Qed.

(** X16. A new analyzer on an empty database, after any sequence of frames:
    [get_batch_summary] reports the frames that the batch analyzer holds
    in its buffer, newest first, and the average it states is at least the
    rolling average of the analyzer, both rounded to two decimals.  (Both
    add up the calorific values above zero; the analyzer divides by the
    number of frames in the buffer, the API by the number of frames above
    zero.) *)
Theorem api_average_covers_rolling_average dumps ds :
  (ds = [] ->
   Api.get_batch_summary 10 (scans (analyze_frames dumps ds))
   = Api.NoFrames) /\
  (ds <> [] ->
   exists avg history,
     Api.get_batch_summary 10 (scans (analyze_frames dumps ds))
     = Api.Summary
         (length (frame_buffer (batch_processor (analyze_frames dumps ds))))
         avg history /\
     map Api.pci history
     = reverse (map pci_of
                  (frame_buffer (batch_processor (analyze_frames dumps ds))))
     /\
     Py.round
       (get_rolling_average_pci (batch_processor (analyze_frames dumps ds)))
       2 <= avg).
Proof.
  destruct (analyze_frames_state dumps ds) as (Hs & Hp & Hb).
  set (self := analyze_frames dumps ds) in *.
  split; [intros ->; reflexivity|]. intros Hne.
  assert (Hbuf : frame_buffer (batch_processor self)
                 = drop (length ds - 10) (map report_of ds)).
  { rewrite Hb, WasteAnalysisFacts.feed_buffer by (simpl; lia).
    simpl. now rewrite length_map. }
  assert (Hlen : length (scans self) = length ds).
  { apply (f_equal length) in Hp. now rewrite !length_map in Hp. }
  assert (Hrows : Api.select_latest 10 (scans self)
                  = take 10 (reverse (scans self))).
  { unfold Api.select_latest. simpl.
    now rewrite (newest_first_ascending _ Hs). }
  assert (Hvals : map Api.estimated_pci (take 10 (reverse (scans self)))
                  = reverse (map pci_of (frame_buffer (batch_processor self)))).
  { rewrite <- firstn_map, map_reverse, Hp, take_reverse, Hbuf.
    now rewrite <- skipn_map, !length_map. }
  unfold Api.get_batch_summary. rewrite Hrows.
  remember (take 10 (reverse (scans self))) as rows eqn:Erows.
  destruct rows as [|row rows].
  - exfalso. apply (f_equal length) in Erows.
    rewrite length_take, length_reverse, Hlen in Erows. simpl in Erows.
    destruct ds; [congruence | simpl in Erows; lia].
  - exists (Py.round (Api.avg_pci (row :: rows)) 2).
    exists (map (fun r => Api.mkFrame (Api.id r) (Api.estimated_pci r)
                            (Api.total_weight_kg r)) (row :: rows)).
    split; [|split].
    + f_equal. apply (f_equal length) in Hvals.
      now rewrite length_reverse, !length_map in Hvals.
    + rewrite map_map. exact Hvals.
    + apply RoundingFacts.round_mono.
      apply WasteAnalysisFacts.rolling_at_most_valid.
      rewrite Hvals. symmetry. apply reverse_Permutation.
Qed.

Lemma api_average_covers_rolling_average_witness :
  exists avg history,
    Api.get_batch_summary 10
      (scans (analyze_frames AnalysisScenarios.no_json
                AnalysisScenarios.three_answers))
    = Api.Summary 3 avg history /\
    Py.round
      (get_rolling_average_pci
         (batch_processor
            (analyze_frames AnalysisScenarios.no_json
               AnalysisScenarios.three_answers))) 2 <= avg.
Proof.
  destruct (proj2 (api_average_covers_rolling_average
                     AnalysisScenarios.no_json
                     AnalysisScenarios.three_answers))
    as (avg & history & Hsum & _ & Hle).
  - discriminate.
  - exists avg, history. split; [exact Hsum | exact Hle].
Defined.

End WasteStreamAnalyzerFacts.

(** ** The vision analyzer *)

Module VisionAnalyzerFacts.
Import VisionAnalyzer.

Lemma area_from_unlabelled names label boxes : forall init,
  existsb (labelled names label) boxes = false ->
  area_from names label init boxes = init.
Proof.
  unfold area_from. induction boxes as [|box rest IH]; intros init H; simpl;
    [reflexivity|].
  simpl in H. apply orb_false_iff in H as [Hb Hrest].
  rewrite Hb. now apply IH.
Qed.

Lemma area_from_cons names label init box rest :
  area_from names label init (box :: rest)
  = area_from names label
      (if labelled names label box then init + w box * h box else init) rest.
Proof. reflexivity. Qed.

Lemma surfaces_named names boxes : forall m0,
  Forall (fun b => is_Some (names !! cls b)) boxes ->
  exists m,
    surfaces names boxes m0 = Returned m /\
    forall label,
      m !! label
      = if existsb (labelled names label) boxes
        then Some (area_from names label (default 0 (m0 !! label)) boxes)
        else m0 !! label.
Proof.
  induction boxes as [|box rest IH]; intros m0 Hall.
  - exists m0. split; reflexivity.
  - apply Forall_cons in Hall as [[name Hname] Hrest].
    cbn [surfaces]. unfold label_of. rewrite Hname.
    set (lab := default name (CLASS_MAPPING !! cls box)).
    destruct (IH (<[lab := default 0 (m0 !! lab) + w box * h box]> m0) Hrest)
      as (m & Hm & Hlook).
    exists m. split; [assumption|]. intros label. rewrite Hlook.
    assert (Hlab : labelled names label box = bool_decide (lab = label))
      by (unfold labelled; now rewrite Hname).
    rewrite area_from_cons. cbn [existsb]. rewrite Hlab.
    destruct (decide (lab = label)) as [<-|Hne].
    + rewrite bool_decide_eq_true_2 by reflexivity. simpl.
      rewrite lookup_insert_eq. simpl.
      destruct (existsb (labelled names lab) rest) eqn:E; [reflexivity|].
      now rewrite (area_from_unlabelled _ _ _ _ E).
    + rewrite bool_decide_eq_false_2 by assumption. simpl.
      now rewrite lookup_insert_ne by assumption.
Qed.

Lemma defaults_lookup (keys : list string) : forall (p : gmap string Q) label,
  foldl (fun p key => with_default key p) p keys !! label
  = match p !! label with
    | Some v => Some v
    | None => if bool_decide (label ∈ keys) then Some 0 else None
    end.
Proof.
  induction keys as [|key rest IH]; intros p label; simpl.
  - now destruct (p !! label).
  - rewrite IH. unfold with_default.
    destruct (decide (label = key)) as [->|Hne].
    + rewrite (bool_decide_eq_true_2 (key ∈ key :: rest)) by left.
      destruct (p !! key) as [v|] eqn:E; [now rewrite E|].
      now rewrite lookup_insert_eq.
    + assert (E : bool_decide (label ∈ key :: rest)
                  = bool_decide (label ∈ rest)).
      { apply bool_decide_ext. rewrite elem_of_cons.
        split; [intros [?|?]; [congruence | assumption] | now right]. }
      rewrite E. destruct (p !! key); [reflexivity|].
      now rewrite lookup_insert_ne by congruence.
Qed.

(** X20. When the frame area is not zero and the name table of the model
    knows the class of every box, [calculate_surface_percentage] returns a
    table in which a detected label has the rounded percentage of the total
    area of its boxes (boxes of several classes mapped to one label are
    added together), each of the four industrial labels that was not
    detected has 0, and no other label appears. *)
Theorem surface_percentages names boxes frame_area :
  frame_area <> 0%Z ->
  Forall (fun b => is_Some (names !! cls b)) boxes ->
  exists percentages,
    calculate_surface_percentage names boxes frame_area
    = Returned percentages /\
    forall label,
      percentages !! label
      = if existsb (labelled names label) boxes
        then Some (percent frame_area (area_of names label boxes))
        else if bool_decide (label ∈ industrial_keys) then Some 0 else None.
Proof.
  intros Harea Hall. unfold calculate_surface_percentage.
  destruct (surfaces_named names boxes ∅ Hall) as (m & -> & Hlook).
  case_bool_decide as Hempty.
  - eexists. split; [reflexivity|]. intros label.
    rewrite defaults_lookup, lookup_empty.
    specialize (Hlook label). rewrite Hempty, !lookup_empty in Hlook.
    destruct (existsb (labelled names label) boxes); [discriminate|].
    reflexivity.
  - destruct (Z.eqb_spec frame_area 0) as [|_]; [contradiction|].
    eexists. split; [reflexivity|]. intros label.
    rewrite defaults_lookup, lookup_fmap, Hlook, lookup_empty.
    destruct (existsb (labelled names label) boxes); reflexivity.
Qed.

Lemma surface_percentages_witness :
  exists percentages,
    calculate_surface_percentage VisionScenarios.coco_names
      VisionScenarios.street 307200 = Returned percentages /\
    percentages !! "Tires"%string
    = Some (percent 307200
              (area_of VisionScenarios.coco_names "Tires"
                 VisionScenarios.street)) /\
    percentages !! "Wood"%string = Some 0.
Proof.
  destruct (surface_percentages VisionScenarios.coco_names
              VisionScenarios.street 307200) as (p & Hp & Hlook).
  - discriminate.
  - repeat (apply Forall_cons; split); try apply Forall_nil;
      eexists; vm_compute; reflexivity.
  - exists p. split; [exact Hp|]. split.
    + exact (Hlook "Tires"%string).
    + exact (Hlook "Wood"%string).
Defined.

(** X21. The default of [CLASS_MAPPING.get] is evaluated for every box, so
    a box whose class the name table lacks makes the call raise [KeyError]
    for a class unknown to the table, even when [CLASS_MAPPING] has a label
    for that class. *)
Theorem unnamed_class_raises names boxes frame_area :
  Exists (fun b => names !! cls b = None) boxes ->
  exists cls_id,
    calculate_surface_percentage names boxes frame_area
    = Raised (KeyError cls_id) /\
    names !! cls_id = None.
Proof.
  intros Hex. unfold calculate_surface_percentage.
  assert (G : forall m0, exists cls_id,
            surfaces names boxes m0 = Raised (KeyError cls_id) /\
            names !! cls_id = None).
  { induction boxes as [|box rest IH]; intros m0.
    - now apply Exists_nil in Hex.
    - simpl. unfold label_of.
      destruct (names !! cls box) as [name|] eqn:E.
      + apply Exists_cons in Hex as [Hbox|Hrest]; [congruence|].
        apply (IH Hrest).
      + exists (cls box). split; [reflexivity | assumption]. }
  destruct (G ∅) as (cls_id & -> & Hnone).
  now exists cls_id.
Qed.

Lemma unnamed_class_raises_witness :
  exists cls_id,
    calculate_surface_percentage VisionScenarios.coco_names
      VisionScenarios.cup 307200 = Raised (KeyError cls_id) /\
    VisionScenarios.coco_names !! cls_id = None.
Proof.
  apply (unnamed_class_raises VisionScenarios.coco_names
           VisionScenarios.cup 307200).
  left. reflexivity.
Defined.

End VisionAnalyzerFacts.

(** ** The virtual scale *)

Module VirtualScaleFacts.
Import VirtualScale.

Lemma reading_range (y lo hi : Q) (klo khi : Z) :
  lo == inject_Z klo / inject_Z (Py.pow10 2) ->
  hi == inject_Z khi / inject_Z (Py.pow10 2) ->
  0 < lo -> lo <= y -> y <= hi ->
  lo <= Py.round (InventoryManager.max 0 y) 2 /\
  Py.round (InventoryManager.max 0 y) 2 <= hi.
Proof.
  intros Elo Ehi Hpos Hlo Hhi.
  destruct (InventoryFacts.max0_cases y) as [[-> _]|[_ Hneg]]; [|lra].
  rewrite Elo in Hlo. rewrite Ehi in Hhi. rewrite Elo, Ehi.
  split; [now apply RoundingFacts.round_ge_grid
         | now apply RoundingFacts.round_le_grid].
Qed.

(** X22. Whatever noise the generator draws within [[-0.5, 0.5]], the scale
    reports each of its four waste types, at a value within 0.5 of the
    type's base flow and above zero: the floor at zero never applies. *)
Theorem scale_readings_near_base uniform waste :
  (forall i, -0.5 <= uniform i /\ uniform i <= 0.5) ->
  waste ∈ waste_types ->
  exists reading,
    read_scale uniform !! waste = Some reading /\
    base_of waste - 0.5 <= reading /\
    reading <= base_of waste + 0.5 /\
    0 < reading.
Proof.
  intros Hu Hin. unfold waste_types in Hin.
  destruct (Hu 0%nat) as [H0l H0h]. destruct (Hu 1%nat) as [H1l H1h].
  destruct (Hu 2%nat) as [H2l H2h]. destruct (Hu 3%nat) as [H3l H3h].
  repeat (apply elem_of_cons in Hin as [->|Hin]);
    [..|now apply elem_of_nil in Hin];
    unfold read_scale; cbn [read_from waste_types];
    eexists; (split; [simplify_map_eq; reflexivity|]).
  - replace (base_of "Tires") with (2 : Q) by reflexivity.
    destruct (reading_range (2 + uniform 0%nat) 1.5 2.5 150 250)
      as [Hlo Hhi]; [reflexivity | reflexivity | reflexivity | lra | lra |].
    repeat split; lra.
  - replace (base_of "Plastic") with (1.5 : Q) by reflexivity.
    destruct (reading_range (1.5 + uniform 1%nat) 1 2 100 200)
      as [Hlo Hhi]; [reflexivity | reflexivity | reflexivity | lra | lra |].
    repeat split; lra.
  - replace (base_of "Wood") with (5 : Q) by reflexivity.
    destruct (reading_range (5 + uniform 2%nat) 4.5 5.5 450 550)
      as [Hlo Hhi]; [reflexivity | reflexivity | reflexivity | lra | lra |].
    repeat split; lra.
  - replace (base_of "Biomass") with (8 : Q) by reflexivity.
    destruct (reading_range (8 + uniform 3%nat) 7.5 8.5 750 850)
      as [Hlo Hhi]; [reflexivity | reflexivity | reflexivity | lra | lra |].
    repeat split; lra.
Qed.

Lemma scale_readings_near_base_witness :
  exists reading,
    read_scale (fun _ => -0.5) !! "Plastic"%string = Some reading /\
    base_of "Plastic" - 0.5 <= reading /\
    reading <= base_of "Plastic" + 0.5 /\
    0 < reading.
Proof.
  apply (scale_readings_near_base (fun _ => -0.5) "Plastic").
  - intros _. split; apply Qle_bool_iff; reflexivity.
  - right. left.
Defined.

End VirtualScaleFacts.

(** ** The recipe manager *)

Module RecipeManagerFacts.
Import RecipeManager.

Lemma index_nonneg {A : Type} (l : list A) (k : nat) a :
  l !! k = Some a -> index l (Z.of_nat k) = Py.Return a.
Proof.
  intros H. unfold index.
  destruct (Z.ltb_spec (Z.of_nat k) 0) as [?|_]; [lia|].
  destruct (Z.ltb_spec (Z.of_nat k) 0) as [?|_]; [lia|].
  now rewrite Nat2Z.id, H.
Qed.

(** X23. For a recipe of the book, asking for the step after number [k - 1]
    gives the step stored at position [k], for every position of the list
    (so asking after [-1] gives the first step); asking after the last
    position, or any later one, gives the answer of status ["completed"]. *)
Theorem steps_in_order recipes recipe_id recipe :
  recipes !! recipe_id = Some recipe ->
  (forall k s,
     steps recipe !! k = Some s ->
     get_next_recipe_step recipes recipe_id (Z.of_nat k - 1)
     = Py.Return (Instruction s)) /\
  (forall current_step,
     (Z.of_nat (length (steps recipe)) - 1 <= current_step)%Z ->
     get_next_recipe_step recipes recipe_id current_step
     = Py.Return Completed).
Proof.
  intros Hrecipe. unfold get_next_recipe_step, get_recipe. rewrite Hrecipe.
  split.
  - intros k s Hk.
    replace (Z.of_nat k - 1 + 1)%Z with (Z.of_nat k) by lia.
    apply lookup_lt_Some in Hk as Hlt.
    destruct (Z.leb_spec (Z.of_nat (length (steps recipe))) (Z.of_nat k));
      [lia|].
    now rewrite (index_nonneg _ _ _ Hk).
  - intros c Hc.
    destruct (Z.leb_spec (Z.of_nat (length (steps recipe))) (c + 1));
      [reflexivity | lia].
Qed.

Lemma steps_in_order_witness :
  get_next_recipe_step RecipeScenarios.cookbook "onions" (Z.of_nat 0 - 1)
  = Py.Return (Instruction RecipeScenarios.chop) /\
  get_next_recipe_step RecipeScenarios.cookbook "onions" 1
  = Py.Return Completed.
Proof.
  destruct (steps_in_order RecipeScenarios.cookbook "onions"
              (mkRecipe "onions" [RecipeScenarios.chop; RecipeScenarios.fry])
              eq_refl) as [Hstep Hdone].
  split.
  - apply Hstep. reflexivity.
  - apply Hdone. simpl. lia.
Defined.

(** X24. A current step below [-1] is not rejected: the index of the next
    step is negative and counts from the end of the list, so asking after
    [-2] gives the last step; only below minus the number of steps minus one
    does the call raise [IndexError]. *)
Theorem negative_step_counts_from_end recipes recipe_id recipe current_step :
  recipes !! recipe_id = Some recipe ->
  (current_step + 1 < 0)%Z ->
  ((- Z.of_nat (length (steps recipe)) <= current_step + 1)%Z ->
   exists s,
     steps recipe
       !! Z.to_nat (Z.of_nat (length (steps recipe)) + (current_step + 1))
     = Some s /\
     get_next_recipe_step recipes recipe_id current_step
     = Py.Return (Instruction s)) /\
  ((current_step + 1 < - Z.of_nat (length (steps recipe)))%Z ->
   get_next_recipe_step recipes recipe_id current_step
   = Py.Raise Py.IndexError).
Proof.
  intros Hrecipe Hneg. unfold get_next_recipe_step, get_recipe.
  rewrite Hrecipe.
  destruct (Z.leb_spec (Z.of_nat (length (steps recipe))) (current_step + 1));
    [lia|].
  unfold index.
  destruct (Z.ltb_spec (current_step + 1) 0) as [_|?]; [|lia].
  split.
  - intros Hin.
    destruct (Z.ltb_spec
                (Z.of_nat (length (steps recipe)) + (current_step + 1)) 0);
      [lia|].
    destruct (lookup_lt_is_Some_2 (steps recipe)
                (Z.to_nat (Z.of_nat (length (steps recipe))
                           + (current_step + 1))) ltac:(lia)) as [s Hs].
    exists s. split; [assumption|]. now rewrite Hs.
  - intros Hout.
    destruct (Z.ltb_spec
                (Z.of_nat (length (steps recipe)) + (current_step + 1)) 0);
      [reflexivity | lia].
Qed.

Lemma negative_step_counts_from_end_witness :
  (exists s,
     get_next_recipe_step RecipeScenarios.cookbook "onions" (-2)
     = Py.Return (Instruction s)) /\
  get_next_recipe_step RecipeScenarios.cookbook "onions" (-4)
  = Py.Raise Py.IndexError.
Proof.
  split.
  - destruct (negative_step_counts_from_end RecipeScenarios.cookbook "onions"
                (mkRecipe "onions" [RecipeScenarios.chop; RecipeScenarios.fry])
                (-2) eq_refl ltac:(lia)) as [Hin _].
    destruct (Hin ltac:(simpl; lia)) as (s & _ & Hs). now exists s.
  - apply (negative_step_counts_from_end RecipeScenarios.cookbook "onions"
             (mkRecipe "onions" [RecipeScenarios.chop; RecipeScenarios.fry])
             (-4) eq_refl ltac:(lia)).
    simpl. lia.
Defined.

End RecipeManagerFacts.
